(* ===== verification/_CoqProject ===== *)
-Q . S2P
Prelude.v
Json.v
Validators.v
Codec.v
JsNumber.v
Crypto.v
UserStore.v
Express.v
AuthController.v
AuthMiddleware.v
Server.v
ApiTypes.v
Invariant.v
RegisterRace.v
ProblemsData.v
JsSort.v
ProblemsPage.v
Leaderboard.v
ClientAuth.v
AuthPages.v
ProblemDetail.v
Router.v
Profile.v
Contest.v
Assistant.v
Collab.v
Admin.v
StaticPages.v
ClientApp.v
