(* ===== verification/Prelude.v ===== *)
(** * Code-Hustle: a verification development

    Code-Hustle is a competitive-programming web platform: a React
    front end (problem list, problem page with a mock judge, leaderboard,
    profile, contest and admin dashboards, an AI-assistant and a
    collaboration panel, all on fixture data) and an Express API for
    authentication (register, login, a bearer-token guard, a role gate)
    over a PostgreSQL [users] table.  The authentication API is the only
    part with a correctness contract, and it is modelled first.

    ** How the parts interact

    Server.  A request passes [express.json()], then a route: [register]
    and [login] (src/server/controllers/auth.js) validate the body with
    zod (src/server/validators/auth.js), query the table, hash or compare
    the password with bcrypt and sign a JSON Web Token; the protected
    route runs behind [protect] (src/server/middleware/auth.js), which
    verifies the token and re-reads the user by id; [requireRole] gates on
    the role; errors go to [errorHandler]; src/server/index.js wires it.

    Client.  [App] (src/src/App.tsx) routes paths to pages inside the
    [AuthProvider] (src/src/contexts/AuthContext.tsx), which never calls
    the server: its login stores a fixed mock token.  The pages read the
    fixtures of src/src/utils ([problems], [leaderboardData]) or their own;
    the problem page hosts the AI assistant (always mounted) and the
    collaboration panel (mounted while shown).  React state is modelled
    as a record per component, each handler as a function on it, and what
    the user and the timers can do as a step relation; [Date.now()] and
    [Math.random()] are inputs of the steps that read them.

    ** Layout (files in dependency order)

    - [Prelude]: this header; the handler monad [Eff] (state and
      exceptions, the state surviving a throw) with its [let*] notation in
      [js_scope]; JavaScript string operations ([toLowerCase],
      [startsWith], [includes], [split], [trim]); hint databases [hustle]
      and [hustle_rw]; shared lemmas on strings and lists.
    - [Json]: JSON values and field lookup ([JSON.parse] keeps the last
      duplicate key).
    - [Validators]: the zod schemas and their parse functions; theorems:
      the exact acceptance condition of each schema.
    - [Codec], [Crypto]: bcryptjs and jsonwebtoken are libraries the
      server only calls, so each is a class ([Bcrypt], [Jwt]) whose laws
      are the libraries' documented behaviour (bcrypt reads 72 bytes of a
      password; a token verifies to its payload until it expires and under
      no other secret); Module [Reference] implements both on an escaping
      field codec whose round trip is proved, for the witnesses.  [Codec]
      also holds [z_to_string], JavaScript's printing of integers.
    - [JsNumber]: JavaScript numbers as IEEE 754 binary64 doubles
      ([m * 2^e], round to nearest, ties to even), division and product
      with their infinities and NaN, and [Number.prototype.toFixed(1)];
      theorems: one rounding has relative error at most [2^-53], an
      integer below [2^53] is exact, and [((a / s) * 100).toFixed(1)]
      shows the tenths of [1000 a / s] up to [1/2 + 2^-40].
    - [UserStore]: the [users] table (modelled from the specification:
      its schema is not in the sources), one function per SQL statement,
      the invariant [db_wf] and its preservation by INSERT.
    - [Express]: the [world] a handler runs in, [res_json] (throwing once
      headers are sent), the library calls as handler steps.
    - [AuthController], [AuthMiddleware], [Server]: the handlers on every
      branch (success, conflict, bad credentials, bad or missing tokens, a
      deleted user, an unreachable table, the double response of a bare
      ["Bearer"] header), the register-then-login round trip and the
      application.  [Server] also holds the wiring of index.js:
      [dotenv.config()] and the port, [cors()] (a preflight is answered
      204 without a body; every response allows any origin),
      [express.json()] in strict mode (a malformed body, or one that is
      not an object or array, is a 500) and Express's path matching
      (case-insensitive, optional trailing slash, [HEAD] on a [GET]
      route); a short login password is a 400 whatever the table holds.
    - [ApiTypes]: a small language of JSON types, the body types the
      specification's HTTP table gives each status, and rules over the
      handler monad showing that every request of any sequence is answered
      with a body of the documented type.
    - [Invariant]: the table invariant over any sequence of served
      requests, by rules that compose over the handler monad.
    - [RegisterRace]: [register] cut at its [await]s into segments of an
      interleaving semantics; every interleaving terminates with every
      request answered on its own response, and keeps the table
      invariant; one ends in a 500 where the specification requires a
      conflict error.
    - [ProblemsData], [JsSort], [ProblemsPage]: the eight problems; a
      stable insertion sort proved to be the only stable sorted
      permutation (so any engine's [Array.prototype.sort] gives the same
      table); the problem list's filters, tag toggling and comparator,
      with the table's contents and order stated column by column
      ([filteredProblems_table]) and the acceptance column on doubles
      ([getAcceptanceRate_spec]).
    - [Leaderboard]: the fifteen entries, the search, podium and rows.
    - [ClientAuth]: the [AuthProvider] and the two forms' handlers as a
      step relation, the value it provides and [useAuth]; the signed-in
      user is always the stored token's decoding; the login ignores the
      credentials.
    - [AuthPages]: the login and register pages' own state, the
      browser's constraint validation in front of their submit events
      (required fields, the HTML e-mail grammar, the terms box), and their
      rendering; the pages' "fill in all fields" message is unreachable.
    - [ProblemDetail]: the problem page's nine hooks and pending judge as
      a step relation; the mock judge refines an abstract judge
      ([judge_refines]); every submission is answered
      ([submission_answered]); the header's acceptance figure.
    - [Router]: React Router's matching of the route table ([resolve]) and
      the Navbar; which rendered links reach a page and which reach the 404
      page; the unguarded [/admin] route.
    - [Profile]: the profile page, which ignores its [:username].
    - [Contest]: the contest dashboard's countdown (floor division and
      JavaScript's remainder on integer milliseconds) and its statuses
      frozen at mount.
    - [Assistant]: the AI panel as a step relation with its pending
      timer: every question gets the reply to its own text, in order; the
      keyword routing of answers and of their labels disagree on "help".
    - [Collab]: the collaboration panel and the page that mounts it only
      while shown, so its chat is lost on closing.
    - [Admin]: the admin dashboard, whose search filters nothing and whose
      fixtures disagree with the problem data.
    - [StaticPages]: the pages and layouts without state (HomePage with
      the contest dashboard it mounts, NotFoundPage, Footer, AuthLayout,
      MainLayout, ThemeToggle's label): their text and their links, router
      [Link]s, plain anchors, or anchors opening a new tab.
    - [ClientApp]: the whole client as one step relation over the
      provider, the Navbar's menus, the two form pages, the problem
      list's filters and the leaderboard's search: page loads,
      the provider's mount, following any link the current route and its
      layout render (router links remount replaced elements, anchors
      reload or stay), the menus, logout, and both forms.  Theorems: the
      composed invariant ([client_app_invariant]: the signed-in user is
      the stored token's, and no form ever shows "Please fill in all
      fields"); the audit of every rendered link in every state
      ([client_links_audit]: four dead router targets and broken profile
      links of odd usernames, nothing else; the profile's external links
      are https); the sign-in and logout flow
      ([client_sign_in_flow]), reachable from every state
      ([sign_in_reachable]).

    ** Not modelled

    ThemeContext is imported by App.tsx and ThemeToggle but is not in
    the sources, so the theme is a parameter; scrolling, the clipboard,
    [console.error] and opening the socket in [app.listen] are I/O.  The Monaco editor is a
    library: its [onChange] is an input of the problem page.  The hero and
    heading texts of the home page are not modelled, only its links,
    features, figures and dashboard.

    ** Bounds and approximations

    Strings are byte strings: JavaScript lengths count UTF-16 units, which
    agree on ASCII input.  Server times are integer seconds ([jwt] uses
    seconds); client times are integer milliseconds ([Date.getTime]), on
    which [Math.floor(a / b)] is [Z.div] and [a % b] is [Z.rem].
    [Math.random()] is a rational [num / den] in [[0, 1)], which covers
    every double it can return.  The doubles of [JsNumber] have an
    unbounded exponent: their operands (counts below [2^53], their
    quotients and those times 100) lie far from the subnormal and
    overflow ranges, where the bound would matter.  Postgres returns the rows of an unordered
    query in insertion order here.  No fuel is used: every definition is
    structurally recursive, and the interleavings of [RegisterRace]
    terminate by a measure on the remaining segments. *)

From stdpp Require Export base list strings decidable sets.
From Stdlib Require Export ZArith Ascii String.

(** ** The effect monad of request handlers

    Express handlers mutate the response object, query the database and
    throw.  A state change that happens before a throw survives it (an
    INSERT stays in the table when the next statement throws), so the
    monad returns the final state on both paths. *)

Declare Scope js_scope.
Delimit Scope js_scope with js.

Definition Eff (S E A : Type) : Type := S -> (E + A) * S.

Definition ret {S E A} (a : A) : Eff S E A := fun s => (inr a, s).

Definition bind {S E A B} (c : Eff S E A) (k : A -> Eff S E B) : Eff S E B :=
  fun s => match c s with
           | (inl e, s') => (inl e, s')
           | (inr a, s') => k a s'
           end.

Definition throw {S E A} (e : E) : Eff S E A := fun s => (inl e, s).

(** [try { c } catch (e) { h(e) }] *)
Definition try_catch {S E A} (c : Eff S E A) (h : E -> Eff S E A) : Eff S E A :=
  fun s => match c s with
           | (inl e, s') => h e s'
           | r => r
           end.

Definition get {S E} : Eff S E S := fun s => (inr s, s).
Definition modify {S E} (f : S -> S) : Eff S E unit := fun s => (inr tt, f s).
Definition gets {S E A} (f : S -> A) : Eff S E A := fun s => (inr (f s), s).

(** A pure computation that may fail, lifted into the monad. *)
Definition lift {S E A} (r : E + A) : Eff S E A := fun s => (r, s).

Notation "'let*' x ':=' c 'in' k" := (bind c (fun x => k))
  (at level 10, x name, c at level 100, k at level 200) : js_scope.

Open Scope js_scope.

Section MonadLaws.
  Context {S E : Type}.

Lemma bind_ret_l {A B} (a : A) (k : A -> Eff S E B) : bind (ret a) k = k a.
  Proof. reflexivity. Qed.

Lemma bind_throw {A B} (e : E) (k : A -> Eff S E B) : bind (throw e) k = throw e.
  Proof. reflexivity. Qed.

Lemma bind_assoc {A B C} (c : Eff S E A) (k : A -> Eff S E B) (k' : B -> Eff S E C) s :
    bind (bind c k) k' s = bind c (fun a => bind (k a) k') s.
  Proof. unfold bind. destruct (c s) as [[e|a] s']; reflexivity. Qed.

Lemma try_catch_ret {A} (a : A) h : @try_catch S E A (ret a) h = ret a.
  Proof. reflexivity. Qed.

Lemma try_catch_throw {A} (e : E) (h : E -> Eff S E A) s : try_catch (throw e) h s = h e s.
  Proof. reflexivity. Qed.
End MonadLaws.

Create Rewrite HintDb js_run.
Create Rewrite HintDb hustle_rw.
Create HintDb hustle.

#[export] Hint Rewrite @bind_ret_l @bind_throw @try_catch_ret @try_catch_throw : js_run.

(** Unfold the monad in a goal about a concrete run. *)
Ltac run_js := cbv [bind ret throw try_catch get modify gets lift] in *; simpl in *.

(** ** JavaScript strings

    Strings are modelled as [String.string] (bytes).  JavaScript measures
    strings in UTF-16 code units; for the ASCII inputs modelled here the
    two lengths agree. *)

Open Scope string_scope.

Definition is_upper (c : ascii) : bool :=
  let n := nat_of_ascii c in (65 <=? n)%nat && (n <=? 90)%nat.

(** [String.prototype.toLowerCase] on ASCII. *)
Definition lower_char (c : ascii) : ascii :=
  if is_upper c then ascii_of_nat (nat_of_ascii c + 32) else c.

Fixpoint toLowerCase (s : string) : string :=
  match s with
  | EmptyString => EmptyString
  | String c s' => String (lower_char c) (toLowerCase s')
  end.

(** [s.startsWith(p)] *)
Definition startsWith (s p : string) : bool := String.prefix p s.

(** [s.includes(sub)]: [sub] occurs at some position of [s]. *)
Fixpoint includes (s sub : string) : bool :=
  String.prefix sub s ||
  match s with
  | EmptyString => false
  | String _ s' => includes s' sub
  end.

(** [s.split(sep)] for a one-character separator: every occurrence
    splits, empty pieces are kept, and [""] splits to [[""]]. *)
Fixpoint split_on (sep : ascii) (s : string) : list string :=
  match s with
  | EmptyString => [EmptyString]
  | String c s' =>
      let rest := split_on sep s' in
      if Ascii.eqb c sep then EmptyString :: rest
      else match rest with
           | r :: rs => String c r :: rs
           | [] => [String c EmptyString]
           end
  end.

(** The characters [String.prototype.trim] removes (ASCII part). *)
Definition is_js_space (c : ascii) : bool :=
  let n := nat_of_ascii c in (n =? 32)%nat || ((9 <=? n)%nat && (n <=? 13)%nat).

Fixpoint trim_start (s : string) : string :=
  match s with
  | String c s' => if is_js_space c then trim_start s' else s
  | EmptyString => EmptyString
  end.

Definition rev_string (s : string) : string :=
  string_of_list_ascii (rev (list_ascii_of_string s)).

(** [s.trim()] *)
Definition trim (s : string) : string := rev_string (trim_start (rev_string (trim_start s))).

Definition space : ascii := " "%char.
Definition dquote : string := String (ascii_of_nat 34) EmptyString.

(** [c] occurs in [s]. *)
Fixpoint has_char (c : ascii) (s : string) : bool :=
  match s with
  | EmptyString => false
  | String d s' => Ascii.eqb d c || has_char c s'
  end.

(** ** Shared lemmas on strings *)


(** stdpp makes [String.append] [simpl never]; these are its equations. *)
Lemma append_nil_l s : "" ++ s = s.
Proof. reflexivity. Qed.

Lemma append_cons c a b : String c a ++ b = String c (a ++ b).
Proof. reflexivity. Qed.

Lemma string_app_assoc (a b c : string) : (a ++ b) ++ c = a ++ (b ++ c).
Proof. induction a as [|x a IH]; [done|]. rewrite !append_cons. congruence. Qed.

Lemma prefix_refl s : String.prefix s s = true.
Proof. induction s as [|c s IH]; simpl; [done|]. by destruct (ascii_dec c c). Qed.

Lemma prefix_app p r : String.prefix p (p ++ r) = true.
Proof. induction p as [|c p IH]; simpl; [by destruct r|]. by destruct (ascii_dec c c). Qed.

Lemma prefix_app_l p s r : String.prefix p s = true -> String.prefix p (s ++ r) = true.
Proof.
  revert s. induction p as [|c p IH]; intros [|d s]; simpl; try done; [by destruct r|].
  destruct (ascii_dec c d); [apply IH|done].
Qed.

Lemma startsWith_app s r : startsWith (s ++ r) s = true.
Proof. apply prefix_app. Qed.

Lemma includes_empty s : includes s "" = true.
Proof. destruct s; reflexivity. Qed.

Lemma includes_refl s : includes s s = true.
Proof. destruct s; simpl; [done|]. by destruct (ascii_dec a a); rewrite ?prefix_refl. Qed.

Lemma includes_app_r a s sub : includes s sub = true -> includes (a ++ s) sub = true.
Proof.
  induction a as [|c a IH]; intros H; simpl; [done|].
  rewrite IH by done. apply orb_true_r.
Qed.

Lemma includes_prefix s r sub : String.prefix sub s = true -> includes (s ++ r) sub = true.
Proof.
  intros H. destruct s as [|c s]; simpl.
  - destruct sub; [by destruct r|done].
  - destruct sub as [|d sub]; [done|]. simpl in H |- *.
    destruct (ascii_dec d c); [|done].
    by rewrite (prefix_app_l sub s r H).
Qed.

Lemma lower_char_idem c : lower_char (lower_char c) = lower_char c.
Proof. destruct c as [[] [] [] [] [] [] [] []]; reflexivity. Qed.

Lemma toLowerCase_idem s : toLowerCase (toLowerCase s) = toLowerCase s.
Proof. induction s as [|c s IH]; simpl; [done|]. by rewrite lower_char_idem, IH. Qed.

Lemma toLowerCase_length s : String.length (toLowerCase s) = String.length s.
Proof. induction s as [|c s IH]; simpl; auto. Qed.

Lemma toLowerCase_app a b : toLowerCase (a ++ b) = toLowerCase a ++ toLowerCase b.
Proof. induction a as [|c a IH]; simpl; [done|]. by rewrite IH. Qed.

Lemma split_on_no_sep sep s : has_char sep s = false -> split_on sep s = [s].
Proof.
  induction s as [|c s IH]; simpl; [done|]. intros H.
  apply orb_false_iff in H as [H1 H2]. rewrite H1, IH by done. done.
Qed.

Lemma split_on_app sep s1 s2 :
  has_char sep s1 = false ->
  split_on sep (s1 ++ String sep s2) = s1 :: split_on sep s2.
Proof.
  induction s1 as [|c s1 IH]; simpl; intros H.
  - by rewrite Ascii.eqb_refl.
  - apply orb_false_iff in H as [H1 H2]. rewrite H1, IH by done. done.
Qed.

#[export] Hint Resolve prefix_refl prefix_app startsWith_app includes_empty includes_refl : hustle.
#[export] Hint Rewrite toLowerCase_idem toLowerCase_length toLowerCase_app : hustle_rw.

(** ** Shared lemmas on lists *)

Lemma find_app {A} (f : A -> bool) (l1 l2 : list A) :
  List.find f (l1 ++ l2) =
  match List.find f l1 with Some x => Some x | None => List.find f l2 end.
Proof. induction l1 as [|x l1 IH]; simpl; [done|]. by destruct (f x). Qed.
