(* ===== verification/Json.v ===== *)
(** * JSON values

    Request bodies (after [express.json()]) and response bodies are JSON
    values.  Numbers are integers here: the only numbers the server
    sends are user ids. *)

From S2P Require Import Prelude.

#[warnings="-register-all"]
Inductive json : Type :=
| JNull
| JBool (b : bool)
| JNum (n : Z)
| JStr (s : string)
| JArr (l : list json)
| JObj (fields : list (string * json)).

(** [obj[key]] on a parsed object: [JSON.parse] keeps the last binding of
    a duplicated key; an absent key reads as [undefined] ([None]). *)
Definition jget (key : string) (fields : list (string * json)) : option json :=
  snd <$> List.find (fun kv => String.eqb (fst kv) key) (rev fields).

(** [value[key]] on any value: only objects have fields. *)
Definition jfield (key : string) (v : json) : option json :=
  match v with
  | JObj fs => jget key fs
  | _ => None
  end.

Lemma jget_cons_last key fields v :
  jget key (fields ++ [(key, v)]) = Some v.
Proof.
  unfold jget. rewrite rev_app_distr. simpl. by rewrite String.eqb_refl.
Qed.

Lemma jget_cons_other key k v fields :
  k <> key -> jget key ((k, v) :: fields) = jget key fields.
Proof.
  intros Hne. unfold jget. simpl.
  rewrite find_app.
  destruct (List.find _ (rev fields)) eqn:E; [done|]. simpl.
  apply String.eqb_neq in Hne. by rewrite Hne.
Qed.
