(* ===== verification/Validators.v ===== *)
(** * Request validation (src/server/validators/auth.js)

    The two zod schemas of the server and [schema.parse], which throws a
    [ZodError] carrying every issue it found.  A string field runs all of
    its checks (zod does not stop at the first failed check), keys the
    schema does not name are stripped, and an absent or non-string field
    is an [invalid_type] issue.  [z.string().email()] is zod 3's email
    pattern, written out as a boolean function. *)

From S2P Require Import Prelude Json.

Inductive issue_code : Type :=
| InvalidType
| TooSmall (min : nat)
| TooBig (max : nat)
| InvalidEmail.

Record issue : Type := mk_issue { issue_path : string; issue_kind : issue_code }.

#[export] Instance issue_code_eq_dec : EqDecision issue_code.
Proof. solve_decision. Defined.
#[export] Instance issue_eq_dec : EqDecision issue.
Proof. solve_decision. Defined.

(** ** zod's email pattern

    The pattern (case-insensitive): the address does not start with a dot
    and has no two consecutive dots; a local part of letters, digits and
    the characters [_ ' + - .] whose last character is not a dot or a
    quote; one [@]; one or more labels each followed by a dot, a label
    being a letter or digit followed by letters, digits and hyphens; and a
    top-level domain of at least two letters. *)

Definition is_alpha (c : ascii) : bool :=
  let n := nat_of_ascii c in ((65 <=? n) && (n <=? 90) || (97 <=? n) && (n <=? 122))%nat.
Definition is_digit (c : ascii) : bool :=
  let n := nat_of_ascii c in ((48 <=? n) && (n <=? 57))%nat.
Definition is_alnum (c : ascii) : bool := is_alpha c || is_digit c.

Definition in_chars (c : ascii) (cs : string) : bool := has_char c cs.

Definition local_char (c : ascii) : bool := is_alnum c || in_chars c "_'+-.".
Definition local_last (c : ascii) : bool := is_alnum c || in_chars c "_+-".

Definition all_chars (p : ascii -> bool) (s : string) : bool :=
  forallb p (list_ascii_of_string s).

(** The local part. *)
Definition local_part_ok (l : string) : bool :=
  match rev (list_ascii_of_string l) with
  | [] => false
  | c :: rest => local_last c && forallb local_char rest
  end.

(** A domain label. *)
Definition label_ok (l : string) : bool :=
  match l with
  | EmptyString => false
  | String c r => is_alnum c && all_chars (fun d => is_alnum d || Ascii.eqb d "-") r
  end.

(** The top-level domain. *)
Definition tld_ok (t : string) : bool := (2 <=? String.length t)%nat && all_chars is_alpha t.

(** Labels, then the top-level domain. *)
Definition domain_ok (d : string) : bool :=
  match rev (split_on "." d) with
  | t :: (_ :: _) as labels => tld_ok t && forallb label_ok labels
  | _ => false
  end.

Definition zod_email (s : string) : bool :=
  negb (startsWith s ".") && negb (includes s "..") &&
  match split_on "@" s with
  | [l; d] => local_part_ok l && domain_ok d
  | _ => false
  end.

(** ** String schemas *)

Inductive str_check : Type := CMin (n : nat) | CMax (n : nat) | CEmail.

(** One check of [z.string()] on the value [s] of field [key]. *)
Definition run_check (key s : string) (c : str_check) : list issue :=
  match c with
  | CMin n => if (String.length s <? n)%nat then [mk_issue key (TooSmall n)] else []
  | CMax n => if (n <? String.length s)%nat then [mk_issue key (TooBig n)] else []
  | CEmail => if zod_email s then [] else [mk_issue key InvalidEmail]
  end.

(** [z.string().<checks>] on the (possibly absent) value of a field. *)
Definition string_field_issues (key : string) (checks : list str_check) (v : option json)
  : list issue :=
  match v with
  | Some (JStr s) => flat_map (run_check key s) checks
  | _ => [mk_issue key InvalidType]
  end.

Definition object_schema := list (string * list str_check).

(** [z.object({...})]: the issues of every field, in schema order. *)
Definition object_issues (sc : object_schema) (data : json) : list issue :=
  match data with
  | JObj fs => flat_map (fun kc => string_field_issues kc.1 kc.2 (jget kc.1 fs)) sc
  | _ => [mk_issue "" InvalidType]
  end.

(** The string value of a field once the schema has accepted the object. *)
Definition field_string (key : string) (data : json) : string :=
  match jfield key data with Some (JStr s) => s | _ => "" end.

(** Lines 3-7 *)
Definition userSchema : object_schema :=
  [("username", [CMin 3; CMax 30]); ("email", [CEmail]); ("password", [CMin 8; CMax 100])].

(** Lines 9-12 *)
Definition loginSchema : object_schema :=
  [("email", [CEmail]); ("password", [CMin 8; CMax 100])].

Record registration := mk_registration { reg_username : string; reg_email : string; reg_password : string }.
Record credentials := mk_credentials { cred_email : string; cred_password : string }.

(** [validateRegistration(data)]: [userSchema.parse(data)], returning the
    stripped object or throwing the ZodError's issue list. *)
Definition validateRegistration (data : json) : list issue + registration :=
  match object_issues userSchema data with
  | [] => inr (mk_registration (field_string "username" data) (field_string "email" data)
                 (field_string "password" data))
  | iss => inl iss
  end.

(** [validateLogin(data)] *)
Definition validateLogin (data : json) : list issue + credentials :=
  match object_issues loginSchema data with
  | [] => inr (mk_credentials (field_string "email" data) (field_string "password" data))
  | iss => inl iss
  end.

(** ** What the schemas accept *)

(** The constraints of [userSchema] on the three fields. *)
Definition registration_ok (r : registration) : Prop :=
  (3 <= String.length (reg_username r) <= 30)%nat /\ zod_email (reg_email r) = true /\
  (8 <= String.length (reg_password r) <= 100)%nat.

Definition credentials_ok (c : credentials) : Prop :=
  zod_email (cred_email c) = true /\ (8 <= String.length (cred_password c) <= 100)%nat.

Lemma length_checks_nil key s lo hi :
  flat_map (run_check key s) [CMin lo; CMax hi] = [] <-> (lo <= String.length s <= hi)%nat.
Proof.
  simpl. destruct (Nat.ltb_spec (String.length s) lo), (Nat.ltb_spec hi (String.length s));
    simpl; split; intros; try done; lia.
Qed.

Lemma email_check_nil key s : flat_map (run_check key s) [CEmail] = [] <-> zod_email s = true.
Proof. simpl. destruct (zod_email s); done. Qed.

Lemma field_string_jget key fs s : jget key fs = Some (JStr s) -> field_string key (JObj fs) = s.
Proof. unfold field_string. simpl. by intros ->. Qed.

#[local] Hint Rewrite length_checks_nil email_check_nil : hustle_rw.

(** C26: The registration body is accepted, with exactly its three string
    fields, iff they satisfy the schema; every other key (a [role] sent by
    the client among them) is dropped. *)
Lemma validateRegistration_spec fs u e p :
  jget "username" fs = Some (JStr u) -> jget "email" fs = Some (JStr e) ->
  jget "password" fs = Some (JStr p) ->
  (validateRegistration (JObj fs) = inr (mk_registration u e p) <->
   registration_ok (mk_registration u e p)).
Proof.
  intros Hu He Hp. unfold validateRegistration, registration_ok. simpl.
  rewrite Hu, He, Hp. rewrite !(field_string_jget _ _ _ Hu), !(field_string_jget _ _ _ He),
    !(field_string_jget _ _ _ Hp). simpl.
  pose proof (length_checks_nil "username" u 3 30) as Lu.
  pose proof (length_checks_nil "password" p 8 100) as Lp. simpl in Lu, Lp.
  destruct (Nat.ltb_spec (String.length u) 3), (Nat.ltb_spec 30 (String.length u)),
    (zod_email e), (Nat.ltb_spec (String.length p) 8), (Nat.ltb_spec 100 (String.length p));
    simpl; split; intros; try done; lia.
Qed.

(** The login body is accepted, with its two string fields, iff they
    satisfy the schema. *)
Lemma validateLogin_spec fs e p :
  jget "email" fs = Some (JStr e) -> jget "password" fs = Some (JStr p) ->
  (validateLogin (JObj fs) = inr (mk_credentials e p) <-> credentials_ok (mk_credentials e p)).
Proof.
  intros He Hp. unfold validateLogin, credentials_ok. simpl.
  rewrite He, Hp, !(field_string_jget _ _ _ He), !(field_string_jget _ _ _ Hp). simpl.
  destruct (zod_email e), (Nat.ltb_spec (String.length p) 8), (Nat.ltb_spec 100 (String.length p));
    simpl; split; intros; try done; lia.
Qed.

(** A well-formed e-mail with a password under eight characters fails
    [loginSchema] on the password's length alone. *)
Lemma validateLogin_short fs e p :
  jget "email" fs = Some (JStr e) -> zod_email e = true ->
  jget "password" fs = Some (JStr p) -> (String.length p < 8)%nat ->
  validateLogin (JObj fs) = inl [mk_issue "password" (TooSmall 8)].
Proof.
  intros He Hz Hp Hl. unfold validateLogin. simpl. rewrite He, Hp. simpl. rewrite Hz.
  rewrite (proj2 (Nat.ltb_lt _ _) Hl), (proj2 (Nat.ltb_ge 100 (String.length p))) by lia. reflexivity.
Qed.

(** An absent field is reported as an [invalid_type] issue at its path. *)
Lemma validateRegistration_missing_email fs :
  jget "email" fs = None ->
  exists iss, validateRegistration (JObj fs) = inl iss /\ mk_issue "email" InvalidType ∈ iss.
Proof.
  intros He. unfold validateRegistration.
  assert (Hin : mk_issue "email" InvalidType ∈ object_issues userSchema (JObj fs)).
  { simpl. rewrite He. simpl. set_solver. }
  destruct (object_issues userSchema (JObj fs)); [set_solver|]. eauto.
Qed.

(** ** Witnesses *)

Definition alice_fields : list (string * json) :=
  [("username", JStr "alice"); ("email", JStr "a@x.com"); ("password", JStr "password123");
   ("role", JStr "admin")].

Lemma validateRegistration_spec_witness :
  registration_ok (mk_registration "alice" "a@x.com" "password123") /\
  ~ registration_ok (mk_registration "al" "a@x.com" "password123").
Proof.
  split.
  - apply (proj1 (validateRegistration_spec alice_fields "alice" "a@x.com" "password123"
                    eq_refl eq_refl eq_refl)). reflexivity.
  - intros Hok. apply (proj2 (validateRegistration_spec
      [("username", JStr "al"); ("email", JStr "a@x.com"); ("password", JStr "password123")]
      "al" "a@x.com" "password123" eq_refl eq_refl eq_refl)) in Hok.
    vm_compute in Hok. discriminate.
Defined.

Lemma validateLogin_spec_witness :
  credentials_ok (mk_credentials "a@x.com" "password123") /\ ~ credentials_ok (mk_credentials "a@x.com" "wrong").
Proof.
  split.
  - apply (proj1 (validateLogin_spec [("email", JStr "a@x.com"); ("password", JStr "password123")]
                    "a@x.com" "password123" eq_refl eq_refl)). reflexivity.
  - intros Hok. apply (proj2 (validateLogin_spec [("email", JStr "a@x.com"); ("password", JStr "wrong")]
                    "a@x.com" "wrong" eq_refl eq_refl)) in Hok.
    vm_compute in Hok. discriminate.
Defined.

Lemma validateRegistration_missing_email_witness :
  exists iss, validateRegistration (JObj [("username", JStr "alice"); ("password", JStr "password123")]) = inl iss /\
              mk_issue "email" InvalidType ∈ iss.
Proof. apply validateRegistration_missing_email. reflexivity. Defined.
