(* ===== verification/Codec.v ===== *)
(** * A field codec for the concrete token and hash instances

    The reference instances of the hashing and signing interfaces
    ([Crypto.v]) store their fields in one string: each field escaped
    (dot, space and backslash get a backslash escape) and terminated by a
    dot.  The codec round-trips, which is what makes the instances satisfy
    the interface laws; integers are written in decimal. *)

From S2P Require Import Prelude.
From Stdlib Require Import DecimalString DecimalZ.

Definition backslash : ascii := ascii_of_nat 92.

Definition esc_char (c : ascii) : string :=
  if Ascii.eqb c "." then String backslash (String "p" EmptyString)
  else if Ascii.eqb c " " then String backslash (String "s" EmptyString)
  else if Ascii.eqb c backslash then String backslash (String backslash EmptyString)
  else String c EmptyString.

Fixpoint esc (s : string) : string :=
  match s with
  | EmptyString => EmptyString
  | String c s' => esc_char c ++ esc s'
  end.

Definition cons_field (c : ascii) (r : option (string * string)) : option (string * string) :=
  match r with Some (f, rest) => Some (String c f, rest) | None => None end.

(** Read one escaped field up to its terminating dot. *)
Fixpoint read_field (s : string) : option (string * string) :=
  match s with
  | EmptyString => None
  | String c s' =>
      if Ascii.eqb c "." then Some (EmptyString, s')
      else if Ascii.eqb c backslash then
        match s' with
        | String d s'' =>
            if Ascii.eqb d "p" then cons_field "." (read_field s'')
            else if Ascii.eqb d "s" then cons_field " " (read_field s'')
            else if Ascii.eqb d backslash then cons_field backslash (read_field s'')
            else None
        | EmptyString => None
        end
      else cons_field c (read_field s')
  end.

Definition encode_fields (l : list string) : string :=
  foldr (fun f acc => esc f ++ String "." acc) EmptyString l.

Fixpoint decode_fields (n : nat) (s : string) : option (list string) :=
  match n with
  | O => match s with EmptyString => Some [] | _ => None end
  | S n' =>
      match read_field s with
      | Some (f, rest) => (fun l => f :: l) <$> decode_fields n' rest
      | None => None
      end
  end.

Definition z_to_string (z : Z) : string := NilEmpty.string_of_int (Z.to_int z).
Definition z_of_string (s : string) : option Z := Z.of_int <$> NilEmpty.int_of_string s.

(** ** Round trips *)

Lemma read_field_esc s rest : read_field (esc s ++ String "." rest) = Some (s, rest).
Proof.
  induction s as [|c s IH]; [reflexivity|]. simpl.
  rewrite string_app_assoc. unfold esc_char.
  destruct (Ascii.eqb_spec c ".") as [->|H1];
    [rewrite !append_cons, append_nil_l; simpl; by rewrite IH|].
  destruct (Ascii.eqb_spec c " ") as [->|H2];
    [rewrite !append_cons, append_nil_l; simpl; by rewrite IH|].
  destruct (Ascii.eqb_spec c backslash) as [->|H3];
    [rewrite !append_cons, append_nil_l; simpl; by rewrite IH|].
  rewrite append_cons, append_nil_l. simpl.
  apply Ascii.eqb_neq in H1, H3. rewrite H1, H3, IH. done.
Qed.

Lemma decode_encode l : decode_fields (List.length l) (encode_fields l) = Some l.
Proof.
  induction l as [|f l IH]; [reflexivity|]. simpl.
  by rewrite read_field_esc, IH.
Qed.

Lemma encode_fields_inj l l' : List.length l = List.length l' -> encode_fields l = encode_fields l' -> l = l'.
Proof.
  intros Hlen Heq. pose proof (decode_encode l) as A. pose proof (decode_encode l') as B.
  rewrite Heq, Hlen, B in A. congruence.
Qed.

Lemma z_of_to_string z : z_of_string (z_to_string z) = Some z.
Proof. unfold z_of_string, z_to_string. rewrite NilEmpty.isi. simpl. by rewrite DecimalZ.of_to. Qed.

Lemma z_to_string_inj z z' : z_to_string z = z_to_string z' -> z = z'.
Proof. intros H. pose proof (z_of_to_string z). rewrite H, z_of_to_string in H0. congruence. Qed.

(** No encoded string contains a space. *)
Lemma has_char_app c a b : has_char c (a ++ b) = has_char c a || has_char c b.
Proof. induction a as [|d a IH]; [done|]. rewrite append_cons. simpl. by rewrite IH, orb_assoc. Qed.

Lemma esc_no_space s : has_char " " (esc s) = false.
Proof.
  induction s as [|c s IH]; [done|]. simpl. rewrite has_char_app, IH, orb_false_r.
  unfold esc_char.
  destruct (Ascii.eqb_spec c "."); [done|].
  destruct (Ascii.eqb_spec c " "); [done|].
  destruct (Ascii.eqb_spec c backslash); [done|].
  simpl. apply Ascii.eqb_neq in n0. by rewrite n0.
Qed.

Lemma encode_no_space l : has_char " " (encode_fields l) = false.
Proof.
  induction l as [|f l IH]; [done|]. simpl. rewrite has_char_app, esc_no_space. exact IH.
Qed.

Lemma encode_nonempty f l : encode_fields (f :: l) <> EmptyString.
Proof. simpl. destruct (esc f); discriminate. Qed.

#[export] Hint Resolve esc_no_space encode_no_space encode_nonempty : hustle.
