(* ===== verification/JsNumber.v ===== *)
(** * JavaScript numbers: division, multiplication and [toFixed]

    A JavaScript number is an IEEE 754 binary64 double.  The client shows
    acceptance rates as [((accepted / submissions) * 100).toFixed(1)]
    (ProblemsPage.tsx line 101, ProblemDetailPage.tsx line 179): two
    operations each rounded to the nearest double, then [toFixed], which
    rounds the exact value of the resulting double to tenths (ECMA-262,
    Number.prototype.toFixed: the [n] nearest [10 x], the larger on a tie).

    A finite double is [m * 2^e] with [|m| <= 2^53]; [round_q] gives the
    double nearest a quotient, ties to an even [m].  The operands here are
    integers below 2^53 and quotients of them times 100, which lie far from
    the subnormal and overflow ranges, so the exponent is left unbounded.
    The rounding is proved to have relative error at most 2^-53. *)

From S2P Require Import Prelude Codec.
From Stdlib Require Import Reals Lra Lia.

Record double : Type := mk_double { d_m : Z; d_e : Z }.

(** A JavaScript number: a finite double, an infinity or NaN. *)
Inductive number : Type := Finite (x : double) | PosInf | NegInf | NaN.

(** [N / D = num / (den * 2^e)] as a quotient of integers. *)
Definition scale (num den e : Z) : Z * Z :=
  if (0 <=? e)%Z then (num, den * 2 ^ e)%Z else (num * 2 ^ (- e), den)%Z.

(** The integer nearest [N / D], a tie to the even one. *)
Definition rne (N D : Z) : Z :=
  let q := (N / D)%Z in let r := (N mod D)%Z in
  if (D <? 2 * r)%Z || ((2 * r =? D)%Z && Z.odd q) then (q + 1)%Z else q.

(** The exponent that puts [num / den] between [2^52] and [2^53]. *)
Definition expo (num den : Z) : Z :=
  let e := (Z.log2 num - Z.log2 den - 52)%Z in
  let '(N, D) := scale num den e in
  if (N <? 2 ^ 52 * D)%Z then (e - 1)%Z else e.

(** The double nearest [num / den > 0].  Rounding up may give [m = 2^53],
    which stands for the same value as [2^52 * 2^(e + 1)]. *)
Definition round_pos (num den : Z) : double :=
  let e := expo num den in
  let '(N, D) := scale num den e in
  mk_double (rne N D) e.

(** The double nearest [num / den], [den > 0]. *)
Definition round_q (num den : Z) : double :=
  if (num =? 0)%Z then mk_double 0 0
  else if (num <? 0)%Z then let x := round_pos (- num) den in mk_double (- d_m x) (d_e x)
  else round_pos num den.

(** The exact value of a double as a quotient [a / b], [b > 0]. *)
Definition ratio (x : double) : Z * Z :=
  if (0 <=? d_e x)%Z then (d_m x * 2 ^ d_e x, 1)%Z else (d_m x, 2 ^ (- d_e x))%Z.

(** The real number a double stands for. *)
Definition value (x : double) : R := let '(a, b) := ratio x in (IZR a / IZR b)%R.

(** An integer as a number (exact below 2^53). *)
Definition of_int (z : Z) : number := Finite (round_q z 1).

Definition sign (x : double) : comparison := Z.compare (d_m x) 0.

(** [x / y] *)
Definition js_div (x y : number) : number :=
  match x, y with
  | Finite a, Finite b =>
      let '(p, q) := ratio a in let '(r, t) := ratio b in
      if (r =? 0)%Z then
        match sign a with Gt => PosInf | Lt => NegInf | Eq => NaN end
      else if (r <? 0)%Z then Finite (round_q (- (p * t)) (- (q * r)))
      else Finite (round_q (p * t) (q * r))
  | Finite a, (PosInf | NegInf) => Finite (mk_double 0 0)
  | PosInf, Finite b => match sign b with Lt => NegInf | _ => PosInf end
  | NegInf, Finite b => match sign b with Lt => PosInf | _ => NegInf end
  | _, _ => NaN
  end.

(** [x * y] *)
Definition js_mul (x y : number) : number :=
  let inf (s : comparison) (pos : bool) :=
    match s with Eq => NaN | Gt => if pos then PosInf else NegInf | Lt => if pos then NegInf else PosInf end in
  match x, y with
  | Finite a, Finite b =>
      let '(p, q) := ratio a in let '(r, t) := ratio b in Finite (round_q (p * r) (q * t))
  | PosInf, Finite b => inf (sign b) true
  | NegInf, Finite b => inf (sign b) false
  | Finite a, PosInf => inf (sign a) true
  | Finite a, NegInf => inf (sign a) false
  | PosInf, PosInf | NegInf, NegInf => PosInf
  | PosInf, NegInf | NegInf, PosInf => NegInf
  | _, _ => NaN
  end.

(** [n] with one decimal: [n / 10] and the digit [n mod 10]. *)
Definition tenths_digits (n : Z) : string := (z_to_string (n / 10) ++ "." ++ z_to_string (n mod 10))%string.

(** The tenths [toFixed(1)] prints for a double: [floor (10 |x| + 1/2)]. *)
Definition fixed_tenths (x : double) : Z :=
  let '(a, b) := ratio x in ((20 * Z.abs a + b) / (2 * b))%Z.

(** [x.toFixed(1)]; a negative [x] is printed with its sign even when it
    rounds to zero. *)
Definition toFixed1 (x : number) : string :=
  match x with
  | Finite d => ((if (d_m d <? 0)%Z then "-" else "") ++ tenths_digits (fixed_tenths d))%string
  | PosInf => "Infinity"
  | NegInf => "-Infinity"
  | NaN => "NaN"
  end.

(** [((accepted / submissions) * 100).toFixed(1)] *)
Definition percent_fixed (accepted submissions : Z) : string :=
  toFixed1 (js_mul (js_div (of_int accepted) (of_int submissions)) (of_int 100)).

(** ** Rounding error *)

(** [rne] is within half a unit of [N / D]. *)
Lemma rne_spec N D : (0 < D)%Z -> (2 * Z.abs (rne N D * D - N) <= D)%Z.
Proof.
  intros HD. unfold rne.
  pose proof (Z.div_mod N D ltac:(lia)) as Hdm. pose proof (Z.mod_pos_bound N D HD) as Hb.
  destruct (_ || _) eqn:E.
  - apply orb_true_iff in E as [E|E].
    + apply Z.ltb_lt in E. lia.
    + apply andb_true_iff in E as [E _]. apply Z.eqb_eq in E. lia.
  - apply orb_false_iff in E as [E1 _]. apply Z.ltb_ge in E1. lia.
Qed.

(** [expo] scales [num / den] into [[2^52, 2^53)], where a rounding to an
    integer loses at most [2^-53] of the value. *)
Lemma expo_spec num den : (0 < num)%Z -> (0 < den)%Z ->
  let '(N, D) := scale num den (expo num den) in (0 < D /\ 2 ^ 52 * D <= N < 2 ^ 53 * D)%Z.
Proof.
  intros Hn Hd. unfold expo.
  pose proof (Z.log2_spec num Hn) as [Hn1 Hn2]. pose proof (Z.log2_spec den Hd) as [Hd1 Hd2].
  pose proof (Z.log2_nonneg num). pose proof (Z.log2_nonneg den).
  set (ln := Z.log2 num) in *. set (ld := Z.log2 den) in *.
  rewrite Z.pow_succ_r in Hn2, Hd2 by lia.
  assert (H52 : (0 < 2 ^ 52)%Z) by lia.
  set (e0 := (ln - ld - 52)%Z).
  destruct (Z.le_gt_cases 0 e0) as [He|He].
  - assert (Hp : (2 ^ ln = 2 ^ e0 * 2 ^ ld * 2 ^ 52)%Z).
    { rewrite <- !Z.pow_add_r by lia. f_equal. lia. }
    assert (Hpe : (0 < 2 ^ e0)%Z) by (apply Z.pow_pos_nonneg; lia).
    assert (Hpd : (0 < 2 ^ ld)%Z) by (apply Z.pow_pos_nonneg; lia).
    unfold scale. rewrite (proj2 (Z.leb_le 0 e0) He).
    destruct (num <? 2 ^ 52 * (den * 2 ^ e0))%Z eqn:B.
    + apply Z.ltb_lt in B. destruct (Z.eq_dec e0 0) as [E0|E0].
      * rewrite E0 in *. simpl.
        split; [lia|]. split; nia.
      * rewrite (proj2 (Z.leb_le 0 (e0 - 1))) by lia. cbn iota beta.
        assert (Hq : (2 ^ e0 = 2 * 2 ^ (e0 - 1))%Z).
        { rewrite <- Z.pow_succ_r by lia. f_equal. lia. }
        assert (Hpe' : (0 < 2 ^ (e0 - 1))%Z) by (apply Z.pow_pos_nonneg; lia).
        split; [nia|]. split; nia.
    + apply Z.ltb_ge in B. cbn iota beta. rewrite (proj2 (Z.leb_le 0 e0) He). cbn iota beta.
      split; [nia|]. split; nia.
  - set (k := (- e0)%Z).
    assert (Hp : (2 ^ ln * 2 ^ k = 2 ^ ld * 2 ^ 52)%Z).
    { rewrite <- !Z.pow_add_r by lia. f_equal. lia. }
    assert (Hpk : (0 < 2 ^ k)%Z) by (apply Z.pow_pos_nonneg; lia).
    assert (Hpd : (0 < 2 ^ ln)%Z) by (apply Z.pow_pos_nonneg; lia).
    unfold scale. rewrite (proj2 (Z.leb_gt 0 e0) He). fold k.
    destruct (num * 2 ^ k <? 2 ^ 52 * den)%Z eqn:B.
    + apply Z.ltb_lt in B. rewrite (proj2 (Z.leb_gt 0 (e0 - 1))) by lia. cbn iota beta.
      assert (Hq : (2 ^ (- (e0 - 1)) = 2 * 2 ^ k)%Z).
      { rewrite <- Z.pow_succ_r by lia. f_equal. lia. }
      cbn iota beta. rewrite Hq. split; [lia|]. split; nia.
    + apply Z.ltb_ge in B. cbn iota beta. rewrite (proj2 (Z.leb_gt 0 e0) He). cbn iota beta. fold k.
      split; [lia|]. split; nia.
Qed.

Lemma rne_nonneg N D : (0 <= N)%Z -> (0 < D)%Z -> (0 <= rne N D)%Z.
Proof.
  intros HN HD. unfold rne. pose proof (Z.div_pos N D HN HD). destruct (_ || _); lia.
Qed.

Lemma rne_1 N : rne N 1 = N.
Proof. unfold rne. rewrite Z.div_1_r, Z.mod_1_r. reflexivity. Qed.

(** One rounding: the double [x] nearest [num / den] has
    [2^53 |x - num/den| <= num/den]. *)
Lemma round_pos_err num den : (0 < num)%Z -> (0 < den)%Z ->
  let '(A, B) := ratio (round_pos num den) in
  (0 < B /\ 0 <= A /\ 2 ^ 53 * Z.abs (A * den - num * B) <= num * B)%Z.
Proof.
  intros Hn Hd. pose proof (expo_spec num den Hn Hd) as HE. unfold round_pos.
  set (e := expo num den) in *. clearbody e. unfold scale in *. unfold ratio. simpl.
  destruct (0 <=? e)%Z eqn:Ee; simpl in *.
  - apply Z.leb_le in Ee. rewrite (proj2 (Z.leb_le 0 e) Ee).
    destruct HE as [HD [HE1 HE2]].
    pose proof (rne_spec num (den * 2 ^ e) HD). pose proof (rne_nonneg num _ ltac:(lia) HD).
    split; [lia|]. split; [nia|]. nia.
  - apply Z.leb_gt in Ee. rewrite (proj2 (Z.leb_gt 0 e) Ee).
    assert (Hk : (0 < 2 ^ (- e))%Z) by (apply Z.pow_pos_nonneg; lia).
    destruct HE as [HD [HE1 HE2]].
    pose proof (rne_spec (num * 2 ^ (- e)) den HD). pose proof (rne_nonneg (num * 2 ^ (- e)) den ltac:(nia) HD).
    split; [lia|]. split; [lia|]. nia.
Qed.

Lemma round_q_err num den : (0 <= num)%Z -> (0 < den)%Z ->
  let '(A, B) := ratio (round_q num den) in
  (0 < B /\ 0 <= A /\ 2 ^ 53 * Z.abs (A * den - num * B) <= num * B)%Z.
Proof.
  intros Hn Hd. unfold round_q. destruct (Z.eqb_spec num 0) as [->|Hn0].
  - cbn. lia.
  - rewrite (proj2 (Z.ltb_ge num 0)) by lia. apply round_pos_err; lia.
Qed.

Lemma round_q_nonneg num den : (0 <= num)%Z -> (0 < den)%Z -> (0 <= d_m (round_q num den))%Z.
Proof.
  intros Hn Hd. unfold round_q. destruct (Z.eqb_spec num 0) as [->|Hn0]; [cbn; lia|].
  rewrite (proj2 (Z.ltb_ge num 0)) by lia. unfold round_pos.
  destruct (scale num den (expo num den)) as [N D] eqn:ES.
  pose proof (expo_spec num den ltac:(lia) Hd) as HE. rewrite ES in HE. apply rne_nonneg; lia.
Qed.

(** An integer below [2^53] is a double: [of_int] is exact. *)
Lemma round_q_int z : (0 <= z < 2 ^ 53)%Z ->
  let '(A, B) := ratio (round_q z 1) in (0 < B /\ A = z * B)%Z.
Proof.
  intros Hz. unfold round_q. destruct (Z.eqb_spec z 0) as [->|Hz0]; [cbn; lia|].
  rewrite (proj2 (Z.ltb_ge z 0)) by lia.
  pose proof (expo_spec z 1 ltac:(lia) ltac:(lia)) as HE. unfold round_pos, ratio.
  set (e := expo z 1) in *. clearbody e. unfold scale in *.
  destruct (0 <=? e)%Z eqn:Ee; cbn iota beta zeta in *.
  - destruct HE as [HD [HE1 HE2]].
    assert (H1 : (2 ^ e = 1)%Z) by lia. rewrite H1, rne_1. cbn [d_m d_e]. rewrite Ee, H1. cbn iota beta. lia.
  - rewrite rne_1. cbn [d_m d_e]. rewrite Ee. cbn iota beta. apply Z.leb_gt in Ee.
    assert (Hk : (0 < 2 ^ (- e))%Z) by (apply Z.pow_pos_nonneg; lia). lia.
Qed.

Open Scope R_scope.

(** A relative error bound between integer quotients, read in [R]. *)
Lemma err_R K X P Y Q : (0 <= K)%Z -> (0 < P)%Z -> (0 < Q)%Z ->
  (K * Z.abs (X * Q - Y * P) <= Y * P)%Z ->
  - (IZR Y / IZR Q) <= IZR K * (IZR X / IZR P - IZR Y / IZR Q) <= IZR Y / IZR Q.
Proof.
  intros HK HP HQ H.
  assert (H1 : (- (Y * P) <= K * (X * Q - Y * P) <= Y * P)%Z)
    by (destruct (Z.abs_spec (X * Q - Y * P)) as [[? E]|[? E]]; rewrite E in H; nia).
  destruct H1 as [H1 H2]. apply IZR_le in H1, H2.
  apply IZR_lt in HP, HQ.
  assert (HPQ : 0 < / (IZR P * IZR Q)) by (apply Rinv_0_lt_compat, Rmult_lt_0_compat; lra).
  assert (E1 : IZR K * (IZR X / IZR P - IZR Y / IZR Q) = IZR (K * (X * Q - Y * P)) * / (IZR P * IZR Q))
    by (rewrite mult_IZR, minus_IZR, !mult_IZR; field; lra).
  assert (E2 : IZR Y / IZR Q = IZR (Y * P) * / (IZR P * IZR Q))
    by (rewrite mult_IZR; field; lra).
  rewrite E1, E2. rewrite opp_IZR in H1. split.
  - rewrite Ropp_mult_distr_l. apply Rmult_le_compat_r; lra.
  - apply Rmult_le_compat_r; lra.
Qed.

(** [floor (10 x + 1/2)] for [x = A / B], read in [R]. *)
Lemma tenths_R A B : (0 < B)%Z ->
  2 * IZR ((20 * A + B) / (2 * B)) <= 20 * (IZR A / IZR B) + 1 < 2 * IZR ((20 * A + B) / (2 * B)) + 2.
Proof.
  intros HB. set (n := ((20 * A + B) / (2 * B))%Z).
  pose proof (Z.div_mod (20 * A + B) (2 * B) ltac:(lia)) as Hd.
  pose proof (Z.mod_pos_bound (20 * A + B) (2 * B) ltac:(lia)) as Hm. fold n in Hd.
  assert (Z1 : (2 * B * n <= 20 * A + B < 2 * B * n + 2 * B)%Z) by lia.
  destruct Z1 as [Z1 Z2]. apply IZR_le in Z1. apply IZR_lt in Z2, HB.
  repeat rewrite ?plus_IZR, ?mult_IZR in Z1. repeat rewrite ?plus_IZR, ?mult_IZR in Z2.
  assert (E : (20 * (IZR A / IZR B) + 1) * IZR B = 20 * IZR A + IZR B) by (field; lra).
  split.
  - apply (Rmult_le_reg_r (IZR B)); [lra|]. rewrite E. lra.
  - apply (Rmult_lt_reg_r (IZR B)); [lra|]. rewrite E. lra.
Qed.

(** Two roundings of relative error [2^-53] and [toFixed]'s rounding to
    tenths stay within [1/2 + 2^-40] tenths of the exact percentage. *)
Lemma percent_error_R (E V1 V2 n : R) : 0 <= E <= 1 ->
  - E <= 9007199254740992 * (V1 - E) <= E ->
  - (100 * V1) <= 9007199254740992 * (V2 - 100 * V1) <= 100 * V1 ->
  2 * n <= 20 * V2 + 1 < 2 * n + 2 ->
  - 549755813889 <= 1099511627776 * (n - 1000 * E) <= 549755813889 /\ n < 1001.
Proof. intros. lra. Qed.

(** The bound read back in integers, multiplied by [s]. *)
Lemma back_Z n a s : (0 < s)%Z ->
  - 549755813889 <= 1099511627776 * (IZR n - 1000 * (IZR a / IZR s)) <= 549755813889 ->
  (1099511627776 * Z.abs (n * s - 1000 * a) <= 549755813889 * s)%Z.
Proof.
  intros Hs [H1 H2]. pose proof (IZR_lt _ _ Hs) as Hs'.
  assert (E : 1099511627776 * (IZR n - 1000 * (IZR a / IZR s)) * IZR s
              = IZR (1099511627776 * (n * s - 1000 * a))) by (rewrite mult_IZR, minus_IZR, !mult_IZR; field; lra).
  assert (L1 : IZR (- (549755813889 * s)) <= IZR (1099511627776 * (n * s - 1000 * a))).
  { rewrite <- E, opp_IZR, mult_IZR. rewrite Ropp_mult_distr_l. apply Rmult_le_compat_r; lra. }
  assert (L2 : IZR (1099511627776 * (n * s - 1000 * a)) <= IZR (549755813889 * s)).
  { rewrite <- E, mult_IZR. apply Rmult_le_compat_r; lra. }
  apply le_IZR in L1, L2. lia.
Qed.

Close Scope R_scope.

Lemma ratio_int z : (0 <= z < 2 ^ 53)%Z -> exists B, ratio (round_q z 1) = (z * B, B)%Z /\ (0 < B)%Z.
Proof.
  intros Hz. pose proof (round_q_int z Hz) as H.
  destruct (ratio (round_q z 1)) as [A B]. destruct H as [HB ->]. eauto.
Qed.

Lemma err_cancel X Y c : (0 < c)%Z -> (2 ^ 53 * Z.abs (c * X) <= c * Y)%Z -> (2 ^ 53 * Z.abs X <= Y)%Z.
Proof. intros Hc H. rewrite Z.abs_mul, (Z.abs_eq c) in H by lia. nia. Qed.

(** [((a / s) * 100).toFixed(1)] for [0 <= a <= s < 2^53] prints tenths
    [n] in [[0, 1000]] within [1/2 + 2^-40] of [1000 a / s]. *)
Theorem percent_fixed_bound a s : (0 <= a <= s)%Z -> (0 < s < 2 ^ 53)%Z ->
  exists n, percent_fixed a s = tenths_digits n /\ (0 <= n <= 1000)%Z /\
            (2 ^ 40 * Z.abs (n * s - 1000 * a) <= (2 ^ 39 + 1) * s)%Z.
Proof.
  intros Has Hs.
  destruct (ratio_int a ltac:(lia)) as [Ba [Ea HBa]].
  destruct (ratio_int s ltac:(lia)) as [Bs [Es HBs]].
  destruct (ratio_int 100 ltac:(lia)) as [Bc [Ec HBc]].
  unfold percent_fixed, of_int, js_div, js_mul. rewrite Ea, Es, Ec. cbn iota beta zeta.
  rewrite (proj2 (Z.eqb_neq (s * Bs) 0)), (proj2 (Z.ltb_ge (s * Bs) 0)) by nia.
  pose proof (round_q_err (a * Ba * Bs) (Ba * (s * Bs)) ltac:(nia) ltac:(nia)) as R1.
  destruct (ratio (round_q (a * Ba * Bs) (Ba * (s * Bs)))) as [A1 B1]. destruct R1 as [HB1 [HA1 R1]].
  pose proof (round_q_err (A1 * (100 * Bc)) (B1 * Bc) ltac:(nia) ltac:(nia)) as R2.
  pose proof (round_q_nonneg (A1 * (100 * Bc)) (B1 * Bc) ltac:(nia) ltac:(nia)) as Hm.
  unfold toFixed1, fixed_tenths.
  destruct (round_q (A1 * (100 * Bc)) (B1 * Bc)) as [m e] eqn:X2. cbn [d_m] in Hm.
  destruct (ratio (mk_double m e)) as [A2 B2]. destruct R2 as [HB2 [HA2 R2]].
  cbn [d_m].
  rewrite (proj2 (Z.ltb_ge m 0)) by lia. rewrite (Z.abs_eq A2) by lia.
  exists ((20 * A2 + B2) / (2 * B2))%Z. split; [reflexivity|].
  assert (F1 : (2 ^ 53 * Z.abs (A1 * s - a * B1) <= a * B1)%Z).
  { apply (err_cancel _ _ (Ba * Bs)); [nia|].
    replace (Ba * Bs * (A1 * s - a * B1))%Z with (A1 * (Ba * (s * Bs)) - a * Ba * Bs * B1)%Z by ring.
    replace (Ba * Bs * (a * B1))%Z with (a * Ba * Bs * B1)%Z by ring. exact R1. }
  assert (F2 : (2 ^ 53 * Z.abs (A2 * B1 - 100 * A1 * B2) <= 100 * A1 * B2)%Z).
  { apply (err_cancel _ _ Bc); [nia|].
    replace (Bc * (A2 * B1 - 100 * A1 * B2))%Z with (A2 * (B1 * Bc) - A1 * (100 * Bc) * B2)%Z by ring.
    replace (Bc * (100 * A1 * B2))%Z with (A1 * (100 * Bc) * B2)%Z by ring. exact R2. }
  pose proof (err_R (2 ^ 53) A1 B1 a s ltac:(lia) HB1 ltac:(lia) F1) as G1.
  pose proof (err_R (2 ^ 53) A2 B2 (100 * A1) B1 ltac:(lia) HB2 HB1 F2) as G2.
  pose proof (tenths_R A2 B2 HB2) as G3.
  set (n := ((20 * A2 + B2) / (2 * B2))%Z) in *.
  assert (G0 : (0 <= IZR a / IZR s <= 1)%R).
  { pose proof (IZR_lt 0 s ltac:(lia)). pose proof (IZR_le 0 a ltac:(lia)). pose proof (IZR_le a s ltac:(lia)).
    split; [unfold Rdiv; apply Rmult_le_pos; [lra|left; apply Rinv_0_lt_compat; lra]|]. apply (Rmult_le_reg_r (IZR s)); [lra|].
    unfold Rdiv. rewrite Rmult_assoc, Rinv_l by lra. lra. }
  rewrite mult_IZR in G2. change (IZR (2 ^ 53)) with 9007199254740992%R in G1, G2.
  replace (IZR 100 * IZR A1 / IZR B1)%R with (100 * (IZR A1 / IZR B1))%R in G2
    by (unfold Rdiv; rewrite Rmult_assoc; reflexivity).
  destruct (percent_error_R _ _ _ _ G0 G1 G2 G3) as [G4 G5].
  split.
  - split; [apply Z.div_pos; lia|]. apply lt_IZR in G5. lia.
  - change (2 ^ 40)%Z with 1099511627776%Z. change (2 ^ 39 + 1)%Z with 549755813889%Z.
    apply back_Z; lia || exact G4.
Qed.

Lemma ratio_opp m e : ratio (mk_double (- m) e) = let '(a, b) := ratio (mk_double m e) in (- a, b)%Z.
Proof. unfold ratio. simpl. destruct (0 <=? e)%Z; f_equal; lia. Qed.

(** The rounding bound for a quotient of either sign. *)
Lemma round_q_err_abs num den : (0 < den)%Z ->
  let '(A, B) := ratio (round_q num den) in
  (0 < B /\ 2 ^ 53 * Z.abs (A * den - num * B) <= Z.abs num * B)%Z.
Proof.
  intros Hd. destruct (Z.le_gt_cases 0 num) as [Hn|Hn].
  - pose proof (round_q_err num den Hn Hd) as H. destruct (ratio _) as [A B].
    rewrite (Z.abs_eq num) by lia. tauto.
  - unfold round_q. rewrite (proj2 (Z.eqb_neq num 0)), (proj2 (Z.ltb_lt num 0)) by lia.
    pose proof (round_pos_err (- num) den ltac:(lia) Hd) as H.
    destruct (round_pos (- num) den) as [m e]. simpl. rewrite ratio_opp.
    destruct (ratio (mk_double m e)) as [A B]. destruct H as (HB & _ & H). split; [done|].
    replace (- A * den - num * B)%Z with (- (A * den - - num * B))%Z by ring.
    rewrite Z.abs_opp, (Z.abs_neq num) by lia. exact H.
Qed.

Open Scope R_scope.


Close Scope R_scope.


