(* ===== verification/Crypto.v ===== *)
(** * Password hashing and session tokens: the interfaces the server calls

    The server calls two libraries: bcryptjs ([genSalt], [hash],
    [compare]) and jsonwebtoken ([sign], [verify]).  Each is an interface
    here, a class whose laws are what the controllers and the middleware
    rely on; the handlers' theorems are proved against the classes.  The
    laws are the libraries' documented behaviour, idealised where a real
    library is only computationally secure (no two secrets sign to the
    same token, a hash matches only the passwords that agree with its own
    on the 72 bytes bcrypt reads).  A reference instance of each, built
    on the field codec of [Codec.v], discharges the laws and lets the
    witnesses compute. *)

From S2P Require Import Prelude Codec.

(** ** bcrypt *)

(** bcrypt reads at most the first 72 bytes of a password. *)
Definition bcrypt_key (pw : string) : string := substring 0 72 pw.

Class Bcrypt : Type := {
  bcrypt_genSalt : Z -> nat -> string;          (** rounds, fresh randomness *)
  bcrypt_hash : string -> string -> string;     (** password, salt *)
  bcrypt_compare : string -> string -> bool;    (** password, stored hash *)
  bcrypt_compare_hash pw pw' salt :
    bcrypt_compare pw (bcrypt_hash pw' salt) = true <-> bcrypt_key pw = bcrypt_key pw';
  bcrypt_compare_sound pw h :
    bcrypt_compare pw h = true -> exists pw' salt, h = bcrypt_hash pw' salt /\ bcrypt_key pw = bcrypt_key pw';
  bcrypt_hash_nonempty pw salt : bcrypt_hash pw salt <> ""
}.

(** ** JSON Web Tokens *)

(** The payload the server signs: [{ id, username, role }]. *)
Record claims : Type := mk_claims { claim_id : Z; claim_username : string; claim_role : string }.

#[export] Instance claims_eq_dec : EqDecision claims.
Proof. solve_decision. Defined.

Inductive jwt_error : Type :=
| JwtMustBeProvided      (** the token is [undefined] or [""] *)
| JwtMalformed
| InvalidSignature
| TokenExpired
| SecretMissing.         (** [process.env.JWT_SECRET] is unset or empty *)

Class Jwt : Type := {
  jwt_sign : claims -> string -> Z -> Z -> string;        (** payload, secret, iat, exp *)
  jwt_verify : string -> string -> Z -> jwt_error + claims; (** token, secret, now *)
  jwt_verify_sign c k iat exp now :
    (now < exp)%Z -> jwt_verify (jwt_sign c k iat exp) k now = inr c;
  jwt_verify_expired c k iat exp now :
    (exp <= now)%Z -> jwt_verify (jwt_sign c k iat exp) k now = inl TokenExpired;
  jwt_verify_sound t k now c :
    jwt_verify t k now = inr c -> exists iat exp, t = jwt_sign c k iat exp /\ (now < exp)%Z;
  jwt_sign_inj c k i e c' k' i' e' :
    jwt_sign c k i e = jwt_sign c' k' i' e' -> c = c' /\ k = k' /\ i = i' /\ e = e';
  jwt_sign_no_space c k i e : has_char " " (jwt_sign c k i e) = false;
  jwt_sign_nonempty c k i e : jwt_sign c k i e <> ""
}.

(** [expiresIn: '30d'], in seconds. *)
Definition thirty_days : Z := 30 * 24 * 60 * 60.

Section JsonWebToken.
  Context `{Jwt}.

  (** [jwt.sign(payload, secret, { expiresIn: '30d' })] at time [now]:
      an unset or empty secret throws. *)
Definition sign_js (c : claims) (secret : option string) (now : Z) : jwt_error + string :=
    match secret with
    | Some k => if String.eqb k "" then inl SecretMissing else inr (jwt_sign c k now (now + thirty_days))
    | None => inl SecretMissing
    end.

  (** [jwt.verify(token, secret)] at time [now]: an absent or empty token
      is refused first, then an unset secret. *)
Definition verify_js (token : option string) (secret : option string) (now : Z)
    : jwt_error + claims :=
    match token with
    | None => inl JwtMustBeProvided
    | Some t =>
        if String.eqb t "" then inl JwtMustBeProvided
        else match secret with
             | Some k => if String.eqb k "" then inl SecretMissing else jwt_verify t k now
             | None => inl SecretMissing
             end
    end.

  (** A token verifies under at most one secret. *)
Lemma verify_other_secret c k k' iat exp now :
    k <> k' -> forall c', jwt_verify (jwt_sign c k iat exp) k' now <> inr c'.
  Proof.
    intros Hne c' Hv. apply jwt_verify_sound in Hv as (i & e & Heq & _).
    apply jwt_sign_inj in Heq as (_ & Hk & _). done.
  Qed.

  (** Only tokens the server signed with its secret verify. *)
Lemma verify_js_sound t k now c :
    verify_js (Some t) (Some k) now = inr c ->
    exists iat exp, t = jwt_sign c k iat exp /\ (now < exp)%Z.
  Proof.
    unfold verify_js. destruct (String.eqb t ""), (String.eqb k ""); try done.
    apply jwt_verify_sound.
  Qed.

  (** A token signed with the configured secret verifies until it expires. *)
Lemma verify_js_signed c k iat exp now :
  k <> "" -> (now < exp)%Z -> verify_js (Some (jwt_sign c k iat exp)) (Some k) now = inr c.
Proof.
  intros Hk Hnow. unfold verify_js.
  rewrite (proj2 (String.eqb_neq _ _) (jwt_sign_nonempty _ _ _ _)), (proj2 (String.eqb_neq _ _) Hk).
  by apply jwt_verify_sign.
Qed.

(** Round trip: a token issued at [iat] verifies to its payload until
      thirty days have passed, and is expired from then on. *)
Lemma sign_verify_js c k iat now :
    k <> "" -> sign_js c (Some k) iat = inr (jwt_sign c k iat (iat + thirty_days)) /\
    verify_js (Some (jwt_sign c k iat (iat + thirty_days))) (Some k) now =
      (if (now <? iat + thirty_days)%Z then inr c else inl TokenExpired).
  Proof.
    intros Hk. apply String.eqb_neq in Hk. unfold sign_js, verify_js. rewrite Hk. split; [done|].
    destruct (String.eqb_spec (jwt_sign c k iat (iat + thirty_days)) "") as [E|_];
      [by apply jwt_sign_nonempty in E|].
    destruct (Z.ltb_spec now (iat + thirty_days)).
    - by apply jwt_verify_sign.
    - apply jwt_verify_expired. lia.
  Qed.
End JsonWebToken.

Arguments sign_js : simpl never.
Arguments verify_js : simpl never.

(** ** Reference instances *)

Module Reference.

Definition salt_of (rounds : Z) (seed : nat) : string :=
    encode_fields ["2a"; z_to_string rounds; z_to_string (Z.of_nat seed)].

Definition hash (pw salt : string) : string := encode_fields [salt; bcrypt_key pw].

Definition compare (pw h : string) : bool :=
    match decode_fields 2 h with
    | Some [salt; _] => String.eqb h (hash pw salt)
    | _ => false
    end.

Lemma compare_hash pw pw' salt :
    compare pw (hash pw' salt) = true <-> bcrypt_key pw = bcrypt_key pw'.
  Proof.
    unfold compare. unfold hash at 1.
    rewrite (decode_encode [salt; bcrypt_key pw'] : decode_fields 2 _ = _).
    rewrite String.eqb_eq. unfold hash.
    split; [|by intros ->]. intros Heq. apply encode_fields_inj in Heq; [|done]. congruence.
  Qed.

Lemma compare_sound pw h :
    compare pw h = true -> exists pw' salt, h = hash pw' salt /\ bcrypt_key pw = bcrypt_key pw'.
  Proof.
    unfold compare. destruct (decode_fields 2 h) as [[|salt [|? []]]|]; try done.
    intros ->%String.eqb_eq. eauto.
  Qed.

Lemma hash_nonempty pw salt : hash pw salt <> "".
  Proof. apply encode_nonempty. Qed.

#[export] Instance bcrypt : Bcrypt :=
    {| bcrypt_genSalt := salt_of; bcrypt_hash := hash; bcrypt_compare := compare;
       bcrypt_compare_hash := compare_hash; bcrypt_compare_sound := compare_sound;
       bcrypt_hash_nonempty := hash_nonempty |}.

Definition sign (c : claims) (k : string) (iat exp : Z) : string :=
    encode_fields ["HS256"; z_to_string (claim_id c); claim_username c; claim_role c;
                   z_to_string iat; z_to_string exp; k].

Definition verify (t k : string) (now : Z) : jwt_error + claims :=
    match decode_fields 7 t with
    | Some [_; sid; u; r; siat; sexp; _] =>
        match z_of_string sid, z_of_string siat, z_of_string sexp with
        | Some id, Some iat, Some exp =>
            let c := mk_claims id u r in
            if String.eqb t (sign c k iat exp) then
              (if (now <? exp)%Z then inr c else inl TokenExpired)
            else inl InvalidSignature
        | _, _, _ => inl JwtMalformed
        end
    | _ => inl JwtMalformed
    end.

Lemma verify_sign_eq c k iat exp now :
    verify (sign c k iat exp) k now = if (now <? exp)%Z then inr c else inl TokenExpired.
  Proof.
    unfold verify. unfold sign at 1.
    rewrite (decode_encode [_; _; _; _; _; _; _] : decode_fields 7 _ = _).
    rewrite !z_of_to_string. destruct c. simpl. by rewrite String.eqb_refl.
  Qed.

Lemma verify_sign c k iat exp now : (now < exp)%Z -> verify (sign c k iat exp) k now = inr c.
  Proof. intros H. rewrite verify_sign_eq. by destruct (Z.ltb_spec now exp); [|lia]. Qed.

Lemma verify_expired c k iat exp now :
    (exp <= now)%Z -> verify (sign c k iat exp) k now = inl TokenExpired.
  Proof. intros H. rewrite verify_sign_eq. by destruct (Z.ltb_spec now exp); [lia|]. Qed.

Lemma verify_sound t k now c :
    verify t k now = inr c -> exists iat exp, t = sign c k iat exp /\ (now < exp)%Z.
  Proof.
    unfold verify.
    destruct (decode_fields 7 t) as [[|? [|? [|? [|? [|? [|? [|? [|]]]]]]]]|]; try done.
    repeat case_match; try done. intros [= <-].
    match goal with
    | Ht : String.eqb _ _ = true, Hn : Z.ltb _ _ = true |- _ =>
        apply String.eqb_eq in Ht; apply Z.ltb_lt in Hn; subst; eauto
    end.
  Qed.

Lemma sign_inj c k i e c' k' i' e' :
    sign c k i e = sign c' k' i' e' -> c = c' /\ k = k' /\ i = i' /\ e = e'.
  Proof.
    unfold sign. intros Heq. apply encode_fields_inj in Heq; [|done].
    destruct c, c'; simpl in Heq. injection Heq as Hid Hu Hr Hi He Hk.
    apply z_to_string_inj in Hid, Hi, He. subst. done.
  Qed.

Lemma sign_no_space c k i e : has_char " " (sign c k i e) = false.
  Proof. apply encode_no_space. Qed.

Lemma sign_nonempty c k i e : sign c k i e <> "".
  Proof. apply encode_nonempty. Qed.

#[export] Instance jwt : Jwt :=
    {| jwt_sign := sign; jwt_verify := verify; jwt_verify_sign := verify_sign;
       jwt_verify_expired := verify_expired; jwt_verify_sound := verify_sound;
       jwt_sign_inj := sign_inj; jwt_sign_no_space := sign_no_space;
       jwt_sign_nonempty := sign_nonempty |}.

End Reference.

(** ** Witness *)

Lemma sign_verify_js_witness :
  sign_js (H := Reference.jwt) (mk_claims 1 "alice" "user") (Some "s3cret") 1000 =
    inr (Reference.sign (mk_claims 1 "alice" "user") "s3cret" 1000 (1000 + thirty_days)) /\
  verify_js (H := Reference.jwt)
    (Some (Reference.sign (mk_claims 1 "alice" "user") "s3cret" 1000 (1000 + thirty_days))) (Some "s3cret")
    (1000 + thirty_days) = inl TokenExpired.
Proof.
  apply (sign_verify_js (H := Reference.jwt) (mk_claims 1 "alice" "user") "s3cret" 1000 (1000 + thirty_days)).
  discriminate.
Defined.
