(* ===== verification/UserStore.v ===== *)
(** * The users table behind [query(...)]

    [src/server/config/db.js] and the table's schema are not part of the
    sources; the table is modelled from the specification: rows with a
    serial [id], [username] and [email] each under a UNIQUE constraint, a
    password hash and a role.  Each SQL statement the handlers send is one
    function here.  Rows are kept in insertion order, which is the order a
    sequential scan returns them in.  A store that is down ([db_up =
    false]) fails every statement. *)

From S2P Require Import Prelude.

Record user_row : Type := mk_row {
  u_id : Z; u_username : string; u_email : string; u_password : string; u_role : string }.

(** The columns [SELECT id, username, email, role] returns. *)
Record public_user : Type := mk_public {
  pu_id : Z; pu_username : string; pu_email : string; pu_role : string }.

#[export] Instance user_row_eq_dec : EqDecision user_row.
Proof. solve_decision. Defined.
#[export] Instance public_user_eq_dec : EqDecision public_user.
Proof. solve_decision. Defined.

Record db : Type := mk_db { db_users : list user_row; db_next_id : Z; db_up : bool }.

Inductive db_error : Type :=
| UniqueViolation (constraint : string)   (** SQLSTATE 23505 *)
| ConnectionError.

Definition to_public (r : user_row) : public_user :=
  mk_public (u_id r) (u_username r) (u_email r) (u_role r).

Definition when_up {A} (d : db) (a : A) : db_error + A :=
  if db_up d then inr a else inl ConnectionError.

(** [SELECT * FROM users WHERE email = $1 OR username = $2] *)
Definition q_user_by_email_or_username (email username : string) (d : db)
  : db_error + list user_row :=
  when_up d (List.filter (fun r => String.eqb (u_email r) email || String.eqb (u_username r) username)
               (db_users d)).

(** [SELECT * FROM users WHERE email = $1] *)
Definition q_user_by_email (email : string) (d : db) : db_error + list user_row :=
  when_up d (List.filter (fun r => String.eqb (u_email r) email) (db_users d)).

(** [SELECT id, username, email, role FROM users WHERE id = $1] *)
Definition q_public_by_id (id : Z) (d : db) : db_error + list public_user :=
  when_up d (to_public <$> List.filter (fun r => Z.eqb (u_id r) id) (db_users d)).

(** The serial's [nextval] consumed without a row. *)
Definition db_skip_id (d : db) : db := mk_db (db_users d) (db_next_id d + 1) (db_up d).

(** [INSERT INTO users (username, email, password, role) VALUES (...)
    RETURNING id, username, email, role]: the serial supplies the id
    ([nextval], which runs before the UNIQUE constraints are checked and is
    not rolled back when one of them rejects the row), then the
    constraints are checked. *)
Definition q_insert_user (username email password role : string) (d : db)
  : (db_error + public_user) * db :=
  if negb (db_up d) then (inl ConnectionError, d)
  else if existsb (fun r => String.eqb (u_email r) email) (db_users d)
  then (inl (UniqueViolation "users_email_key"), db_skip_id d)
  else if existsb (fun r => String.eqb (u_username r) username) (db_users d)
  then (inl (UniqueViolation "users_username_key"), db_skip_id d)
  else
    let r := mk_row (db_next_id d) username email password role in
    (inr (to_public r), mk_db (db_users d ++ [r]) (db_next_id d + 1) true).

(** ** The table invariant

    Emails, usernames and ids are unique, and every id is below the
    serial's next value. *)
Definition db_wf (d : db) : Prop :=
  NoDup (u_email <$> db_users d) /\ NoDup (u_username <$> db_users d) /\
  NoDup (u_id <$> db_users d) /\ Forall (fun r => (u_id r < db_next_id d)%Z) (db_users d).

Definition empty_db : db := mk_db [] 1 true.

Lemma empty_db_wf : db_wf empty_db.
Proof. repeat split; constructor. Qed.

Lemma existsb_eqb_false {A} (f : A -> string) (l : list A) x :
  existsb (fun r => String.eqb (f r) x) l = false -> x ∉ f <$> l.
Proof.
  intros H Hin. apply list_elem_of_fmap in Hin as (r & -> & Hr).
  apply list_elem_of_In in Hr.
  assert (existsb (fun r' => String.eqb (f r') (f r)) l = true)
    by (apply existsb_exists; eauto using String.eqb_refl).
  congruence.
Qed.

Lemma NoDup_snoc {A} (l : list A) x : x ∉ l -> NoDup l -> NoDup (l ++ [x]).
Proof.
  intros Hx Hl. apply NoDup_app. split; [done|]. split; [|apply NoDup_singleton].
  intros y Hy ->%list_elem_of_singleton. done.
Qed.

Lemma id_fresh d : Forall (fun r => (u_id r < db_next_id d)%Z) (db_users d) ->
  db_next_id d ∉ u_id <$> db_users d.
Proof.
  intros Hlt Hin. apply list_elem_of_fmap in Hin as (r & Hr & Hin).
  rewrite Forall_forall in Hlt. specialize (Hlt r Hin). lia.
Qed.

(** ** What the handlers' statements return *)

(** No row has this email or this username. *)
Definition fresh_identity (email username : string) (d : db) : Prop :=
  Forall (fun r => u_email r <> email /\ u_username r <> username) (db_users d).

Definition new_row (username email password role : string) (d : db) : user_row :=
  mk_row (db_next_id d) username email password role.

Definition db_after_insert (r : user_row) (d : db) : db :=
  mk_db (db_users d ++ [r]) (db_next_id d + 1) true.

Lemma existsb_eqb_fresh {A} (f : A -> string) (l : list A) x :
  Forall (fun r => f r <> x) l -> existsb (fun r => String.eqb (f r) x) l = false.
Proof.
  induction 1 as [|r l Hr _ IH]; [done|]. simpl. rewrite IH, orb_false_r.
  by apply String.eqb_neq.
Qed.

(** Appending a row with a fresh identity at the serial's id keeps the invariant. *)
Lemma db_after_insert_wf u e p role d :
  db_wf d -> fresh_identity e u d -> db_wf (db_after_insert (new_row u e p role d) d).
Proof.
  intros (He & Hu & Hi & Hlt) Hf. unfold db_wf, db_after_insert. cbn [db_users db_next_id].
  rewrite !fmap_app. repeat split.
  - apply NoDup_snoc; [|done]. apply existsb_eqb_false, existsb_eqb_fresh.
    eapply Forall_impl; [done|]. naive_solver.
  - apply NoDup_snoc; [|done]. apply existsb_eqb_false, existsb_eqb_fresh.
    eapply Forall_impl; [done|]. naive_solver.
  - apply NoDup_snoc; [by apply id_fresh|done].
  - apply Forall_app. split; [|constructor; [unfold new_row; simpl; lia|constructor]].
    eapply Forall_impl; [exact Hlt|]. simpl. intros; lia.
Qed.

Lemma q_insert_user_ok u e p role d r d' :
  q_insert_user u e p role d = (inr r, d') ->
  db_up d = true /\ fresh_identity e u d /\ r = to_public (new_row u e p role d) /\
  d' = db_after_insert (new_row u e p role d) d.
Proof.
  unfold q_insert_user. destruct (db_up d) eqn:Hup; [|done]. simpl.
  destruct (existsb (fun r => String.eqb (u_email r) e) _) eqn:Ee; [done|].
  destruct (existsb (fun r => String.eqb (u_username r) u) _) eqn:Eu; [done|].
  intros H; inversion H; subst; clear H. repeat split.
  apply Forall_forall. intros x Hx. split; intros Hxe.
  - apply (existsb_eqb_false u_email _ e Ee). rewrite <- Hxe. by apply list_elem_of_fmap_2.
  - apply (existsb_eqb_false u_username _ u Eu). rewrite <- Hxe. by apply list_elem_of_fmap_2.
Qed.

(** A rejected INSERT leaves the rows as they are; it has consumed an id
    when the store was up. *)
Lemma q_insert_user_fail u e p role d err d' :
  q_insert_user u e p role d = (inl err, d') -> d' = d \/ d' = db_skip_id d.
Proof.
  unfold q_insert_user. destruct (db_up d); simpl; [|intros [= _ <-]; by left].
  repeat case_match; intros [= _ <-]; by right.
Qed.

Lemma db_skip_id_wf d : db_wf d -> db_wf (db_skip_id d).
Proof.
  intros (He & Hu & Hi & Hlt). repeat split; try done. simpl.
  eapply Forall_impl; [exact Hlt|]. intros r Hr; simpl in *; lia.
Qed.

(** Every INSERT, accepted or rejected, keeps the invariant. *)
Lemma insert_wf u e p role d o d' :
  db_wf d -> q_insert_user u e p role d = (o, d') -> db_wf d'.
Proof.
  intros Hwf Hq. destruct o as [err|r].
  - apply q_insert_user_fail in Hq as [->| ->]; [done|by apply db_skip_id_wf].
  - apply q_insert_user_ok in Hq as (_ & Hf & _ & ->). by apply db_after_insert_wf.
Qed.

#[export] Hint Resolve empty_db_wf db_after_insert_wf : hustle.

Lemma q_exists_fresh e u d :
  db_up d = true -> fresh_identity e u d -> q_user_by_email_or_username e u d = inr [].
Proof.
  intros Hup Hf. unfold q_user_by_email_or_username, when_up. rewrite Hup. f_equal.
  induction Hf as [|r l [He Hu] _ IH]; [done|]. simpl.
  apply String.eqb_neq in He, Hu. by rewrite He, Hu.
Qed.

Lemma q_exists_taken e u d :
  db_up d = true -> ~ fresh_identity e u d ->
  exists r rs, q_user_by_email_or_username e u d = inr (r :: rs).
Proof.
  intros Hup Hf. unfold q_user_by_email_or_username, when_up. rewrite Hup.
  destruct (List.filter _ _) as [|r rs] eqn:E; [|eauto].
  exfalso. apply Hf. unfold fresh_identity. apply Forall_forall. intros r Hr.
  assert (Hnot : ~ In r (List.filter (fun r => String.eqb (u_email r) e || String.eqb (u_username r) u)
                           (db_users d))) by (rewrite E; simpl; tauto).
  rewrite filter_In in Hnot. apply list_elem_of_In in Hr.
  destruct (String.eqb_spec (u_email r) e), (String.eqb_spec (u_username r) u); naive_solver.
Qed.

Lemma q_insert_fresh u e p role d :
  db_up d = true -> fresh_identity e u d ->
  q_insert_user u e p role d = (inr (to_public (new_row u e p role d)), db_after_insert (new_row u e p role d) d).
Proof.
  intros Hup Hf. unfold q_insert_user. rewrite Hup. simpl.
  rewrite !existsb_eqb_fresh; [done| |]; eapply Forall_impl; eauto; naive_solver.
Qed.

(** The unique index on [email] rejects a second row with a taken email;
    the id drawn for it is lost. *)
Lemma q_insert_email_taken u e p role d r :
  db_up d = true -> r ∈ db_users d -> u_email r = e ->
  q_insert_user u e p role d = (inl (UniqueViolation "users_email_key"), db_skip_id d).
Proof.
  intros Hup Hr <-. unfold q_insert_user. rewrite Hup. simpl.
  replace (existsb _ _) with true; [done|]. symmetry. apply existsb_exists.
  exists r. split; [by apply list_elem_of_In|apply String.eqb_refl].
Qed.

(** Under the invariant, the email query finds exactly the row with that email. *)
Section UniqueKey.
  Context {A K : Type} (eqb : K -> K -> bool) (eqb_spec : forall a b, eqb a b = true <-> a = b).

Lemma filter_eqb_none (f : A -> K) (l : list A) k :
    k ∉ f <$> l -> List.filter (fun r => eqb (f r) k) l = [].
  Proof.
    induction l as [|z l IH]; intros Hk; [done|]. simpl.
    destruct (eqb (f z) k) eqn:E; [apply eqb_spec in E; subst; set_solver|].
    apply IH. set_solver.
  Qed.

  (** Under a uniqueness invariant, filtering on a row's key finds exactly that row. *)
Lemma filter_unique_key (f : A -> K) (l : list A) x :
    NoDup (f <$> l) -> x ∈ l -> List.filter (fun r => eqb (f r) (f x)) l = [x].
  Proof.
    induction l as [|y l IH]; intros Hnd Hx; [set_solver|].
    simpl in Hnd. apply NoDup_cons in Hnd as [Hy Hnd]. simpl.
    apply elem_of_cons in Hx as [->|Hx].
    - rewrite (proj2 (eqb_spec _ _) eq_refl). f_equal. by apply filter_eqb_none.
    - destruct (eqb (f y) (f x)) eqn:E.
      + exfalso. apply eqb_spec in E. apply Hy. rewrite E. by apply list_elem_of_fmap_2.
      + by apply IH.
  Qed.
End UniqueKey.

Lemma q_user_by_email_row d r :
  db_wf d -> db_up d = true -> r ∈ db_users d -> q_user_by_email (u_email r) d = inr [r].
Proof.
  intros (He & _) Hup Hr. unfold q_user_by_email, when_up. rewrite Hup.
  by rewrite (filter_unique_key String.eqb String.eqb_eq).
Qed.

Lemma q_public_by_id_row d r :
  db_wf d -> db_up d = true -> r ∈ db_users d -> q_public_by_id (u_id r) d = inr [to_public r].
Proof.
  intros (_ & _ & Hi & _) Hup Hr. unfold q_public_by_id, when_up. rewrite Hup.
  by rewrite (filter_unique_key Z.eqb Z.eqb_eq).
Qed.

Lemma q_public_by_id_none d id :
  db_up d = true -> id ∉ u_id <$> db_users d -> q_public_by_id id d = inr [].
Proof.
  intros Hup Hid. unfold q_public_by_id, when_up. rewrite Hup.
  by rewrite (filter_eqb_none Z.eqb Z.eqb_eq).
Qed.

Lemma q_user_by_email_none e d :
  db_up d = true -> Forall (fun r => u_email r <> e) (db_users d) -> q_user_by_email e d = inr [].
Proof.
  intros Hup Hf. unfold q_user_by_email, when_up. rewrite Hup. f_equal.
  induction Hf as [|r l Hr _ IH]; [done|]. simpl. apply String.eqb_neq in Hr. by rewrite Hr.
Qed.

(** ** Witness *)

Lemma insert_wf_witness :
  db_wf (mk_db [mk_row 1 "alice" "a@x.com" "h" "user"; mk_row 2 "bob" "b@x.com" "h" "user"] 3 true).
Proof.
  apply (insert_wf "bob" "b@x.com" "h" "user" (mk_db [mk_row 1 "alice" "a@x.com" "h" "user"] 2 true)
           (inr (mk_public 2 "bob" "b@x.com" "user"))).
  - apply (insert_wf "alice" "a@x.com" "h" "user" empty_db (inr (mk_public 1 "alice" "a@x.com" "user")));
      [apply empty_db_wf | reflexivity].
  - reflexivity.
Defined.
