(* ===== verification/Express.v ===== *)
(** * Express: requests, the response object, and the error handler

    A handler runs in [Handler], the effect monad of [Prelude.v] over a
    [world]: the users table, the response object of the current
    request, the process configuration ([process.env.JWT_SECRET]), the
    clock (seconds) and a counter standing for bcrypt's randomness.
    [res.status(c).json(b)] throws once the response has been sent, as
    Express's [ERR_HTTP_HEADERS_SENT] does.  [errorHandler] is
    [src/server/middleware/errorHandler.js]. *)

From S2P Require Import Prelude Json Validators Crypto UserStore.

Record response : Type := mk_res { res_status : Z; res_body : option json; headersSent : bool }.

Definition fresh_response : response := mk_res 200 None false.

Inductive exn : Type :=
| ZodError (issues : list issue)
| DbErr (e : db_error)
| JwtErr (e : jwt_error)
| HeadersSentError
| BodySyntaxError.     (** [express.json()] could not parse the body *)

Record world : Type := mk_world {
  w_db : db; w_res : response; w_secret : option string; w_now : Z; w_seed : nat }.

Definition set_res (r : response) (w : world) : world :=
  mk_world (w_db w) r (w_secret w) (w_now w) (w_seed w).
Definition set_db (d : db) (w : world) : world :=
  mk_world d (w_res w) (w_secret w) (w_now w) (w_seed w).
Definition bump_seed (w : world) : world :=
  mk_world (w_db w) (w_res w) (w_secret w) (w_now w) (S (w_seed w)).

Notation Handler := (Eff world exn).

Record request : Type := mk_req {
  req_method : string; req_path : string; req_authorization : option string; req_body : json }.

(** [res.status(code).json(body)]; [res.json(body)] is [code = 200]. *)
Definition res_json (code : Z) (body : json) : Handler unit :=
  fun w => if headersSent (w_res w) then (inl HeadersSentError, w)
           else (inr tt, set_res (mk_res code (Some body) true) w).

(** [res.statusCode = code; res.end()]: an answer without a body. *)
Definition res_end (code : Z) : Handler unit :=
  fun w => if headersSent (w_res w) then (inl HeadersSentError, w)
           else (inr tt, set_res (mk_res code None true) w).

Definition error_body (msg : string) : json := JObj [("error", JStr msg)].

(** Library calls as handler steps. *)
Definition query {A} (q : db -> db_error + A) : Handler A :=
  fun w => match q (w_db w) with inl e => (inl (DbErr e), w) | inr a => (inr a, w) end.

Definition query_insert (u e p role : string) : Handler public_user :=
  fun w => match q_insert_user u e p role (w_db w) with
           | (inl err, d') => (inl (DbErr err), set_db d' w)
           | (inr r, d') => (inr r, set_db d' w)
           end.

Definition parse_or_throw {A} (r : list issue + A) : Handler A :=
  lift (match r with inl iss => inl (ZodError iss) | inr a => inr a end).

Section Libraries.
  Context `{Bcrypt} `{Jwt}.

  (** [await bcrypt.genSalt(rounds)] *)
Definition genSalt (rounds : Z) : Handler string :=
    fun w => (inr (bcrypt_genSalt rounds (w_seed w)), bump_seed w).

  (** [jwt.sign(claims, process.env.JWT_SECRET, { expiresIn: '30d' })] *)
Definition sign_token (c : claims) : Handler string :=
    fun w => match sign_js c (w_secret w) (w_now w) with
             | inl e => (inl (JwtErr e), w)
             | inr t => (inr t, w)
             end.

  (** [jwt.verify(token, process.env.JWT_SECRET)] *)
Definition verify_token (token : option string) : Handler claims :=
    fun w => match verify_js token (w_secret w) (w_now w) with
             | inl e => (inl (JwtErr e), w)
             | inr c => (inr c, w)
             end.
End Libraries.

(** The [details] of a validation error: each issue's code and path. *)
Definition issue_code_name (c : issue_code) : string :=
  match c with
  | InvalidType => "invalid_type"
  | TooSmall _ => "too_small"
  | TooBig _ => "too_big"
  | InvalidEmail => "invalid_string"
  end.

Definition issue_json (i : issue) : json :=
  JObj [("code", JStr (issue_code_name (issue_kind i))); ("path", JArr [JStr (issue_path i)])].

(** [errorHandler(err, req, res, next)]: a ZodError is a 400 with the
    issues, anything else a 500 with a fixed message.  ([console.error]
    is output only.) *)
Definition validation_error_body (iss : list issue) : json :=
  JObj [("error", JStr "Validation error"); ("details", JArr (issue_json <$> iss))].

Definition errorHandler (err : exn) : Handler unit :=
  match err with
  | ZodError iss => res_json 400 (validation_error_body iss)
  | _ => res_json 500 (error_body "Something went wrong")
  end.

(** ** Running a handler on a fresh response *)

Definition start (w : world) : world := set_res fresh_response w.

Lemma res_json_fresh code body w :
  headersSent (w_res w) = false ->
  res_json code body w = (inr tt, set_res (mk_res code (Some body) true) w).
Proof. unfold res_json. by intros ->. Qed.

Lemma res_json_sent code body w :
  headersSent (w_res w) = true -> res_json code body w = (inl HeadersSentError, w).
Proof. unfold res_json. by intros ->. Qed.

Lemma set_res_res r w : w_res (set_res r w) = r.
Proof. reflexivity. Qed.
Lemma set_db_res d w : w_res (set_db d w) = w_res w.
Proof. reflexivity. Qed.
Lemma bump_seed_res w : w_res (bump_seed w) = w_res w.
Proof. reflexivity. Qed.
Lemma set_db_db d w : w_db (set_db d w) = d.
Proof. reflexivity. Qed.
Lemma set_res_db r w : w_db (set_res r w) = w_db w.
Proof. reflexivity. Qed.
Lemma bump_seed_db w : w_db (bump_seed w) = w_db w.
Proof. reflexivity. Qed.

#[export] Hint Rewrite set_res_res set_db_res bump_seed_res set_db_db set_res_db bump_seed_db
  : hustle_rw.
