(* ===== verification/AuthController.v ===== *)
(** * The authentication controllers (src/server/controllers/auth.js)

    [register] and [login], statement by statement: validation (throws a
    ZodError), the existence query, salting and hashing, the INSERT, the
    token, the JSON response; every exception is handed to [next], which
    the application wires to [errorHandler].  The hashing and token
    libraries are the classes of [Crypto.v], so every theorem below holds
    for any implementation of their laws. *)

From S2P Require Import Prelude Json Validators Crypto UserStore Express.

(** [{ id, username, email, role, token }] *)
Definition user_json (u : public_user) (token : string) : json :=
  JObj [("id", JNum (pu_id u)); ("username", JStr (pu_username u)); ("email", JStr (pu_email u));
        ("role", JStr (pu_role u)); ("token", JStr token)].

Definition claims_of (u : public_user) : claims := mk_claims (pu_id u) (pu_username u) (pu_role u).

Definition row_claims (r : user_row) : claims := mk_claims (u_id r) (u_username r) (u_role r).

Section Controllers.
  Context `{Bcrypt} `{Jwt}.

  (** [next(error)] *)
  Variable next : exn -> Handler unit.

  (** Lines 6-51 *)
Definition register (req : request) : Handler unit :=
    try_catch
      (let* v := parse_or_throw (validateRegistration (req_body req)) in
       let* userExists := query (q_user_by_email_or_username (reg_email v) (reg_username v)) in
       if (0 <? List.length userExists)%nat then res_json 400 (error_body "User already exists")
       else
         let* salt := genSalt 10 in
         let hashedPassword := bcrypt_hash (reg_password v) salt in
         let* user := query_insert (reg_username v) (reg_email v) hashedPassword "user" in
         let* token := sign_token (claims_of user) in
         res_json 201 (user_json user token))
      next.

  (** Lines 53-88 *)
Definition login (req : request) : Handler unit :=
    try_catch
      (let* c := parse_or_throw (validateLogin (req_body req)) in
       let* result := query (q_user_by_email (cred_email c)) in
       match head result with
       | Some user =>
           if bcrypt_compare (cred_password c) (u_password user) then
             let* token := sign_token (row_claims user) in
             res_json 200 (user_json (to_public user) token)
           else res_json 401 (error_body "Invalid credentials")
       | None => res_json 401 (error_body "Invalid credentials")
       end)
      next.
End Controllers.

(** ** Behaviour of the controllers *)

Section Properties.
  Context `{Bcrypt} `{Jwt}.

  (** The response the two failure branches of [login] send. *)
Definition invalid_credentials : response :=
    mk_res 401 (Some (error_body "Invalid credentials")) true.

Ltac unfold_handlers :=
    unfold register, login, try_catch, bind, parse_or_throw, lift, query, query_insert,
      genSalt, sign_token, ret.

Lemma sign_js_set c k now : k <> "" -> sign_js c (Some k) now = inr (jwt_sign c k now (now + thirty_days)).
  Proof. intros Hk. unfold sign_js. apply String.eqb_neq in Hk. by rewrite Hk. Qed.

Lemma register_new_identity req w v k :
    validateRegistration (req_body req) = inr v ->
    db_up (w_db w) = true -> headersSent (w_res w) = false ->
    fresh_identity (reg_email v) (reg_username v) (w_db w) ->
    w_secret w = Some k -> k <> "" ->
    let row := new_row (reg_username v) (reg_email v)
                 (bcrypt_hash (reg_password v) (bcrypt_genSalt 10 (w_seed w))) "user" (w_db w) in
    let token := jwt_sign (row_claims row) k (w_now w) (w_now w + thirty_days) in
    register errorHandler req w =
      (inr tt, mk_world (db_after_insert row (w_db w))
                 (mk_res 201 (Some (user_json (to_public row) token)) true)
                 (w_secret w) (w_now w) (S (w_seed w))).
  Proof.
    intros Hv Hup Hsent Hfresh Hs Hk row token.
    destruct w as [d r s now seed]; simpl in Hup, Hsent, Hs; subst s. unfold_handlers.
    rewrite Hv. simpl. rewrite (q_exists_fresh (reg_email v) (reg_username v) d Hup Hfresh). simpl.
    rewrite (q_insert_fresh _ _ _ _ d Hup Hfresh). simpl.
    rewrite sign_js_set by done. simpl. rewrite res_json_fresh; [reflexivity|exact Hsent].
  Qed.

(** C5: A valid registration of a new identity inserts one row with role
      ["user"], the salted hash of the password and the next serial id,
      and answers 201 with the row's public fields and a token signed for
      thirty days. *)
Theorem register_success req w v k :
    validateRegistration (req_body req) = inr v ->
    db_up (w_db w) = true -> headersSent (w_res w) = false ->
    fresh_identity (reg_email v) (reg_username v) (w_db w) ->
    w_secret w = Some k -> k <> "" ->
    let row := new_row (reg_username v) (reg_email v)
                 (bcrypt_hash (reg_password v) (bcrypt_genSalt 10 (w_seed w))) "user" (w_db w) in
    let token := jwt_sign (row_claims row) k (w_now w) (w_now w + thirty_days) in
    register errorHandler req w =
      (inr tt, mk_world (db_after_insert row (w_db w))
                 (mk_res 201 (Some (user_json (to_public row) token)) true)
                 (w_secret w) (w_now w) (S (w_seed w))).
  Proof. apply register_new_identity. Qed.
  (** C6: Registering an email or a username that is taken answers 400 and
      leaves the table as it was. *)
Theorem register_conflict req w v :
    validateRegistration (req_body req) = inr v ->
    db_up (w_db w) = true -> headersSent (w_res w) = false ->
    ~ fresh_identity (reg_email v) (reg_username v) (w_db w) ->
    register errorHandler req w =
      (inr tt, set_res (mk_res 400 (Some (error_body "User already exists")) true) w).
  Proof.
    intros Hv Hup Hsent Hf. destruct (q_exists_taken _ _ _ Hup Hf) as (r & rs & Hq).
    unfold_handlers. rewrite Hv, Hq. simpl. by rewrite res_json_fresh.
  Qed.

  (** A body the schema rejects answers 400 with the issues. *)
Theorem register_invalid req w iss :
    validateRegistration (req_body req) = inl iss -> headersSent (w_res w) = false ->
    register errorHandler req w =
      (inr tt, set_res (mk_res 400 (Some (validation_error_body iss)) true) w).
  Proof. intros Hv Hsent. unfold_handlers. rewrite Hv. simpl. by rewrite res_json_fresh. Qed.

  (** A login body the schema rejects answers 400 with the issues. *)
Lemma login_invalid req w iss :
    validateLogin (req_body req) = inl iss -> headersSent (w_res w) = false ->
    login errorHandler req w =
      (inr tt, set_res (mk_res 400 (Some (validation_error_body iss)) true) w).
  Proof. intros Hv Hsent. unfold_handlers. rewrite Hv. simpl. by rewrite res_json_fresh. Qed.

  (** C27: With [JWT_SECRET] unset the INSERT has already happened when
      [jwt.sign] throws: the account exists, and the client is told 500. *)
Theorem register_secret_missing req w v :
    validateRegistration (req_body req) = inr v ->
    db_up (w_db w) = true -> headersSent (w_res w) = false ->
    fresh_identity (reg_email v) (reg_username v) (w_db w) -> w_secret w = None ->
    let row := new_row (reg_username v) (reg_email v)
                 (bcrypt_hash (reg_password v) (bcrypt_genSalt 10 (w_seed w))) "user" (w_db w) in
    register errorHandler req w =
      (inr tt, mk_world (db_after_insert row (w_db w))
                 (mk_res 500 (Some (error_body "Something went wrong")) true)
                 None (w_now w) (S (w_seed w))).
  Proof.
    intros Hv Hup Hsent Hfresh Hs row.
    destruct w as [d r s now seed]; simpl in Hup, Hsent, Hs; subst s. unfold_handlers.
    rewrite Hv. simpl. rewrite (q_exists_fresh (reg_email v) (reg_username v) d Hup Hfresh). simpl.
    rewrite (q_insert_fresh _ _ _ _ d Hup Hfresh). simpl.
    rewrite res_json_fresh; [reflexivity|exact Hsent].
  Qed.

Lemma login_known_password req w c row k :
    validateLogin (req_body req) = inr c ->
    db_wf (w_db w) -> db_up (w_db w) = true -> headersSent (w_res w) = false ->
    row ∈ db_users (w_db w) -> u_email row = cred_email c ->
    bcrypt_compare (cred_password c) (u_password row) = true ->
    w_secret w = Some k -> k <> "" ->
    login errorHandler req w =
      (inr tt, set_res (mk_res 200 (Some (user_json (to_public row)
                 (jwt_sign (row_claims row) k (w_now w) (w_now w + thirty_days)))) true) w).
  Proof.
    intros Hv Hwf Hup Hsent Hrow He Hcmp Hs Hk. unfold_handlers.
    rewrite Hv. simpl. rewrite <- He, (q_user_by_email_row _ _ Hwf Hup Hrow). simpl.
    rewrite Hcmp, Hs, sign_js_set by done. simpl. by rewrite res_json_fresh.
  Qed.

(** Login with the password of the row holding the email answers 200
      with the row's public fields and a fresh token. *)
Theorem login_success req w c row k :
    validateLogin (req_body req) = inr c ->
    db_wf (w_db w) -> db_up (w_db w) = true -> headersSent (w_res w) = false ->
    row ∈ db_users (w_db w) -> u_email row = cred_email c ->
    bcrypt_compare (cred_password c) (u_password row) = true ->
    w_secret w = Some k -> k <> "" ->
    login errorHandler req w =
      (inr tt, set_res (mk_res 200 (Some (user_json (to_public row)
                 (jwt_sign (row_claims row) k (w_now w) (w_now w + thirty_days)))) true) w).
  Proof. apply login_known_password. Qed.

  (** C2: An unknown email and a wrong password get the same answer and
      leave the same world: the caller cannot tell them apart. *)
Theorem login_rejects req w c :
    validateLogin (req_body req) = inr c ->
    db_up (w_db w) = true -> headersSent (w_res w) = false ->
    (forall r, r ∈ db_users (w_db w) -> u_email r = cred_email c ->
               bcrypt_compare (cred_password c) (u_password r) = false) ->
    login errorHandler req w = (inr tt, set_res invalid_credentials w).
  Proof.
    intros Hv Hup Hsent Hno. unfold_handlers. rewrite Hv. simpl.
    unfold q_user_by_email, when_up. rewrite Hup. simpl.
    destruct (List.filter _ _) as [|r rs] eqn:E; simpl; [by rewrite res_json_fresh|].
    assert (Hr : In r (List.filter (fun r => String.eqb (u_email r) (cred_email c)) (db_users (w_db w))))
      by (rewrite E; left; done).
    apply filter_In in Hr as [Hin Heq%String.eqb_eq].
    rewrite Hno; [by rewrite res_json_fresh|by apply list_elem_of_In|done].
  Qed.
Lemma thirty_days_pos : (0 < thirty_days)%Z.
  Proof. unfold thirty_days. lia. Qed.

Lemma new_row_in u e p role d : new_row u e p role d ∈ db_users (db_after_insert (new_row u e p role d) d).
  Proof. simpl. set_solver. Qed.

  (** Registration followed by a login with the same email and any
      password that agrees with the registered one on the bytes bcrypt
      reads. *)
Lemma register_then_login_key req req' w v p' k :
    validateRegistration (req_body req) = inr v ->
    validateLogin (req_body req') = inr (mk_credentials (reg_email v) p') ->
    bcrypt_key p' = bcrypt_key (reg_password v) ->
    db_wf (w_db w) -> db_up (w_db w) = true -> headersSent (w_res w) = false ->
    fresh_identity (reg_email v) (reg_username v) (w_db w) ->
    w_secret w = Some k -> k <> "" ->
    let w1 := start (snd (register errorHandler req w)) in
    let id := db_next_id (w_db w) in
    exists token,
      login errorHandler req' w1 =
        (inr tt, set_res (mk_res 200 (Some (user_json (mk_public id (reg_username v) (reg_email v) "user")
                                         token)) true) w1) /\
      verify_js (Some token) (w_secret w) (w_now w) = inr (mk_claims id (reg_username v) "user").
  Proof.
    intros Hv Hl Hkey Hwf Hup Hsent Hf Hs Hk w1 id.
    subst w1. rewrite (register_new_identity req w v k) by done. simpl snd.
    set (row := new_row _ _ _ _ _).
    exists (jwt_sign (row_claims row) k (w_now w) (w_now w + thirty_days)). split.
    - match goal with |- login _ _ ?W = _ => apply (login_known_password req' W (mk_credentials (reg_email v) p') row k) end; try done.
      + by apply db_after_insert_wf.
      + apply new_row_in.
      + simpl. by apply bcrypt_compare_hash.
    - rewrite Hs. apply verify_js_signed; [done|]. pose proof thirty_days_pos. lia.
  Qed.

  (** C1: The round trip the specification promises: after a valid
      registration of a new identity, logging in with the same email and
      password succeeds, and its token verifies to the new id, the
      username and the role ["user"]. *)
Theorem register_then_login req req' w v k :
    validateRegistration (req_body req) = inr v ->
    validateLogin (req_body req') = inr (mk_credentials (reg_email v) (reg_password v)) ->
    db_wf (w_db w) -> db_up (w_db w) = true -> headersSent (w_res w) = false ->
    fresh_identity (reg_email v) (reg_username v) (w_db w) ->
    w_secret w = Some k -> k <> "" ->
    let w1 := start (snd (register errorHandler req w)) in
    let id := db_next_id (w_db w) in
    exists token,
      login errorHandler req' w1 =
        (inr tt, set_res (mk_res 200 (Some (user_json (mk_public id (reg_username v) (reg_email v) "user")
                                         token)) true) w1) /\
      verify_js (Some token) (w_secret w) (w_now w) = inr (mk_claims id (reg_username v) "user").
  Proof. intros. by eapply register_then_login_key. Qed.

  (** C28: bcrypt reads 72 bytes of a password that the schema lets be 100
      long: a login with another password that shares those 72 bytes
      succeeds. *)
Theorem login_accepts_72_byte_prefix req req' w v p' k :
    validateRegistration (req_body req) = inr v ->
    validateLogin (req_body req') = inr (mk_credentials (reg_email v) p') ->
    substring 0 72 p' = substring 0 72 (reg_password v) ->
    db_wf (w_db w) -> db_up (w_db w) = true -> headersSent (w_res w) = false ->
    fresh_identity (reg_email v) (reg_username v) (w_db w) ->
    w_secret w = Some k -> k <> "" ->
    let w1 := start (snd (register errorHandler req w)) in
    exists body, login errorHandler req' w1 = (inr tt, set_res (mk_res 200 (Some body) true) w1).
  Proof.
    intros. edestruct (register_then_login_key req req' w v p' k) as (t & Hlogin & _); eauto.
  Qed.
End Properties.

(** ** Witnesses, on the reference libraries *)

#[local] Existing Instances Reference.bcrypt Reference.jwt.

Definition alice_body : json :=
  JObj [("username", JStr "alice"); ("email", JStr "a@x.com"); ("password", JStr "password123")].
Definition alice_register : request := mk_req "POST" "/api/auth/register" None alice_body.
Definition alice_login (pw : string) : request :=
  mk_req "POST" "/api/auth/login" None (JObj [("email", JStr "a@x.com"); ("password", JStr pw)]).
Definition alice : registration := mk_registration "alice" "a@x.com" "password123".
Definition w_init : world := mk_world empty_db fresh_response (Some "s3cret") 1000 0.
Definition w_alice : world := start (snd (register errorHandler alice_register w_init)).

(** A 100-character password and another that differs from it only
    after the 72nd character. *)
Definition pw100 (last : string) : string :=
  "0123456789012345678901234567890123456789012345678901234567890123456789ab" ++ last.
Definition long_register : request :=
  mk_req "POST" "/api/auth/register" None
    (JObj [("username", JStr "bob"); ("email", JStr "b@x.com"); ("password", JStr (pw100 "cdefghijklmnopqrstuvwxyz01"))]).
Definition long_login : request :=
  mk_req "POST" "/api/auth/login" None
    (JObj [("email", JStr "b@x.com"); ("password", JStr (pw100 "ZZZZZZZZZZZZZZZZZZZZZZZZZZ"))]).

Lemma register_then_login_witness :
  exists token,
    login errorHandler (alice_login "password123") w_alice =
      (inr tt, set_res (mk_res 200 (Some (user_json (mk_public 1 "alice" "a@x.com" "user") token)) true)
                 w_alice) /\
    verify_js (Some token) (Some "s3cret") 1000 = inr (mk_claims 1 "alice" "user").
Proof.
  apply (register_then_login alice_register (alice_login "password123") w_init alice "s3cret");
    first [reflexivity | vm_compute; reflexivity | apply empty_db_wf | constructor | discriminate].
Defined.

Lemma login_rejects_witness :
  login errorHandler (alice_login "wrongpass1") w_alice = (inr tt, set_res invalid_credentials w_alice) /\
  login errorHandler (mk_req "POST" "/api/auth/login" None
                        (JObj [("email", JStr "nobody@x.com"); ("password", JStr "password123")])) w_alice
    = (inr tt, set_res invalid_credentials w_alice).
Proof.
  split; [apply (login_rejects _ _ (mk_credentials "a@x.com" "wrongpass1"))
         |apply (login_rejects _ _ (mk_credentials "nobody@x.com" "password123"))]; try reflexivity;
    intros r Hr He; vm_compute in Hr; apply list_elem_of_singleton in Hr; subst r;
    vm_compute in He |- *; first [reflexivity | discriminate].
Defined.

Lemma register_success_witness :
  exists res, register errorHandler alice_register w_init = (inr tt, res).
Proof.
  eexists. apply (register_success alice_register w_init alice "s3cret");
    first [reflexivity | constructor | discriminate].
Defined.

Lemma register_conflict_witness :
  register errorHandler alice_register w_alice =
    (inr tt, set_res (mk_res 400 (Some (error_body "User already exists")) true) w_alice).
Proof.
  apply (register_conflict alice_register w_alice alice); try reflexivity.
  intros Hf. inversion Hf as [|r l [He _] _]. apply He. reflexivity.
Defined.

Lemma login_success_witness :
  exists res, login errorHandler (alice_login "password123") w_alice = (inr tt, res).
Proof.
  eexists. apply (login_success _ w_alice (mk_credentials "a@x.com" "password123")
                   (mk_row 1 "alice" "a@x.com" (Reference.hash "password123" (Reference.salt_of 10 0)) "user")
                   "s3cret");
    first [reflexivity | vm_compute; reflexivity | discriminate | idtac].
  - vm_compute. repeat split; repeat constructor; set_solver.
  - vm_compute. set_solver.
Defined.

Lemma register_invalid_witness :
  register errorHandler (mk_req "POST" "/api/auth/register" None
                           (JObj [("username", JStr "al"); ("email", JStr "a@x.com"); ("password", JStr "password123")]))
    w_init =
  (inr tt, set_res (mk_res 400 (Some (validation_error_body [mk_issue "username" (TooSmall 3)])) true) w_init).
Proof. apply register_invalid; reflexivity. Defined.

Lemma register_secret_missing_witness :
  exists w', register errorHandler alice_register (mk_world empty_db fresh_response None 1000 0) = (inr tt, w') /\
             w_db w' <> empty_db /\ w_res w' = mk_res 500 (Some (error_body "Something went wrong")) true.
Proof.
  eexists. split; [apply (register_secret_missing alice_register _ alice);
                   first [reflexivity | constructor]|].
  split; [discriminate|reflexivity].
Defined.

Lemma login_accepts_72_byte_prefix_witness :
  pw100 "cdefghijklmnopqrstuvwxyz01" <> pw100 "ZZZZZZZZZZZZZZZZZZZZZZZZZZ" /\
  exists body, login errorHandler long_login (start (snd (register errorHandler long_register w_init))) =
               (inr tt, set_res (mk_res 200 (Some body) true) (start (snd (register errorHandler long_register w_init)))).
Proof.
  split; [vm_compute; discriminate|].
  apply (login_accepts_72_byte_prefix long_register long_login w_init
           (mk_registration "bob" "b@x.com" (pw100 "cdefghijklmnopqrstuvwxyz01"))
           (pw100 "ZZZZZZZZZZZZZZZZZZZZZZZZZZ") "s3cret");
    first [reflexivity | vm_compute; reflexivity | apply empty_db_wf | constructor | discriminate].
Defined.
