(* ===== verification/AuthMiddleware.v ===== *)
(** * Route protection (src/server/middleware/auth.js)

    [protect] reads the [Authorization] header; when it starts with
    ["Bearer"] it takes the second space-separated piece as the token,
    verifies it, loads the user by the token's id and calls [next] with
    [req.user] set, all inside one [try] whose [catch] answers 401
    ["Not authorized"].  After the [if], a falsy [token] ([undefined] or
    [""]) answers 401 ["Not authorized, no token"], even when the [catch]
    has already answered.  [next] is the rest of the route, with
    [req.user] as its argument.  [requireRole(role)] compares
    [req.user.role] with [role]. *)

From S2P Require Import Prelude Json Validators Crypto UserStore Express.

(** A JavaScript string value is truthy when it is defined and non-empty. *)
Definition truthy (s : option string) : bool :=
  match s with Some t => negb (String.eqb t "") | None => false end.

(** [req.headers.authorization.split(' ')[1]] *)
Definition bearer_token (auth : string) : option string := nth_error (split_on " " auth) 1.

Section Middleware.
  Context `{Jwt}.

  (** Lines 4-31 *)
Definition protect (req : request) (next : option public_user -> Handler unit) : Handler unit :=
    let* token :=
      match req_authorization req with
      | Some auth =>
          if startsWith auth "Bearer" then
            let token := bearer_token auth in
            let* _ := try_catch
                        (let* decoded := verify_token token in
                         let* result := query (q_public_by_id (claim_id decoded)) in
                         next (head result))
                        (fun _ => res_json 401 (error_body "Not authorized")) in
            ret token
          else ret None
      | None => ret None
      end in
    if truthy token then ret tt else res_json 401 (error_body "Not authorized, no token").

  (** Lines 33-40 *)
Definition requireRole (role : string) (user : option public_user) (next : Handler unit)
    : Handler unit :=
    match user with
    | Some u => if String.eqb (pu_role u) role then next
                else res_json 403 (error_body "Not authorized for this action")
    | None => res_json 403 (error_body "Not authorized for this action")
    end.
End Middleware.

(** ** Behaviour of [protect] and [requireRole] *)

Lemma bearer_header t :
  has_char " " t = false ->
  startsWith ("Bearer " ++ t) "Bearer" = true /\ bearer_token ("Bearer " ++ t) = Some t.
Proof.
  intros Ht. change ("Bearer " ++ t) with ("Bearer" ++ String " " t). split.
  - apply startsWith_app.
  - unfold bearer_token. rewrite split_on_app by reflexivity. by rewrite split_on_no_sep.
Qed.

Definition not_authorized : response := mk_res 401 (Some (error_body "Not authorized")) true.
Definition no_token : response := mk_res 401 (Some (error_body "Not authorized, no token")) true.
Definition forbidden : response := mk_res 403 (Some (error_body "Not authorized for this action")) true.

Section Properties.
  Context `{Jwt}.

Ltac unfold_protect := unfold protect, bind, try_catch, ret, verify_token, query.

  (** No [Authorization] header, or one not starting with ["Bearer"]:
      401 ["Not authorized, no token"], and the route is not run. *)
Theorem protect_no_header req next w :
    (req_authorization req = None \/
     exists a, req_authorization req = Some a /\ startsWith a "Bearer" = false) ->
    headersSent (w_res w) = false ->
    protect req next w = (inr tt, set_res no_token w).
  Proof.
    intros [Ha | (a & Ha & Hb)] Hsent; unfold_protect; rewrite Ha; [|rewrite Hb]; simpl;
      by rewrite res_json_fresh.
  Qed.

Lemma protect_valid_run req next w t k c iat exp row w' :
  req_authorization req = Some ("Bearer " ++ t) -> t = jwt_sign c k iat exp ->
  w_secret w = Some k -> k <> "" -> (w_now w < exp)%Z ->
  db_wf (w_db w) -> db_up (w_db w) = true -> row ∈ db_users (w_db w) -> u_id row = claim_id c ->
  next (Some (to_public row)) w = (inr tt, w') ->
  protect req next w = (inr tt, w').
Proof.
  intros Ha -> Hs Hk Hnow Hwf Hup Hrow Hid Hnext.
  destruct (bearer_header (jwt_sign c k iat exp)) as [Hb Ht]; [apply jwt_sign_no_space|].
  unfold_protect. rewrite Ha, Hb. simpl. rewrite Ht, Hs, verify_js_signed by done. simpl.
  rewrite <- Hid, (q_public_by_id_row _ _ Hwf Hup Hrow). simpl. rewrite Hnext.
  simpl. by rewrite (proj2 (String.eqb_neq _ _) (jwt_sign_nonempty _ _ _ _)).
Qed.

(** C3: A token the server signed, still valid, for a user still in the
      table: the route runs with [req.user] the row as the table has it
      now (not the token's claims). *)
Theorem protect_valid req next w t k c iat exp row w' :
    req_authorization req = Some ("Bearer " ++ t) -> t = jwt_sign c k iat exp ->
    w_secret w = Some k -> k <> "" -> (w_now w < exp)%Z ->
    db_wf (w_db w) -> db_up (w_db w) = true -> row ∈ db_users (w_db w) -> u_id row = claim_id c ->
    next (Some (to_public row)) w = (inr tt, w') ->
    protect req next w = (inr tt, w').
  Proof. apply protect_valid_run. Qed.
  (** C7: A token that does not verify, whatever the reason (expired,
      another secret, malformed): one 401 ["Not authorized"], the same
      for every cause, and the route is not run. *)
Theorem protect_bad_token req next w t e :
    req_authorization req = Some ("Bearer " ++ t) -> has_char " " t = false -> t <> "" ->
    verify_js (Some t) (w_secret w) (w_now w) = inl e -> headersSent (w_res w) = false ->
    protect req next w = (inr tt, set_res not_authorized w).
  Proof.
    intros Ha Hsp Hne Hv Hsent. destruct (bearer_header t Hsp) as [Hb Ht].
    unfold_protect. rewrite Ha, Hb. simpl. rewrite Ht, Hv. simpl. rewrite res_json_fresh by done.
    simpl. by rewrite (proj2 (String.eqb_neq _ _) Hne).
  Qed.

  (** C29: A valid token while the table is unreachable is also answered 401
      ["Not authorized"]: the store failure is reported as a bad
      credential, not as a server error. *)
Theorem protect_db_down req next w c k iat exp :
    req_authorization req = Some ("Bearer " ++ jwt_sign c k iat exp) ->
    w_secret w = Some k -> k <> "" -> (w_now w < exp)%Z ->
    db_up (w_db w) = false -> headersSent (w_res w) = false ->
    protect req next w = (inr tt, set_res not_authorized w).
  Proof.
    intros Ha Hs Hk Hnow Hdown Hsent.
    destruct (bearer_header (jwt_sign c k iat exp)) as [Hb Ht]; [apply jwt_sign_no_space|].
    unfold_protect. rewrite Ha, Hb. simpl. rewrite Ht, Hs, verify_js_signed by done. simpl.
    unfold q_public_by_id, when_up. rewrite Hdown. simpl. rewrite res_json_fresh by done.
    simpl. by rewrite (proj2 (String.eqb_neq _ _) (jwt_sign_nonempty _ _ _ _)).
  Qed.

  (** C30: A valid token whose user is no longer in the table: the route runs
      with [req.user] undefined. *)
Theorem protect_deleted_user req next w c k iat exp w' :
    req_authorization req = Some ("Bearer " ++ jwt_sign c k iat exp) ->
    w_secret w = Some k -> k <> "" -> (w_now w < exp)%Z ->
    db_up (w_db w) = true -> claim_id c ∉ u_id <$> db_users (w_db w) ->
    next None w = (inr tt, w') ->
    protect req next w = (inr tt, w').
  Proof.
    intros Ha Hs Hk Hnow Hup Hgone Hnext.
    destruct (bearer_header (jwt_sign c k iat exp)) as [Hb Ht]; [apply jwt_sign_no_space|].
    unfold_protect. rewrite Ha, Hb. simpl. rewrite Ht, Hs, verify_js_signed by done. simpl.
    rewrite (q_public_by_id_none _ _ Hup Hgone). simpl. rewrite Hnext. simpl.
    by rewrite (proj2 (String.eqb_neq _ _) (jwt_sign_nonempty _ _ _ _)).
  Qed.

  (** C4: A header that starts with ["Bearer"] but carries no token (["Bearer"],
      ["Bearer "], ...): the [catch] answers 401 ["Not authorized"], then
      the [!token] test answers again, and that second [res.json] throws
      [ERR_HTTP_HEADERS_SENT] out of the middleware. *)
Theorem protect_double_response req next w a :
    req_authorization req = Some a -> startsWith a "Bearer" = true ->
    truthy (bearer_token a) = false -> headersSent (w_res w) = false ->
    protect req next w = (inl HeadersSentError, set_res not_authorized w).
  Proof.
    intros Ha Hb Ht Hsent. unfold_protect. rewrite Ha, Hb. simpl.
    assert (Hv : verify_js (bearer_token a) (w_secret w) (w_now w) = inl JwtMustBeProvided).
    { unfold verify_js. destruct (bearer_token a) as [t|]; [|done]. simpl in Ht.
      destruct (String.eqb t ""); done. }
    rewrite Hv. simpl. rewrite res_json_fresh by done. simpl. rewrite Ht. by rewrite res_json_sent.
  Qed.

Lemma requireRole_run role user next w :
  headersSent (w_res w) = false ->
  requireRole role user next w =
    match user with
    | Some u => if decide (pu_role u = role) then next w else (inr tt, set_res forbidden w)
    | None => (inr tt, set_res forbidden w)
    end.
Proof.
  intros Hsent. unfold requireRole. destruct user as [u|]; [|by rewrite res_json_fresh].
  destruct (String.eqb_spec (pu_role u) role); case_decide; try done.
  by rewrite res_json_fresh.
Qed.

(** [requireRole(role)]: the route runs exactly when a user is attached
      and has that role; otherwise 403. *)
Theorem requireRole_spec role user next w :
    headersSent (w_res w) = false ->
    requireRole role user next w =
      match user with
      | Some u => if decide (pu_role u = role) then next w else (inr tt, set_res forbidden w)
      | None => (inr tt, set_res forbidden w)
      end.
  Proof. apply requireRole_run. Qed.
End Properties.

(** ** Role gate behind [protect] *)

Section Gate.
  Context `{Jwt}.

  (** C8: [protect] then [requireRole("admin")]: a valid token whose account
      has role ["user"] in the table gets 403; an account with role
      ["admin"] reaches the route. *)
Theorem protect_require_admin req h w c k iat exp row :
    req_authorization req = Some ("Bearer " ++ jwt_sign c k iat exp) ->
    w_secret w = Some k -> k <> "" -> (w_now w < exp)%Z ->
    db_wf (w_db w) -> db_up (w_db w) = true -> row ∈ db_users (w_db w) -> u_id row = claim_id c ->
    headersSent (w_res w) = false ->
    (u_role row = "user" ->
       protect req (fun u => requireRole "admin" u h) w = (inr tt, set_res forbidden w)) /\
    (forall w', u_role row = "admin" -> h w = (inr tt, w') ->
       protect req (fun u => requireRole "admin" u h) w = (inr tt, w')).
  Proof.
    intros Ha Hs Hk Hnow Hwf Hup Hrow Hid Hsent. split.
    - intros Hrole. eapply protect_valid_run; eauto.
      rewrite requireRole_run by done. simpl. rewrite Hrole. by case_decide.
    - intros w' Hrole Hh. eapply protect_valid_run; eauto.
      rewrite requireRole_run by done. simpl. rewrite Hrole. by case_decide.
  Qed.
End Gate.

(** ** Witnesses, on the reference token library *)

#[local] Existing Instance Reference.jwt.

Definition alice_row : user_row := mk_row 1 "alice" "a@x.com" "h" "user".
Definition w_table (up : bool) : world :=
  mk_world (mk_db [alice_row] 2 up) fresh_response (Some "s3cret") 1000 1.
Definition alice_claims : claims := mk_claims 1 "alice" "user".
Definition alice_token : string := jwt_sign alice_claims "s3cret" 1000 (1000 + thirty_days).
Definition get_protected (auth : option string) : request := mk_req "GET" "/api/protected" auth (JObj []).

(** The route continuation used by the witnesses: answer with the user. *)
Definition echo_user (u : option public_user) : Handler unit :=
  res_json 200 (match u with Some u => JStr (pu_username u) | None => JNull end).

Lemma table_wf : db_wf (w_db (w_table true)).
Proof. vm_compute. repeat split; repeat constructor; set_solver. Qed.

Lemma protect_valid_witness :
  protect (get_protected (Some ("Bearer " ++ alice_token))) echo_user (w_table true) =
    (inr tt, set_res (mk_res 200 (Some (JStr "alice")) true) (w_table true)).
Proof.
  apply (protect_valid _ _ _ alice_token "s3cret" alice_claims 1000 (1000 + thirty_days) alice_row);
    first [reflexivity | discriminate | apply table_wf | vm_compute; set_solver].
Defined.

Lemma protect_double_response_witness :
  protect (get_protected (Some "Bearer")) echo_user (w_table true) =
    (inl HeadersSentError, set_res not_authorized (w_table true)) /\
  protect (get_protected (Some "Bearer ")) echo_user (w_table true) =
    (inl HeadersSentError, set_res not_authorized (w_table true)).
Proof. split; eapply protect_double_response; reflexivity. Defined.

Lemma protect_bad_token_witness :
  protect (get_protected (Some ("Bearer " ++ jwt_sign alice_claims "other" 1000 (1000 + thirty_days))))
    echo_user (w_table true) = (inr tt, set_res not_authorized (w_table true)) /\
  protect (get_protected (Some ("Bearer " ++ alice_token))) echo_user
    (mk_world (mk_db [alice_row] 2 true) fresh_response (Some "s3cret") (1000 + thirty_days) 1)
    = (inr tt, set_res not_authorized
                 (mk_world (mk_db [alice_row] 2 true) fresh_response (Some "s3cret") (1000 + thirty_days) 1)).
Proof.
  split.
  - eapply (protect_bad_token _ _ _ _ InvalidSignature); first [reflexivity | discriminate].
  - eapply (protect_bad_token _ _ _ _ TokenExpired); first [reflexivity | discriminate].
Defined.

Lemma protect_no_header_witness :
  protect (get_protected None) echo_user (w_table true) = (inr tt, set_res no_token (w_table true)) /\
  protect (get_protected (Some "Basic YWxpY2U6cHc=")) echo_user (w_table true) =
    (inr tt, set_res no_token (w_table true)).
Proof.
  split; apply protect_no_header; [left | | right; eexists; split | ]; reflexivity.
Defined.

Lemma protect_db_down_witness :
  protect (get_protected (Some ("Bearer " ++ alice_token))) echo_user (w_table false) =
    (inr tt, set_res not_authorized (w_table false)).
Proof.
  apply (protect_db_down _ _ _ alice_claims "s3cret" 1000 (1000 + thirty_days));
    first [reflexivity | discriminate].
Defined.

Lemma protect_deleted_user_witness :
  protect (get_protected (Some ("Bearer " ++ jwt_sign (mk_claims 7 "gone" "user") "s3cret" 1000 (1000 + thirty_days))))
    echo_user (w_table true) = (inr tt, set_res (mk_res 200 (Some JNull) true) (w_table true)).
Proof.
  apply (protect_deleted_user _ _ _ (mk_claims 7 "gone" "user") "s3cret" 1000 (1000 + thirty_days));
    first [reflexivity | discriminate | vm_compute; set_solver].
Defined.

Lemma requireRole_spec_witness :
  requireRole "admin" (Some (to_public alice_row)) (echo_user None) (w_table true) =
    (inr tt, set_res forbidden (w_table true)).
Proof. rewrite requireRole_spec by reflexivity. reflexivity. Defined.

Definition admin_row : user_row := mk_row 1 "root" "r@x.com" "h" "admin".
Definition w_admin : world := mk_world (mk_db [admin_row] 2 true) fresh_response (Some "s3cret") 1000 1.
Definition root_token : string := jwt_sign (mk_claims 1 "root" "admin") "s3cret" 1000 (1000 + thirty_days).

Definition admin_area : Handler unit := res_json 200 (JStr "admin area").

Lemma protect_require_admin_witness :
  protect (get_protected (Some ("Bearer " ++ alice_token))) (fun u => requireRole "admin" u admin_area)
    (w_table true) = (inr tt, set_res forbidden (w_table true)) /\
  protect (get_protected (Some ("Bearer " ++ root_token))) (fun u => requireRole "admin" u admin_area)
    w_admin = (inr tt, set_res (mk_res 200 (Some (JStr "admin area")) true) w_admin).
Proof.
  split.
  - apply (proj1 (protect_require_admin (get_protected (Some ("Bearer " ++ alice_token))) admin_area
                    (w_table true) alice_claims "s3cret" 1000 (1000 + thirty_days) alice_row
                    eq_refl eq_refl ltac:(discriminate) ltac:(reflexivity) table_wf eq_refl
                    ltac:(vm_compute; set_solver) eq_refl eq_refl)).
    reflexivity.
  - apply (proj2 (protect_require_admin (get_protected (Some ("Bearer " ++ root_token))) admin_area
                    w_admin (mk_claims 1 "root" "admin") "s3cret" 1000 (1000 + thirty_days)
                    admin_row eq_refl eq_refl ltac:(discriminate) ltac:(reflexivity)
                    ltac:(vm_compute; repeat split; repeat constructor; set_solver) eq_refl
                    ltac:(vm_compute; set_solver) eq_refl eq_refl)); reflexivity.
Defined.

