(* ===== verification/Server.v ===== *)
(** * The application (src/server/index.js)

    [dotenv.config()] fills [process.env] from [.env] without overriding
    what is set; [cors()] with its defaults answers a preflight [OPTIONS]
    request itself (204, no body) and marks every other response
    [Access-Control-Allow-Origin: *]; [express.json()] parses the body (a
    malformed body goes to the error handler); the auth routes
    ([routes/auth.js] is not among the sources: [POST /api/auth/register]
    and [POST /api/auth/login] as the specification lists them); the
    protected example route behind [protect]; Express's 404 for any other
    path; [errorHandler] last.  In its default strict mode
    [express.json()] accepts only an object or an array at the top level:
    any other JSON value is a SyntaxError, as a malformed body is.  Express matches paths case-insensitively
    with an optional trailing slash, and runs a [GET] route for [HEAD]
    without sending the body.
    A synchronous throw in a route is forwarded to [errorHandler]; a
    rejection of an async middleware is not caught by Express 4 and
    escapes [app] as an exception.  [serve] runs a sequence of requests,
    each on a fresh response object, over the shared table. *)

From S2P Require Import Prelude Json Validators Crypto UserStore Express AuthController AuthMiddleware.

(** A request as it arrives: the method, the path without its query, the
    [Authorization] header, the body ([None] when it is not valid JSON)
    and the [Access-Control-Request-Headers] header of a preflight. *)
Record http_request : Type := mk_http {
  h_method : string; h_path : string; h_authorization : option string; h_body : option json;
  h_acr_headers : option string }.

(** A route's path matches as path-to-regexp compiles it for Express's
    defaults ([sensitive: false], [strict: false]). *)
Definition route_is (path route : string) : bool :=
  let p := toLowerCase path in String.eqb p route || String.eqb p (route ++ "/").

(** A route registered for [m] handles [m], and a [GET] route [HEAD]. *)
Definition method_is (method m : string) : bool :=
  String.eqb method m || (String.eqb m "GET" && String.eqb method "HEAD").

Definition is_preflight (hr : http_request) : bool := String.eqb (h_method hr) "OPTIONS".

(** Whether [express.json()] in strict mode lets the body through: an
    object or an array. *)
Definition strict_body (b : option json) : bool :=
  match b with Some (JObj _ | JArr _) => true | _ => false end.

Definition public_json (u : public_user) : json :=
  JObj [("id", JNum (pu_id u)); ("username", JStr (pu_username u)); ("email", JStr (pu_email u));
        ("role", JStr (pu_role u))].

(** [res.json({ message: 'Access granted', user: req.user })]: a field
    whose value is [undefined] is left out by [JSON.stringify]. *)
Definition protected_route (user : option public_user) : Handler unit :=
  res_json 200 (JObj ([("message", JStr "Access granted")] ++
                      match user with Some u => [("user", public_json u)] | None => [] end)).

(** Express runs a route and hands what it throws to the error handler. *)
Definition express_next (h : Handler unit) : Handler unit := try_catch h errorHandler.

Section App.
  Context `{Bcrypt} `{Jwt}.

  (** Lines 15-26: after [cors()] let the request through. *)
Definition app_routes (hr : http_request) : Handler unit :=
    match h_body hr with
    | Some ((JObj _ | JArr _) as body) =>
        let req := mk_req (h_method hr) (h_path hr) (h_authorization hr) body in
        if method_is (h_method hr) "POST" && route_is (h_path hr) "/api/auth/register"
        then register errorHandler req
        else if method_is (h_method hr) "POST" && route_is (h_path hr) "/api/auth/login"
        then login errorHandler req
        else if method_is (h_method hr) "GET" && route_is (h_path hr) "/api/protected"
        then protect req (fun u => express_next (protected_route u))
        else res_json 404 (JStr ("Cannot " ++ h_method hr ++ " " ++ h_path hr))
    | _ => errorHandler BodySyntaxError
    end.

  (** Lines 13-26: [cors()] ends a preflight with [optionsSuccessStatus]
      204 before any other middleware runs. *)
Definition app (hr : http_request) : Handler unit :=
    if is_preflight hr then res_end 204 else app_routes hr.

  (** Requests one after another; each gets a fresh response object.
      The result lists, per request, whether the handler completed and
      the response it left. *)
Fixpoint serve (reqs : list http_request) (w : world) : list ((exn + unit) * response) * world :=
    match reqs with
    | [] => ([], w)
    | r :: rs =>
        let (o, w') := app r (start w) in
        let (outs, w'') := serve rs w' in
        ((o, w_res w') :: outs, w'')
    end.
End App.

(** ** What goes on the wire *)

(** The headers [cors()] sets with its defaults: a preflight gets the
    allowed origin and methods, [Vary], and the requested headers
    reflected when there are any; any other request the origin. *)
Definition cors_headers (hr : http_request) : list (string * string) :=
  if is_preflight hr then
    [("Access-Control-Allow-Origin", "*"); ("Access-Control-Allow-Methods", "GET,HEAD,PUT,PATCH,POST,DELETE");
     ("Vary", "Access-Control-Request-Headers")] ++
    match h_acr_headers hr with
    | Some h => if String.eqb h "" then [] else [("Access-Control-Allow-Headers", h)]
    | None => []
    end
  else [("Access-Control-Allow-Origin", "*")].

Record http_response : Type := mk_http_response {
  hs_status : Z; hs_headers : list (string * string); hs_body : option json }.

(** The response a client receives for [hr] from the response object the
    handlers left: [res.send] ends a [HEAD] response without its body. *)
Definition on_wire (hr : http_request) (r : response) : http_response :=
  mk_http_response (res_status r) (cors_headers hr) (if String.eqb (h_method hr) "HEAD" then None else res_body r).

(** ** Configuration (lines 8, 11 and 28-30) *)

Fixpoint env_get (k : string) (env : list (string * string)) : option string :=
  match env with
  | [] => None
  | (k', v) :: env' => if String.eqb k k' then Some v else env_get k env'
  end.

(** [dotenv.config()]: the pairs of [.env] (as parsed, one per key) are
    added to [process.env] unless it already has the key. *)
Definition dotenv_config (file env : list (string * string)) : list (string * string) :=
  env ++ List.filter (fun kv => negb (bool_decide (is_Some (env_get kv.1 env)))) file.

(** Line 11: [process.env.PORT || 5000]; the empty string is falsy. *)
Definition port (env : list (string * string)) : string :=
  match env_get "PORT" env with
  | Some p => if String.eqb p "" then "5000" else p
  | None => "5000"
  end.

(** Lines 28-30: what [app.listen]'s callback logs. *)
Definition listen_message (env : list (string * string)) : string := "Server running on port " ++ port env.

(** ** The specification's scenario, run on the reference libraries *)

Module Scenario.
  Import Reference.

Definition w0 : world := mk_world empty_db fresh_response (Some "s3cret") 1000 0.

Definition alice_token : string :=
    jwt_sign (mk_claims 1 "alice" "user") "s3cret" 1000 (1000 + thirty_days).

Definition requests : list http_request := [
    mk_http "POST" "/api/auth/register" None
      (Some (JObj [("username", JStr "alice"); ("email", JStr "a@x.com"); ("password", JStr "password123")])) None;
    mk_http "POST" "/api/auth/login" None
      (Some (JObj [("email", JStr "a@x.com"); ("password", JStr "wrong")])) None;
    mk_http "GET" "/api/protected" None (Some (JObj [])) None;
    mk_http "GET" "/api/protected" (Some ("Bearer " ++ alice_token)) (Some (JObj [])) None].

Definition alice : public_user := mk_public 1 "alice" "a@x.com" "user".
End Scenario.

Lemma route_login_not_register path :
  route_is path "/api/auth/login" = true -> route_is path "/api/auth/register" = false.
Proof. unfold route_is. intros [H|H]%orb_true_iff; apply String.eqb_eq in H; by rewrite H. Qed.

(** C31: A login whose e-mail is well formed and whose password has fewer
    than eight characters is answered 400 with the one issue
    [password: too_small 8], whatever the users table holds (the account
    may exist with exactly that password) and whether the database is up:
    [loginSchema] runs before any credential check, so the specification's
    scenario, a login with the password ["wrong"], gets this 400 and not
    its 401 "Invalid credentials". *)
Theorem app_login_short_password `{Bcrypt} `{Jwt} hr w fs e p :
  h_method hr = "POST" -> route_is (h_path hr) "/api/auth/login" = true -> h_body hr = Some (JObj fs) ->
  jget "email" fs = Some (JStr e) -> zod_email e = true ->
  jget "password" fs = Some (JStr p) -> (String.length p < 8)%nat -> headersSent (w_res w) = false ->
  app hr w = (inr tt, set_res (mk_res 400 (Some (validation_error_body [mk_issue "password" (TooSmall 8)])) true) w).
Proof.
  intros Hm Hr Hb He Hz Hp Hl Hs. unfold app, app_routes, is_preflight. rewrite Hm, Hb. simpl.
  rewrite (route_login_not_register _ Hr), Hr. simpl.
  apply login_invalid; [simpl; by apply (validateLogin_short fs e p) | done].
Qed.

(** C32: A body [express.json()] cannot parse, or whose top-level value is
    neither an object nor an array, reaches [errorHandler] as a
    SyntaxError, which is not a ZodError: 500, where the specification
    asks for a validation error. *)
Theorem app_malformed_body `{Bcrypt} `{Jwt} hr w :
  is_preflight hr = false -> strict_body (h_body hr) = false -> headersSent (w_res w) = false ->
  app hr w = (inr tt, set_res (mk_res 500 (Some (error_body "Something went wrong")) true) w).
Proof.
  intros Hp Hb Hsent. unfold app, app_routes. rewrite Hp.
  destruct (h_body hr) as [[]|]; try discriminate; simpl; by rewrite res_json_fresh.
Qed.

(** ** Routing as Express does it *)

(** ** CORS and configuration *)

(** A preflight is answered by [cors()] alone: 204, no body, whatever the
    path, the body or the token; every response allows any origin. *)
Theorem preflight_answer `{Bcrypt} `{Jwt} hr w :
  is_preflight hr = true -> headersSent (w_res w) = false ->
  app hr w = (inr tt, set_res (mk_res 204 None true) w) /\
  on_wire hr (mk_res 204 None true) = mk_http_response 204 (cors_headers hr) None.
Proof.
  intros Hp Hs. unfold app, res_end. rewrite Hp, Hs. split; [done|].
  unfold on_wire, is_preflight in *. apply String.eqb_eq in Hp. by rewrite Hp.
Qed.

Lemma any_origin hr r : ("Access-Control-Allow-Origin", "*") ∈ hs_headers (on_wire hr r).
Proof. unfold on_wire, cors_headers. simpl. destruct (is_preflight hr); set_solver. Qed.

Lemma env_get_app k l1 l2 :
  env_get k (l1 ++ l2) = match env_get k l1 with Some v => Some v | None => env_get k l2 end.
Proof. induction l1 as [|[k' v] l1 IH]; simpl; [done|]. by destruct (String.eqb k k'). Qed.

(** What [dotenv.config()] leaves in [process.env]: a variable already set
    wins, [.env] supplies the others. *)
Theorem dotenv_config_spec file env k :
  env_get k (dotenv_config file env) = match env_get k env with Some v => Some v | None => env_get k file end.
Proof.
  unfold dotenv_config. rewrite env_get_app. destruct (env_get k env) as [v|] eqn:E; [done|].
  induction file as [|[k' v'] file IH]; simpl; [done|].
  destruct (String.eqb_spec k k') as [<-|Hne].
  - rewrite E. simpl. by rewrite String.eqb_refl.
  - destruct (negb _); simpl; [|done]. apply String.eqb_neq in Hne. by rewrite Hne.
Qed.

(** ** Witnesses *)

#[local] Existing Instances Reference.bcrypt Reference.jwt.

Lemma app_malformed_body_witness :
  app (mk_http "POST" "/api/auth/login" None None None) w_init =
    (inr tt, set_res (mk_res 500 (Some (error_body "Something went wrong")) true) w_init).
Proof. apply app_malformed_body; reflexivity. Defined.

Lemma app_login_short_password_witness :
  app (mk_http "POST" "/api/auth/login" None
         (Some (JObj [("email", JStr "a@x.com"); ("password", JStr "wrong")])) None) w_init =
    (inr tt, set_res (mk_res 400 (Some (validation_error_body [mk_issue "password" (TooSmall 8)])) true) w_init).
Proof.
  apply (app_login_short_password _ _ [("email", JStr "a@x.com"); ("password", JStr "wrong")] "a@x.com" "wrong");
    reflexivity || (simpl; lia).
Defined.

Lemma port_default : listen_message (dotenv_config [("JWT_SECRET", "s")] []) = "Server running on port 5000".
Proof. reflexivity. Qed.
