(* ===== verification/ApiTypes.v ===== *)
(** * The types of the API's responses

    The specification's HTTP table gives each route's success body
    ([{id,username,email,role,token}], [{message, user}]) and its error
    statuses; the error bodies are [{error}] and, for a validation error,
    [{error, details}].  [jty] is a small language of JSON types and
    [typed] its membership test.  [Pres], [Fin] and [Ans] are three
    properties of handlers in the monad of [Express] (it keeps every body
    it sends well typed for its status; it returns only after answering;
    it always ends answered), with rules along the monad's structure, so
    each handler of the application is checked by taking it apart, like
    [Invariant]'s [keeps]. *)

From S2P Require Import Prelude Json Validators Crypto UserStore Express AuthController AuthMiddleware Server.

Inductive jty : Type :=
| TStr
| TNum
| TArr (t : jty)
| TObj (fields : list (string * jty)).

(** An object has exactly the listed fields, in that order. *)
Fixpoint typed (t : jty) (j : json) {struct t} : bool :=
  match t, j with
  | TStr, JStr _ => true
  | TNum, JNum _ => true
  | TArr t', JArr l => forallb (typed t') l
  | TObj fs, JObj kvs =>
      (fix fields (fs : list (string * jty)) (kvs : list (string * json)) : bool :=
         match fs, kvs with
         | [], [] => true
         | (k, t1) :: fs', (k', v) :: kvs' => String.eqb k k' && typed t1 v && fields fs' kvs'
         | _, _ => false
         end) fs kvs
  | _, _ => false
  end.

Definition public_t : jty := TObj [("id", TNum); ("username", TStr); ("email", TStr); ("role", TStr)].
Definition user_t : jty := TObj [("id", TNum); ("username", TStr); ("email", TStr); ("role", TStr); ("token", TStr)].
Definition protected_t : jty := TObj [("message", TStr); ("user", public_t)].
(** What the protected route sends when the token's user no longer exists. *)
Definition protected_anon_t : jty := TObj [("message", TStr)].
Definition error_t : jty := TObj [("error", TStr)].
Definition validation_t : jty :=
  TObj [("error", TStr); ("details", TArr (TObj [("code", TStr); ("path", TArr TStr)]))].

(** The bodies a status may carry. *)
Definition body_types (code : Z) : list jty :=
  if (code =? 200)%Z then [user_t; protected_t; protected_anon_t]
  else if (code =? 201)%Z then [user_t]
  else if (code =? 400)%Z then [error_t; validation_t]
  else if (code =? 401)%Z || (code =? 403)%Z || (code =? 500)%Z then [error_t]
  else if (code =? 404)%Z then [TStr]
  else [].

Definition typed_for (code : Z) (b : json) : bool := existsb (fun t => typed t b) (body_types code).

(** A response object is well typed: a body sent is typed for the status,
    and headers are sent only with a body. *)
Definition good (r : response) : Prop :=
  (headersSent r = true -> is_Some (res_body r)) /\
  (forall b, res_body r = Some b -> typed_for (res_status r) b = true).

Definition answered (w : world) : Prop := is_Some (res_body (w_res w)).

Definition Pres {A} (h : Handler A) : Prop :=
  forall w, good (w_res w) -> good (w_res (snd (h w))) /\ (answered w -> answered (snd (h w))).

Definition Fin {A} (h : Handler A) : Prop :=
  Pres h /\ forall w, good (w_res w) -> answered (snd (h w)) \/ exists e, fst (h w) = inl e.

Definition Ans {A} (h : Handler A) : Prop :=
  Pres h /\ forall w, good (w_res w) -> answered (snd (h w)).

(** ** Rules *)

Lemma Pres_pure {A} (h : Handler A) : (forall w, w_res (snd (h w)) = w_res w) -> Pres h.
Proof. intros H w Hg. unfold answered. by rewrite H. Qed.

Lemma Pres_ret {A} (a : A) : Pres (ret a).
Proof. by apply Pres_pure. Qed.

Lemma Pres_lift {A} (r : exn + A) : Pres (lift r).
Proof. by apply Pres_pure. Qed.

Lemma Pres_query {A} (q : db -> db_error + A) : Pres (query q).
Proof. apply Pres_pure. intros w. unfold query. by destruct (q _). Qed.

Lemma Pres_insert u e p r : Pres (query_insert u e p r).
Proof. apply Pres_pure. intros w. unfold query_insert. by destruct (q_insert_user _ _ _ _ _) as [[|] ?]. Qed.

Lemma Ans_res_json code body : typed_for code body = true -> Ans (res_json code body).
Proof.
  intros Ht. split.
  - intros w Hw. unfold res_json, answered. destruct (headersSent (w_res w)); simpl; [by split|].
    split; [split; [by eexists | by intros b [= <-]] | by eexists].
  - intros w [Hs _]. unfold res_json, answered. destruct (headersSent (w_res w)) eqn:E; simpl; [by apply Hs|].
    by eexists.
Qed.

Lemma Fin_of_Ans {A} (h : Handler A) : Ans h -> Fin h.
Proof. intros [Hp Ha]. split; [done|]. intros w Hw. left. by apply Ha. Qed.

Lemma Pres_bind {A B} (c : Handler A) (k : A -> Handler B) :
  Pres c -> (forall a, Pres (k a)) -> Pres (bind c k).
Proof.
  intros Hc Hk w Hw. unfold bind. destruct (Hc w Hw) as [Hg Ha].
  destruct (c w) as [[e|a] w'] eqn:E; simpl in *; [done|].
  destruct (Hk a w' Hg) as [Hg' Ha']. split; [done|]. intros Hx. by apply Ha', Ha.
Qed.

Lemma Fin_bind_r {A B} (c : Handler A) (k : A -> Handler B) :
  Pres c -> (forall a, Fin (k a)) -> Fin (bind c k).
Proof.
  intros Hc Hk. split; [apply Pres_bind; [done|intros a; apply Hk]|].
  intros w Hw. unfold bind. destruct (Hc w Hw) as [Hg _].
  destruct (c w) as [[e|a] w'] eqn:E; simpl in *; [by right; exists e|]. by apply Hk.
Qed.

Lemma Ans_bind_l {A B} (c : Handler A) (k : A -> Handler B) :
  Ans c -> (forall a, Pres (k a)) -> Ans (bind c k).
Proof.
  intros [Hc Ha] Hk. split; [by apply Pres_bind|].
  intros w Hw. unfold bind. destruct (Hc w Hw) as [Hg _]. pose proof (Ha w Hw) as Hans.
  destruct (c w) as [[e|a] w'] eqn:E; simpl in *; [done|]. by apply (Hk a w' Hg).
Qed.

Lemma Ans_bind_ret {A B} (a : A) (k : A -> Handler B) : Ans (k a) -> Ans (bind (ret a) k).
Proof. done. Qed.

Lemma Ans_try {A} (c : Handler A) (h : exn -> Handler A) :
  Fin c -> (forall e, Ans (h e)) -> Ans (try_catch c h).
Proof.
  intros [Hc Hf] Hh. split.
  - intros w Hw. unfold try_catch. destruct (Hc w Hw) as [Hg Ha].
    destruct (c w) as [[e|a] w'] eqn:E; simpl in *; [|done].
    destruct (proj1 (Hh e) w' Hg) as [Hg' Ha']. split; [done|]. intros Hx. by apply Ha', Ha.
  - intros w Hw. unfold try_catch. destruct (Hc w Hw) as [Hg _]. pose proof (Hf w Hw) as Hfin.
    destruct (c w) as [[e|a] w'] eqn:E; simpl in *; [by apply (proj2 (Hh e))|].
    destruct Hfin as [|[e' [=]]]. done.
Qed.

Section Libraries.
  Context `{Bcrypt} `{Jwt}.

Lemma Pres_genSalt rounds : Pres (genSalt rounds).
  Proof. by apply Pres_pure. Qed.

Lemma Pres_sign_token c : Pres (sign_token c).
  Proof. apply Pres_pure. intros w. unfold sign_token. by destruct (sign_js _ _ _). Qed.

Lemma Pres_verify_token t : Pres (verify_token t).
  Proof. apply Pres_pure. intros w. unfold verify_token. by destruct (verify_js _ _ _). Qed.
End Libraries.

Lemma typed_obj_cons k t fs k' v kvs :
  typed (TObj ((k, t) :: fs)) (JObj ((k', v) :: kvs)) = String.eqb k k' && typed t v && typed (TObj fs) (JObj kvs).
Proof. reflexivity. Qed.

Lemma typed_arr t l : typed (TArr t) (JArr l) = forallb (typed t) l.
Proof. reflexivity. Qed.

Lemma validation_body_typed iss : typed_for 400 (validation_error_body iss) = true.
Proof.
  assert (Hf : forallb (typed (TObj [("code", TStr); ("path", TArr TStr)])) (issue_json <$> iss) = true).
  { apply forallb_forall. intros j Hj. apply in_map_iff in Hj as (i & <- & _). by destruct (issue_kind i). }
  unfold typed_for. replace (body_types 400) with [error_t; validation_t] by reflexivity.
  unfold validation_t, validation_error_body. cbn [existsb]. rewrite !typed_obj_cons, typed_arr, Hf.
  reflexivity.
Qed.

Lemma Ans_errorHandler e : Ans (errorHandler e).
Proof. destruct e; apply Ans_res_json; try reflexivity. apply validation_body_typed. Qed.

Create HintDb api.
#[export] Hint Resolve Pres_ret Pres_lift Pres_query Pres_insert Pres_genSalt Pres_sign_token
  Pres_verify_token Ans_errorHandler : api.

(** Take a handler apart along the rules. *)
Ltac api_tac :=
  repeat (cbv zeta; match goal with
    | |- Ans (try_catch _ _) => apply Ans_try; intros
    | |- Fin (bind _ _) => apply Fin_bind_r; [|intros]
    | |- Fin (if ?b then _ else _) => destruct b
    | |- Fin (match ?x with _ => _ end) => destruct x
    | |- Fin (res_json _ _) => apply Fin_of_Ans, Ans_res_json; reflexivity
    | |- Ans (res_json _ _) => apply Ans_res_json; reflexivity
    | |- Pres (if ?b then _ else _) => destruct b
    | |- Pres (res_json _ _) => apply Ans_res_json; reflexivity
    | |- _ => eauto with api
    end).

(** ** Every handler of the application answers with a typed body *)

Section Handlers.
  Context `{Bcrypt} `{Jwt}.

Lemma Ans_register req : Ans (register errorHandler req).
  Proof. unfold register. api_tac. Qed.

Lemma Ans_login req : Ans (login errorHandler req).
  Proof. unfold login. api_tac. Qed.

  (** The protected part of [protect] answers whenever [next] does; the
      trailing test then only answers when nothing was sent. *)
Lemma Ans_protect req next : (forall u, Ans (next u)) -> Ans (protect req next).
  Proof.
    intros Hn. unfold protect.
    destruct (req_authorization req) as [auth|]; [destruct (startsWith auth "Bearer")|];
      [|apply Ans_bind_ret; apply Ans_res_json; reflexivity ..].
    apply Ans_bind_l; [cbv zeta; apply Ans_bind_l; [|intros; apply Pres_ret]|].
    - api_tac. apply Fin_of_Ans, Hn.
    - intros token. api_tac.
  Qed.

Lemma Ans_protected_route u : Ans (express_next (protected_route u)).
  Proof. unfold express_next, protected_route. apply Ans_try; [|apply Ans_errorHandler]. destruct u; api_tac. Qed.

Lemma Ans_app_routes hr : Ans (app_routes hr).
  Proof.
    unfold app_routes. destruct (h_body hr) as [[]|]; try apply Ans_errorHandler;
      (destruct (_ && _); [apply Ans_register|]); (destruct (_ && _); [apply Ans_login|]);
      (destruct (_ && _); [apply Ans_protect, Ans_protected_route|]); apply Ans_res_json; reflexivity.
  Qed.

Lemma start_good w : good (w_res (start w)).
  Proof. split; [done|]. by intros b [=]. Qed.

End Handlers.
