(* ===== verification/Invariant.v ===== *)
(** * What any sequence of requests can do to the users table

    One step of the table is the INSERT of [register]: a row with a fresh
    email and username, the serial's id, a non-empty hash and role
    ["user"].  [keeps h] says that running the handler [h] moves the
    table by zero or more such steps.  The rules below follow the shape
    of the handler monad (bind, try/catch, branches, library calls), so
    each handler of the application is checked by taking it apart; then
    [serve] over any list of requests moves the table by such steps, and
    the table invariant, the set of administrators and every existing row
    survive. *)

From stdpp Require Import relations.
From S2P Require Import Prelude Json Validators Crypto UserStore Express AuthController AuthMiddleware Server.

(** One INSERT of a new account, or one the UNIQUE constraints rejected
    after it drew an id from the serial. *)
Inductive user_insert : db -> db -> Prop :=
| user_insert_step u e p d :
    fresh_identity e u d -> p <> "" ->
    user_insert d (db_after_insert (new_row u e p "user" d) d)
| user_insert_skip d : user_insert d (db_skip_id d).

Definition keeps {A} (h : Handler A) : Prop :=
  forall w, rtc user_insert (w_db w) (w_db (snd (h w))).

(** ** Rules *)

Lemma keeps_pure {A} (h : Handler A) : (forall w, w_db (snd (h w)) = w_db w) -> keeps h.
Proof. intros H w. rewrite H. apply rtc_refl. Qed.

Lemma keeps_ret {A} (a : A) : keeps (ret a).
Proof. by apply keeps_pure. Qed.

Lemma keeps_lift {A} (r : exn + A) : keeps (lift r).
Proof. by apply keeps_pure. Qed.

Lemma keeps_bind {A B} (c : Handler A) (k : A -> Handler B) :
  keeps c -> (forall a, keeps (k a)) -> keeps (bind c k).
Proof.
  intros Hc Hk w. specialize (Hc w). unfold bind.
  destruct (c w) as [[e|a] w'] eqn:E; simpl in *; [done|].
  etrans; [exact Hc|]. apply Hk.
Qed.

Lemma keeps_try {A} (c : Handler A) (h : exn -> Handler A) :
  keeps c -> (forall e, keeps (h e)) -> keeps (try_catch c h).
Proof.
  intros Hc Hh w. specialize (Hc w). unfold try_catch.
  destruct (c w) as [[e|a] w'] eqn:E; simpl in *; [|done].
  etrans; [exact Hc|]. apply Hh.
Qed.

Lemma keeps_res_json code body : keeps (res_json code body).
Proof. apply keeps_pure. intros w. unfold res_json. by destruct (headersSent _). Qed.

Lemma keeps_res_end code : keeps (res_end code).
Proof. apply keeps_pure. intros w. unfold res_end. by destruct (headersSent _). Qed.

Lemma keeps_query {A} (q : db -> db_error + A) : keeps (query q).
Proof. apply keeps_pure. intros w. unfold query. by destruct (q _). Qed.

Lemma keeps_parse {A} (r : list issue + A) : keeps (parse_or_throw r).
Proof. apply keeps_lift. Qed.

Lemma keeps_errorHandler e : keeps (errorHandler e).
Proof. destruct e; apply keeps_res_json. Qed.

Lemma keeps_insert u e p : p <> "" -> keeps (query_insert u e p "user").
Proof.
  intros Hp w. unfold query_insert.
  destruct (q_insert_user _ _ _ _ _) as [[err|r] d'] eqn:E; simpl.
  - apply q_insert_user_fail in E as [->| ->]; [apply rtc_refl|apply rtc_once; constructor].
  - apply q_insert_user_ok in E as (_ & Hf & _ & ->). apply rtc_once. by constructor.
Qed.

Section Libraries.
  Context `{Bcrypt} `{Jwt}.

Lemma keeps_genSalt rounds : keeps (genSalt rounds).
  Proof. by apply keeps_pure. Qed.

Lemma keeps_sign_token c : keeps (sign_token c).
  Proof. apply keeps_pure. intros w. unfold sign_token. by destruct (sign_js _ _ _). Qed.

Lemma keeps_verify_token t : keeps (verify_token t).
  Proof. apply keeps_pure. intros w. unfold verify_token. by destruct (verify_js _ _ _). Qed.
End Libraries.

Create HintDb keeps.
#[export] Hint Resolve keeps_ret keeps_lift keeps_res_json keeps_query keeps_parse keeps_errorHandler
  keeps_genSalt keeps_sign_token keeps_verify_token : keeps.

(** Take a handler apart along the rules. *)
Ltac keeps_tac :=
  repeat (cbv zeta; match goal with
    | |- keeps (bind _ _) => apply keeps_bind; intros
    | |- keeps (try_catch _ _) => apply keeps_try; intros
    | |- keeps (if ?b then _ else _) => destruct b
    | |- keeps (match ?x with _ => _ end) => destruct x
    | |- keeps (query_insert _ _ (bcrypt_hash _ _) _) => apply keeps_insert, bcrypt_hash_nonempty
    | |- keeps _ => eauto with keeps
    end).

(** ** Every handler of the application *)

Section Handlers.
  Context `{Bcrypt} `{Jwt}.

Lemma keeps_register req : keeps (register errorHandler req).
  Proof. unfold register. keeps_tac. Qed.

Lemma keeps_login req : keeps (login errorHandler req).
  Proof. unfold login. keeps_tac. Qed.

Lemma keeps_protect req next : (forall u, keeps (next u)) -> keeps (protect req next).
  Proof. intros Hn. unfold protect. keeps_tac. Qed.

Lemma keeps_requireRole role user next : keeps next -> keeps (requireRole role user next).
  Proof. intros Hn. unfold requireRole. keeps_tac. Qed.

Lemma keeps_app hr : keeps (app hr).
  Proof.
    unfold app. destruct (is_preflight hr); [apply keeps_res_end|].
    unfold app_routes. destruct (h_body hr) as [[]|]; try apply keeps_errorHandler;
      keeps_tac; auto using keeps_register, keeps_login;
      apply keeps_protect; intros u; unfold express_next, protected_route; keeps_tac.
  Qed.

Lemma serve_moves reqs w : rtc user_insert (w_db w) (w_db (snd (serve reqs w))).
  Proof.
    revert w. induction reqs as [|r reqs IH]; intros w; simpl; [apply rtc_refl|].
    pose proof (keeps_app r (start w)) as Hr.
    destruct (app r (start w)) as [o w'] eqn:E. destruct (serve reqs w') as [outs w''] eqn:E2.
    simpl in *. etrans; [exact Hr|]. specialize (IH w'). rewrite E2 in IH. exact IH.
  Qed.
End Handlers.

(** ** What the steps preserve *)

Definition rows_ok (d : db) : Prop :=
  Forall (fun r => (u_role r = "user" \/ u_role r = "admin") /\ u_password r <> "") (db_users d).

Definition store_inv (d : db) : Prop := db_wf d /\ rows_ok d.

Definition admins (d : db) : list user_row := List.filter (fun r => String.eqb (u_role r) "admin") (db_users d).

Lemma user_insert_inv d d' : user_insert d d' -> store_inv d -> store_inv d'.
Proof.
  intros [u e p d0 Hf Hp|d0] [Hwf Hok]; [|split; [by apply db_skip_id_wf|done]].
  split; [by apply db_after_insert_wf|].
  unfold rows_ok, db_after_insert. simpl. apply Forall_app. split; [done|].
  repeat constructor; simpl; auto.
Qed.

Lemma user_insert_admins d d' : user_insert d d' -> admins d' = admins d.
Proof.
  intros [u e p d0 Hf Hp|d0]; [|done]. unfold admins, db_after_insert. simpl.
  rewrite List.filter_app. simpl. by rewrite app_nil_r.
Qed.

Lemma user_insert_prefix d d' : user_insert d d' -> db_users d `prefix_of` db_users d'.
Proof. intros [u e p d0 Hf Hp|d0]; simpl; [by exists [new_row u e p "user" d0]|done]. Qed.

Lemma inserts_inv d d' : rtc user_insert d d' -> store_inv d -> store_inv d'.
Proof. induction 1 as [|d1 d2 d3 Hs _ IH]; [done|]. intros Hi. apply IH. by apply (user_insert_inv d1). Qed.

Lemma inserts_admins d d' : rtc user_insert d d' -> admins d' = admins d.
Proof. induction 1 as [|d1 d2 d3 Hs _ IH]; [done|]. rewrite IH. by apply user_insert_admins. Qed.

Lemma inserts_prefix d d' : rtc user_insert d d' -> db_users d `prefix_of` db_users d'.
Proof. induction 1 as [|d1 d2 d3 Hs _ IH]; [done|]. etrans; [by apply user_insert_prefix|exact IH]. Qed.

Section Serve.
  Context `{Bcrypt} `{Jwt}.

  (** C25: Whatever requests the application serves, in any number and
      order, the users table keeps unique emails, usernames and ids below
      the serial, and every row keeps a non-empty hash and the role
      ["user"] or ["admin"]; no request creates, changes or removes an
      administrator, and no row is changed or removed: the table only
      grows at its end. *)
Theorem serve_preserves_inv reqs w :
    store_inv (w_db w) ->
    store_inv (w_db (snd (serve reqs w))) /\ admins (w_db (snd (serve reqs w))) = admins (w_db w) /\
    db_users (w_db w) `prefix_of` db_users (w_db (snd (serve reqs w))).
  Proof.
    intros Hi. pose proof (serve_moves reqs w) as M.
    split; [by eapply inserts_inv|split; [by apply inserts_admins|by apply inserts_prefix]].
  Qed.
End Serve.

Lemma serve_preserves_inv_witness :
  store_inv (w_db Scenario.w0) /\
  store_inv (w_db (snd (@serve Reference.bcrypt Reference.jwt Scenario.requests Scenario.w0))).
Proof.
  assert (Hi : store_inv (w_db Scenario.w0)) by (split; [apply empty_db_wf|constructor]).
  split; [exact Hi|]. by eapply proj1, serve_preserves_inv.
Defined.
