(* ===== verification/RegisterRace.v ===== *)
(** * Concurrent registrations (src/server/controllers/auth.js, [register])

    Node runs a request until its next [await] and may then run another
    request.  [register] is cut at its awaits into four segments: the
    validation and the existence query, salting and hashing, the INSERT,
    and the token and response.  Each segment runs inside the handler's
    [try], so an exception in any of them goes to [errorHandler] and ends
    the request.  A configuration holds the table, the shared
    configuration and, per request, its progress and its own response
    object; a step advances any one request by one segment. *)

From stdpp Require Import relations.
From S2P Require Import Prelude Json Validators Crypto UserStore Express AuthController AuthMiddleware Server Invariant.

(** Where a registration stands between two awaits. *)
Inductive reg_state : Type :=
| RStart (req : request)
| RChecked (v : registration)
| RSalted (v : registration) (salt : string)
| RHashed (v : registration) (hashed : string)
| RInserted (user : public_user)
| RDone.

Section Segments.
  Context `{Bcrypt} `{Jwt}.

  (** Run a segment inside the handler's [try]: an exception ends the
      request through [next], that is [errorHandler]. *)
Definition guarded (c : Handler reg_state) : Handler reg_state :=
    try_catch c (fun e => let* _ := errorHandler e in ret RDone).

  (** Lines 8-20: validation, the existence query, the 400. *)
Definition seg_check (req : request) : Handler reg_state :=
    guarded
      (let* v := parse_or_throw (validateRegistration (req_body req)) in
       let* userExists := query (q_user_by_email_or_username (reg_email v) (reg_username v)) in
       if (0 <? List.length userExists)%nat
       then let* _ := res_json 400 (error_body "User already exists") in ret RDone
       else ret (RChecked v)).

  (** Line 23: [await bcrypt.genSalt(10)]. *)
Definition seg_salt (v : registration) : Handler reg_state :=
    guarded (let* salt := genSalt 10 in ret (RSalted v salt)).

  (** Line 24: [await bcrypt.hash(password, salt)]. *)
Definition seg_hash (v : registration) (salt : string) : Handler reg_state :=
    guarded (ret (RHashed v (bcrypt_hash (reg_password v) salt))).

  (** Lines 27-30: the INSERT. *)
Definition seg_insert (v : registration) (hashed : string) : Handler reg_state :=
    guarded (let* user := query_insert (reg_username v) (reg_email v) hashed "user" in ret (RInserted user)).

  (** Lines 32-47: [jwt.sign] and the 201. *)
Definition seg_respond (user : public_user) : Handler reg_state :=
    guarded
      (let* token := sign_token (claims_of user) in
       let* _ := res_json 201 (user_json user token) in ret RDone).

Definition advance (st : reg_state) : Handler reg_state :=
    match st with
    | RStart req => seg_check req
    | RChecked v => seg_salt v
    | RSalted v salt => seg_hash v salt
    | RHashed v h => seg_insert v h
    | RInserted u => seg_respond u
    | RDone => ret RDone
    end.

#[global] Arguments seg_check : simpl never.
#[global] Arguments seg_salt : simpl never.
#[global] Arguments seg_hash : simpl never.
#[global] Arguments seg_insert : simpl never.
#[global] Arguments seg_respond : simpl never.

End Segments.

Ltac unfold_segments := unfold advance, seg_check, seg_salt, seg_hash, seg_insert, seg_respond, guarded.
Ltac run_segment := unfold_segments;
  unfold try_catch, bind, ret, parse_or_throw, lift, query, query_insert, genSalt, sign_token.

(** How many segments a request has left. *)
Definition rank (st : reg_state) : nat :=
  match st with
  | RStart _ => 5 | RChecked _ => 4 | RSalted _ _ => 3 | RHashed _ _ => 2 | RInserted _ => 1 | RDone => 0
  end.


(** ** Interleaving *)

(** The server's state between two segments: the table, the shared
    configuration, bcrypt's randomness, and every pending request with
    its own response object. *)
Record config : Type := mk_cfg {
  c_db : db; c_secret : option string; c_now : Z; c_seed : nat;
  c_reqs : list (reg_state * response) }.

Definition world_of (c : config) (r : response) : world :=
  mk_world (c_db c) r (c_secret c) (c_now c) (c_seed c).

Definition active (st : reg_state) : bool := match st with RDone => false | _ => true end.

Section Interleaving.
  Context `{Bcrypt} `{Jwt}.

  (** Run one segment of request [i].  An exception escaping [next]
      (the error handler itself throwing) also ends the request. *)
Definition step_req (i : nat) (c : config) : option config :=
    match c_reqs c !! i with
    | Some (st, r) =>
        if active st then
          let '(o, w') := advance st (world_of c r) in
          let st' := match o with inl _ => RDone | inr s => s end in
          Some (mk_cfg (w_db w') (c_secret c) (c_now c) (w_seed w') (<[i := (st', w_res w')]> (c_reqs c)))
        else None
    | None => None
    end.

Inductive cstep : config -> config -> Prop :=
| cstep_intro i c c' : step_req i c = Some c' -> cstep c c'.

  (** A schedule: which request runs its next segment, in order. *)
Fixpoint run_schedule (sched : list nat) (c : config) : option config :=
    match sched with
    | [] => Some c
    | i :: rest => c' ← step_req i c; run_schedule rest c'
    end.
End Interleaving.

(** Requests that start together on a fresh response each. *)
Definition concurrent (d : db) (secret : option string) (now : Z) (seed : nat) (reqs : list request) : config :=
  mk_cfg d secret now seed ((fun r => (RStart r, fresh_response)) <$> reqs).

Definition total_rank (c : config) : nat := sum_list ((fun p => rank p.1) <$> c_reqs c).

(** ** Every interleaving ends, and keeps the table's invariant *)

Lemma sum_list_insert {A} (f : A -> nat) (l : list A) i x y :
  l !! i = Some x -> sum_list (f <$> <[i := y]> l) + f x = sum_list (f <$> l) + f y.
Proof.
  revert i. induction l as [|a l IH]; intros [|i] Hi; simplify_eq/=; [lia|].
  specialize (IH i Hi). lia.
Qed.

Section Progress.
  Context `{Bcrypt} `{Jwt}.

Lemma advance_rank st w s w' : active st = true -> advance st w = (inr s, w') -> rank s < rank st.
  Proof.
    intros Ha. destruct st; simpl in Ha; try discriminate; run_segment;
      repeat (case_match; simplify_eq/=); intros; simplify_eq/=; lia.
  Qed.

Lemma step_req_rank i c c' : step_req i c = Some c' -> total_rank c' < total_rank c.
  Proof.
    unfold step_req, total_rank. destruct (c_reqs c !! i) as [[st r]|] eqn:E; [|done].
    destruct (active st) eqn:Ha; [|done].
    destruct (advance st (world_of c r)) as [o w'] eqn:Ea. intros [= <-]. simpl.
    pose proof (sum_list_insert (fun p : reg_state * response => rank p.1) _ _ _
                  (match o with inl _ => RDone | inr s => s end, w_res w') E) as Hs.
    simpl in Hs. destruct o as [e|s]; [destruct st; simpl in *; lia|].
    pose proof (advance_rank st _ s w' Ha Ea). lia.
  Qed.

(** A segment run on an unsent response either leaves the request pending
    with nothing sent or ends it with its answer sent; it never lets an
    exception escape, since the error handler answers on that response. *)
Lemma advance_answers st w o w' :
    active st = true -> headersSent (w_res w) = false -> advance st w = (o, w') ->
    exists s, o = inr s /\ active s = negb (headersSent (w_res w')).
  Proof.
    intros Ha Hs. destruct st; simpl in Ha; try discriminate; run_segment; unfold errorHandler, res_json;
      repeat (case_match; simplify_eq/=); intros; simplify_eq/=; eauto; try congruence;
      (eexists; split; [reflexivity|]; simpl; subst; simpl in *; by rewrite ?Hs).
  Qed.

(** A hash waiting for its INSERT is a bcrypt hash, hence not empty. *)
Definition reg_ok (st : reg_state) : Prop := match st with RHashed _ h => h <> "" | _ => True end.

Lemma advance_ok st w s w' : advance st w = (inr s, w') -> reg_ok s.
  Proof.
    destruct st; run_segment; repeat (case_match; simplify_eq/=); intros; simplify_eq/=;
      auto using bcrypt_hash_nonempty.
  Qed.

Lemma keeps_advance st : reg_ok st -> keeps (advance st).
  Proof. destruct st; simpl; intros Hok; unfold_segments; keeps_tac. by apply keeps_insert. Qed.
End Progress.

(** ** Each segment on its own *)

Section Runs.
  Context `{Bcrypt} `{Jwt}.

Lemma seg_check_fresh req w v :
    validateRegistration (req_body req) = inr v -> db_up (w_db w) = true ->
    fresh_identity (reg_email v) (reg_username v) (w_db w) -> seg_check req w = (inr (RChecked v), w).
  Proof. intros Hv Hup Hf. run_segment. rewrite Hv. simpl. by rewrite q_exists_fresh. Qed.

Lemma seg_salt_run v w : seg_salt v w = (inr (RSalted v (bcrypt_genSalt 10 (w_seed w))), bump_seed w).
  Proof. reflexivity. Qed.

Lemma seg_hash_run v salt w : seg_hash v salt w = (inr (RHashed v (bcrypt_hash (reg_password v) salt)), w).
  Proof. reflexivity. Qed.

Lemma seg_insert_fresh v h w :
    db_up (w_db w) = true -> fresh_identity (reg_email v) (reg_username v) (w_db w) ->
    let row := new_row (reg_username v) (reg_email v) h "user" (w_db w) in
    seg_insert v h w = (inr (RInserted (to_public row)), set_db (db_after_insert row (w_db w)) w).
  Proof. intros Hup Hf row. run_segment. by rewrite q_insert_fresh. Qed.

Lemma seg_insert_taken v h w r :
    db_up (w_db w) = true -> r ∈ db_users (w_db w) -> u_email r = reg_email v ->
    headersSent (w_res w) = false ->
    seg_insert v h w =
      (inr RDone, set_res (mk_res 500 (Some (error_body "Something went wrong")) true) (set_db (db_skip_id (w_db w)) w)).
  Proof.
    intros Hup Hr He Hs. run_segment. rewrite (q_insert_email_taken _ _ _ _ _ r Hup Hr He). simpl.
    by rewrite res_json_fresh.
  Qed.

Lemma seg_respond_run u w k :
    w_secret w = Some k -> k <> "" -> headersSent (w_res w) = false ->
    let token := jwt_sign (claims_of u) k (w_now w) (w_now w + thirty_days) in
    seg_respond u w = (inr RDone, set_res (mk_res 201 (Some (user_json u token)) true) w).
  Proof.
    intros Hs Hk Hsent token. run_segment. rewrite Hs, sign_js_set by done. simpl.
    by rewrite res_json_fresh.
  Qed.
End Runs.

Definition pending_ok (c : config) : Prop := Forall (fun p => reg_ok p.1) (c_reqs c).

(** A request is pending exactly while its response is unsent. *)
Definition answered_ok (c : config) : Prop := Forall (fun p => active p.1 = negb (headersSent p.2)) (c_reqs c).

Section Reachable.
  Context `{Bcrypt} `{Jwt}.

Lemma step_req_moves i c c' :
    step_req i c = Some c' -> pending_ok c -> rtc user_insert (c_db c) (c_db c') /\ pending_ok c'.
  Proof.
    unfold step_req, pending_ok. destruct (c_reqs c !! i) as [[st r]|] eqn:E; [|done].
    destruct (active st); [|done]. intros Hs Hok.
    pose proof (Forall_lookup_1 _ _ _ _ Hok E) as Hst. simpl in Hst.
    pose proof (keeps_advance st Hst (world_of c r)) as Hk.
    destruct (advance st (world_of c r)) as [o w'] eqn:Ea. injection Hs as <-. simpl in *.
    split; [exact Hk|]. apply Forall_insert; [done|]. simpl.
    destruct o; [done|]. by eapply advance_ok.
  Qed.

Lemma reachable_moves c c' :
    rtc cstep c c' -> pending_ok c -> rtc user_insert (c_db c) (c_db c') /\ pending_ok c'.
  Proof.
    induction 1 as [|c1 c2 c3 [i ? ? Hs] _ IH]; intros Hok; [done|].
    destruct (step_req_moves _ _ _ Hs Hok) as [H12 Hok2].
    destruct (IH Hok2) as [H23 Hok3]. split; [by etrans|done].
  Qed.

Lemma concurrent_ok d secret now seed reqs : pending_ok (concurrent d secret now seed reqs).
  Proof. unfold pending_ok, concurrent. simpl. apply Forall_fmap, Forall_true. done. Qed.

Lemma step_req_run i c st r st' w' :
    c_reqs c !! i = Some (st, r) -> active st = true -> advance st (world_of c r) = (inr st', w') ->
    step_req i c = Some (mk_cfg (w_db w') (c_secret c) (c_now c) (w_seed w') (<[i := (st', w_res w')]> (c_reqs c))).
  Proof. intros Hi Ha Hs. unfold step_req. by rewrite Hi, Ha, Hs. Qed.

Lemma run_schedule_cons i sched c : run_schedule (i :: sched) c = step_req i c ≫= run_schedule sched.
  Proof. reflexivity. Qed.

Lemma run_schedule_rtc sched c c' : run_schedule sched c = Some c' -> rtc cstep c c'.
  Proof.
    revert c. induction sched as [|i sched IH]; intros c; simpl; [by intros [= ->]|].
    destruct (step_req i c) as [c1|] eqn:E; simpl; [|done].
    intros Hr. eapply rtc_l; [by econstructor|]. by apply IH.
  Qed.

Lemma step_req_answered i c c' :
    step_req i c = Some c' -> answered_ok c -> answered_ok c' /\ List.length (c_reqs c') = List.length (c_reqs c).
  Proof.
    unfold step_req, answered_ok. destruct (c_reqs c !! i) as [[st r]|] eqn:E; [|done].
    destruct (active st) eqn:Ha; [|done]. intros Hs Hok.
    pose proof (Forall_lookup_1 _ _ _ _ Hok E) as Hst. simpl in Hst. rewrite Ha in Hst.
    destruct (advance st (world_of c r)) as [o w'] eqn:Ea. injection Hs as <-. simpl.
    destruct (advance_answers st (world_of c r) o w' Ha ltac:(simpl; by destruct (headersSent r)) Ea)
      as (s & -> & Hs).
    split; [by apply Forall_insert|apply length_insert].
  Qed.

Lemma reachable_answered c c' :
    rtc cstep c c' -> answered_ok c -> answered_ok c' /\ List.length (c_reqs c') = List.length (c_reqs c).
  Proof.
    induction 1 as [|c1 c2 c3 [i ? ? Hs] _ IH]; intros Hok; [done|].
    destruct (step_req_answered _ _ _ Hs Hok) as [Hok2 L2]. destruct (IH Hok2) as [Hok3 L3]. split; [done|lia].
  Qed.

Lemma cstep_inv c c' : cstep c c' -> exists i, step_req i c = Some c'.
  Proof. intros [i ? ? Hs]. eauto. Qed.

(** A configuration no step leaves has no pending request. *)
Lemma stuck_done c : (forall c', ~ cstep c c') -> Forall (fun p => active p.1 = false) (c_reqs c).
  Proof.
    intros Hc. apply Forall_lookup_2. intros i [st r] Hi. simpl.
    destruct (active st) eqn:Ha; [exfalso|done].
    destruct (advance st (world_of c r)) as [o w'] eqn:Ea.
    apply (Hc (mk_cfg (w_db w') (c_secret c) (c_now c) (w_seed w')
                 (<[i := (match o with inl _ => RDone | inr s => s end, w_res w')]> (c_reqs c)))).
    econstructor. unfold step_req. by rewrite Hi, Ha, Ea.
  Qed.
End Reachable.

(** ** Properties of the interleaving semantics *)

Definition finished (c : config) : bool := forallb (fun p => negb (active p.1)) (c_reqs c).

Definition register_req (body : json) : request := mk_req "POST" "/api/auth/register" None body.

(** Two registrations: both existence queries run before either INSERT. *)
Definition interleaved : list nat := [0; 1; 0; 1; 0; 1; 0; 1; 0].
(** The first registration completes before the second starts. *)
Definition one_after_other : list nat := [0; 0; 0; 0; 0; 1].

(** Run the next scheduled segment, [tac] proving what the segment does. *)
Ltac race_step tac :=
  rewrite run_schedule_cons; erewrite step_req_run;
  [cbn [mbind option_bind c_db c_secret c_now c_seed c_reqs w_db w_seed w_res world_of set_db set_res bump_seed]
  | reflexivity | reflexivity | simpl; tac].

Section Claims.
  Context `{Bcrypt} `{Jwt}.

  (** C33: However the event loop interleaves the segments of any number
      of registrations started together, it runs out of segments (there
      is no infinite interleaving), and when no segment is left every
      request has been answered on its own response: none is left
      hanging, also when a segment throws. *)
Theorem interleavings_answer d secret now seed reqs :
  well_founded (fun c' c => cstep c c') /\
  forall c, rtc cstep (concurrent d secret now seed reqs) c -> (forall c', ~ cstep c c') ->
    List.length (c_reqs c) = List.length reqs /\
    Forall (fun p => p.1 = RDone /\ headersSent p.2 = true) (c_reqs c).
  Proof.
    split; [apply (well_founded_lt_compat _ total_rank); intros c' c [i ? ? Hs]; by eapply step_req_rank|].
    intros c Hr Hstuck.
    assert (Hi : answered_ok (concurrent d secret now seed reqs))
      by (unfold answered_ok, concurrent; simpl; apply Forall_fmap, Forall_true; done).
    destruct (reachable_answered _ _ Hr Hi) as [Hok Hl]. simpl in Hl. rewrite length_fmap in Hl.
    split; [done|]. pose proof (stuck_done c Hstuck) as Hd.
    apply Forall_forall. intros [st r] Hx.
    pose proof (proj1 (Forall_forall _ _) Hok _ Hx) as H1. pose proof (proj1 (Forall_forall _ _) Hd _ Hx) as H2.
    simpl in *. rewrite H2 in H1. destruct st; try discriminate. by destruct (headersSent r).
  Qed.

  (** C10: Under every interleaving of concurrent registrations started
      on a table that satisfies the invariant, the table still satisfies
      it (unique emails and usernames, fresh ids, non-empty hashes, roles
      user or admin) and its administrators are unchanged. *)
Theorem interleavings_keep_table d secret now seed reqs c :
    rtc cstep (concurrent d secret now seed reqs) c -> store_inv d ->
    store_inv (c_db c) /\ admins (c_db c) = admins d.
  Proof.
    intros Hr Hinv. destruct (reachable_moves _ _ Hr (concurrent_ok _ _ _ _ _)) as [Hm _].
    split; [by eapply inserts_inv|by apply inserts_admins].
  Qed.

  (** C9: The check-then-insert race.  Two valid registrations with the
      same email and different usernames, both new to a working table,
      interleaved so that both existence queries run before either INSERT:
      the first gets its 201 and its row; the second's INSERT hits the
      unique index on [email], and [errorHandler] answers it 500
      "Something went wrong", where the specification asks for the
      [ConflictError] (400 "user already exists").  One row is created,
      and the rejected INSERT has used up the next id. *)
Theorem register_race_500 d k now seed b1 b2 v1 v2 :
    validateRegistration b1 = inr v1 -> validateRegistration b2 = inr v2 ->
    reg_email v2 = reg_email v1 ->
    fresh_identity (reg_email v1) (reg_username v1) d -> fresh_identity (reg_email v2) (reg_username v2) d ->
    db_up d = true -> k <> "" ->
    let row := new_row (reg_username v1) (reg_email v1)
                 (bcrypt_hash (reg_password v1) (bcrypt_genSalt 10 seed)) "user" d in
    let token := jwt_sign (claims_of (to_public row)) k now (now + thirty_days) in
    exists c, run_schedule interleaved (concurrent d (Some k) now seed [register_req b1; register_req b2]) = Some c /\
      finished c = true /\ c_db c = db_skip_id (db_after_insert row d) /\
      (snd <$> c_reqs c) = [mk_res 201 (Some (user_json (to_public row) token)) true;
                          mk_res 500 (Some (error_body "Something went wrong")) true].
  Proof.
    intros Hv1 Hv2 He Hf1 Hf2 Hup Hk row token. eexists. unfold interleaved.
    race_step ltac:(by apply seg_check_fresh).
    race_step ltac:(by apply seg_check_fresh).
    race_step ltac:(apply seg_salt_run).
    race_step ltac:(apply seg_salt_run).
    race_step ltac:(apply seg_hash_run).
    race_step ltac:(apply seg_hash_run).
    race_step ltac:(by apply seg_insert_fresh).
    race_step ltac:(eapply seg_insert_taken;
                    [done | apply elem_of_app; right; by apply list_elem_of_singleton | done | done]).
    race_step ltac:(by eapply seg_respond_run).
    done.
  Qed.
End Claims.

(** ** Two registrations of one email *)

Module Race.
  #[local] Existing Instances Reference.bcrypt Reference.jwt.

Definition reg_body (username : string) : json :=
    JObj [("username", JStr username); ("email", JStr "a@x.com"); ("password", JStr "password123")].

Definition race_start : config :=
    concurrent empty_db (Some "s3cret") 1000 0 [register_req (reg_body "alice"); register_req (reg_body "alice2")].

Definition after (sched : list nat) : config := default race_start (run_schedule sched race_start).

Lemma interleavings_keep_table_witness :
    rtc cstep race_start (after interleaved) /\ store_inv empty_db /\
    store_inv (c_db (after interleaved)) /\ admins (c_db (after interleaved)) = admins empty_db.
  Proof.
    assert (Hr : rtc cstep race_start (after interleaved)) by (apply (run_schedule_rtc interleaved); vm_compute; reflexivity).
    assert (Hi : store_inv empty_db) by (split; [apply empty_db_wf|constructor]).
    split; [exact Hr|]. split; [exact Hi|]. by eapply interleavings_keep_table.
  Defined.

Lemma register_race_500_witness :
    let row := new_row "alice" "a@x.com" (bcrypt_hash "password123" (bcrypt_genSalt 10 0)) "user" empty_db in
    exists c, run_schedule interleaved race_start = Some c /\ finished c = true /\
      c_db c = db_skip_id (db_after_insert row empty_db) /\
      (snd <$> c_reqs c) = [mk_res 201 (Some (user_json (to_public row)
                                (jwt_sign (claims_of (to_public row)) "s3cret" 1000 (1000 + thirty_days)))) true;
                            mk_res 500 (Some (error_body "Something went wrong")) true].
  Proof.
    apply (register_race_500 empty_db "s3cret" 1000 0 (reg_body "alice") (reg_body "alice2")
             (mk_registration "alice" "a@x.com" "password123") (mk_registration "alice2" "a@x.com" "password123"));
      try vm_compute; try reflexivity; try constructor; discriminate.
  Defined.
Lemma interleavings_answer_witness :
    rtc cstep race_start (after interleaved) /\ (forall c', ~ cstep (after interleaved) c') /\
    Forall (fun p => p.1 = RDone /\ headersSent p.2 = true) (c_reqs (after interleaved)).
  Proof.
    assert (Hr : rtc cstep race_start (after interleaved)) by (apply (run_schedule_rtc interleaved); vm_compute; reflexivity).
    assert (Hs : forall c', ~ cstep (after interleaved) c').
    { intros c' [i Hs]%cstep_inv. destruct i as [|[|i]]; vm_compute in Hs; discriminate. }
    split; [exact Hr|]. split; [exact Hs|].
    exact (proj2 (proj2 (interleavings_answer empty_db (Some "s3cret") 1000 0
                           [register_req (reg_body "alice"); register_req (reg_body "alice2")]) _ Hr Hs)).
  Defined.
End Race.
