(* ===== verification/ProblemsData.v ===== *)
(** * The problem set (src/src/utils/problemsData.ts)

    The [Problem] interface as a record and the eight problems of the
    fixture, field for field: titles, difficulty, tags, description,
    examples, constraints, the accepted and submitted counts, and the
    Python, JavaScript and C++ starting code.  Template literals are
    written with their escapes resolved; a double quote inside a text is
    spliced in with [dquote]. *)

From S2P Require Import Prelude.

(** ['easy' | 'medium' | 'hard'] *)
Inductive difficulty : Type := Easy | Medium | Hard.

#[global] Instance difficulty_eq_dec : EqDecision difficulty.
Proof. solve_decision. Defined.

(** An element of [examples]; [explanation] is optional. *)
Record example : Type := mk_example { ex_input : string; ex_output : string; ex_explanation : option string }.

Record templates : Type := mk_templates { python : string; javascript : string; cpp : string }.

(** Lines 1-20: [interface Problem] *)
Record problem : Type := {
  p_id : string;
  p_title : string;
  p_difficulty : difficulty;
  p_tags : list string;
  p_description : string;
  p_examples : list example;
  p_constraints : list string;
  p_acceptedCount : Z;
  p_submissionCount : Z;
  p_solutionTemplate : templates }.

(** Lines 23-71 *)
Definition problem_1 : problem := {|
  p_id := "1";
  p_title := "Two Sum";
  p_difficulty := Easy;
  p_tags := ["Arrays"; "Hash Table"];
  p_description := "Given an array of integers `nums` and an integer `target`, return indices of the two numbers such that they add up to `target`.

You may assume that each input would have exactly one solution, and you may not use the same element twice.

You can return the answer in any order.";
  p_examples := [
    mk_example "nums = [2,7,11,15], target = 9" "[0,1]" (Some "Because nums[0] + nums[1] == 9, we return [0, 1].");
    mk_example "nums = [3,2,4], target = 6" "[1,2]" None];
  p_constraints := [
    "2 <= nums.length <= 10^4";
    "-10^9 <= nums[i] <= 10^9";
    "-10^9 <= target <= 10^9";
    "Only one valid answer exists."];
  p_acceptedCount := 1425;
  p_submissionCount := 2314;
  p_solutionTemplate := mk_templates
    "def twoSum(nums, target):
    # Your code here
    pass"
    "/**
 * @param {number[]} nums
 * @param {number} target
 * @return {number[]}
 */
function twoSum(nums, target) {
    // Your code here
}"
    "class Solution {
public:
    vector<int> twoSum(vector<int>& nums, int target) {
        // Your code here
    }
};" |}.

(** Lines 72-114 *)
Definition problem_2 : problem := {|
  p_id := "2";
  p_title := "Palindrome Checker";
  p_difficulty := Easy;
  p_tags := ["Strings"; "Two Pointers"];
  p_description := "Given a string `s`, determine if it is a palindrome, considering only alphanumeric characters and ignoring cases.";
  p_examples := [
    mk_example ("s = " ++ dquote ++ "A man, a plan, a canal: Panama" ++ dquote) "true" (Some (dquote ++ "amanaplanacanalpanama" ++ dquote ++ " is a palindrome."));
    mk_example ("s = " ++ dquote ++ "race a car" ++ dquote) "false" (Some (dquote ++ "raceacar" ++ dquote ++ " is not a palindrome."))];
  p_constraints := [
    "1 <= s.length <= 2 * 10^5";
    "s consists only of printable ASCII characters."];
  p_acceptedCount := 987;
  p_submissionCount := 1342;
  p_solutionTemplate := mk_templates
    "def isPalindrome(s):
    # Your code here
    pass"
    "/**
 * @param {string} s
 * @return {boolean}
 */
function isPalindrome(s) {
    // Your code here
}"
    "class Solution {
public:
    bool isPalindrome(string s) {
        // Your code here
    }
};" |}.

(** Lines 115-162 *)
Definition problem_3 : problem := {|
  p_id := "3";
  p_title := "Maximum Subarray";
  p_difficulty := Medium;
  p_tags := ["Arrays"; "Dynamic Programming"; "Divide and Conquer"];
  p_description := "Given an integer array `nums`, find the contiguous subarray (containing at least one number) which has the largest sum and return its sum.

A subarray is a contiguous part of an array.";
  p_examples := [
    mk_example "nums = [-2,1,-3,4,-1,2,1,-5,4]" "6" (Some "The subarray [4,-1,2,1] has the largest sum 6.");
    mk_example "nums = [1]" "1" None;
    mk_example "nums = [5,4,-1,7,8]" "23" None];
  p_constraints := [
    "1 <= nums.length <= 10^5";
    "-10^4 <= nums[i] <= 10^4"];
  p_acceptedCount := 875;
  p_submissionCount := 1564;
  p_solutionTemplate := mk_templates
    "def maxSubArray(nums):
    # Your code here
    pass"
    "/**
 * @param {number[]} nums
 * @return {number}
 */
function maxSubArray(nums) {
    // Your code here
}"
    "class Solution {
public:
    int maxSubArray(vector<int>& nums) {
        // Your code here
    }
};" |}.

(** Lines 163-226 *)
Definition problem_4 : problem := {|
  p_id := "4";
  p_title := "Merge Sorted Lists";
  p_difficulty := Easy;
  p_tags := ["Linked List"; "Recursion"];
  p_description := "Merge two sorted linked lists and return it as a sorted list. The list should be made by splicing together the nodes of the first two lists.";
  p_examples := [
    mk_example "list1 = [1,2,4], list2 = [1,3,4]" "[1,1,2,3,4,4]" None;
    mk_example "list1 = [], list2 = []" "[]" None;
    mk_example "list1 = [], list2 = [0]" "[0]" None];
  p_constraints := [
    "The number of nodes in both lists is in the range [0, 50].";
    "-100 <= Node.val <= 100";
    "Both list1 and list2 are sorted in non-decreasing order."];
  p_acceptedCount := 1120;
  p_submissionCount := 1530;
  p_solutionTemplate := mk_templates
    "def mergeTwoLists(list1, list2):
    # Your code here
    pass"
    "/**
 * Definition for singly-linked list.
 * function ListNode(val, next) {
 *     this.val = (val===undefined ? 0 : val)
 *     this.next = (next===undefined ? null : next)
 * }
 */
/**
 * @param {ListNode} list1
 * @param {ListNode} list2
 * @return {ListNode}
 */
function mergeTwoLists(list1, list2) {
    // Your code here
}"
    "/**
 * Definition for singly-linked list.
 * struct ListNode {
 *     int val;
 *     ListNode *next;
 *     ListNode() : val(0), next(nullptr) {}
 *     ListNode(int x) : val(x), next(nullptr) {}
 *     ListNode(int x, ListNode *next) : val(x), next(next) {}
 * };
 */
class Solution {
public:
    ListNode* mergeTwoLists(ListNode* list1, ListNode* list2) {
        // Your code here
    }
};" |}.

(** Lines 227-275 *)
Definition problem_5 : problem := {|
  p_id := "5";
  p_title := "Valid Parentheses";
  p_difficulty := Easy;
  p_tags := ["Stack"; "String"];
  p_description := "Given a string `s` containing just the characters '(', ')', '{', '}', '[' and ']', determine if the input string is valid.

An input string is valid if:
1. Open brackets must be closed by the same type of brackets.
2. Open brackets must be closed in the correct order.";
  p_examples := [
    mk_example ("s = " ++ dquote ++ "()" ++ dquote) "true" None;
    mk_example ("s = " ++ dquote ++ "()[]{}" ++ dquote) "true" None;
    mk_example ("s = " ++ dquote ++ "(]" ++ dquote) "false" None];
  p_constraints := [
    "1 <= s.length <= 10^4";
    "s consists of parentheses only '()[]{}'"];
  p_acceptedCount := 1321;
  p_submissionCount := 2145;
  p_solutionTemplate := mk_templates
    "def isValid(s):
    # Your code here
    pass"
    "/**
 * @param {string} s
 * @return {boolean}
 */
function isValid(s) {
    // Your code here
}"
    "class Solution {
public:
    bool isValid(string s) {
        // Your code here
    }
};" |}.

(** Lines 276-325 *)
Definition problem_6 : problem := {|
  p_id := "6";
  p_title := "Median of Two Sorted Arrays";
  p_difficulty := Hard;
  p_tags := ["Array"; "Binary Search"; "Divide and Conquer"];
  p_description := "Given two sorted arrays `nums1` and `nums2` of size `m` and `n` respectively, return the median of the two sorted arrays.

The overall run time complexity should be O(log (m+n)).";
  p_examples := [
    mk_example "nums1 = [1,3], nums2 = [2]" "2.00000" (Some "merged array = [1,2,3] and median is 2.");
    mk_example "nums1 = [1,2], nums2 = [3,4]" "2.50000" (Some "merged array = [1,2,3,4] and median is (2 + 3) / 2 = 2.5.")];
  p_constraints := [
    "nums1.length == m";
    "nums2.length == n";
    "0 <= m <= 1000";
    "0 <= n <= 1000";
    "1 <= m + n <= 2000";
    "-10^6 <= nums1[i], nums2[i] <= 10^6"];
  p_acceptedCount := 540;
  p_submissionCount := 1290;
  p_solutionTemplate := mk_templates
    "def findMedianSortedArrays(nums1, nums2):
    # Your code here
    pass"
    "/**
 * @param {number[]} nums1
 * @param {number[]} nums2
 * @return {number}
 */
function findMedianSortedArrays(nums1, nums2) {
    // Your code here
}"
    "class Solution {
public:
    double findMedianSortedArrays(vector<int>& nums1, vector<int>& nums2) {
        // Your code here
    }
};" |}.

(** Lines 326-387 *)
Definition problem_7 : problem := {|
  p_id := "7";
  p_title := "Reverse Linked List";
  p_difficulty := Easy;
  p_tags := ["Linked List"; "Recursion"];
  p_description := "Given the head of a singly linked list, reverse the list, and return the reversed list.";
  p_examples := [
    mk_example "head = [1,2,3,4,5]" "[5,4,3,2,1]" None;
    mk_example "head = [1,2]" "[2,1]" None;
    mk_example "head = []" "[]" None];
  p_constraints := [
    "The number of nodes in the list is the range [0, 5000].";
    "-5000 <= Node.val <= 5000"];
  p_acceptedCount := 1050;
  p_submissionCount := 1380;
  p_solutionTemplate := mk_templates
    "def reverseList(head):
    # Your code here
    pass"
    "/**
 * Definition for singly-linked list.
 * function ListNode(val, next) {
 *     this.val = (val===undefined ? 0 : val)
 *     this.next = (next===undefined ? null : next)
 * }
 */
/**
 * @param {ListNode} head
 * @return {ListNode}
 */
function reverseList(head) {
    // Your code here
}"
    "/**
 * Definition for singly-linked list.
 * struct ListNode {
 *     int val;
 *     ListNode *next;
 *     ListNode() : val(0), next(nullptr) {}
 *     ListNode(int x) : val(x), next(nullptr) {}
 *     ListNode(int x, ListNode *next) : val(x), next(next) {}
 * };
 */
class Solution {
public:
    ListNode* reverseList(ListNode* head) {
        // Your code here
    }
};" |}.

(** Lines 388-435 *)
Definition problem_8 : problem := {|
  p_id := "8";
  p_title := "Longest Substring Without Repeating Characters";
  p_difficulty := Medium;
  p_tags := ["Hash Table"; "String"; "Sliding Window"];
  p_description := "Given a string `s`, find the length of the longest substring without repeating characters.";
  p_examples := [
    mk_example ("s = " ++ dquote ++ "abcabcbb" ++ dquote) "3" (Some ("The answer is " ++ dquote ++ "abc" ++ dquote ++ ", with the length of 3."));
    mk_example ("s = " ++ dquote ++ "bbbbb" ++ dquote) "1" (Some ("The answer is " ++ dquote ++ "b" ++ dquote ++ ", with the length of 1."));
    mk_example ("s = " ++ dquote ++ "pwwkew" ++ dquote) "3" (Some ("The answer is " ++ dquote ++ "wke" ++ dquote ++ ", with the length of 3. Notice that the answer must be a substring, " ++ dquote ++ "pwke" ++ dquote ++ " is a subsequence and not a substring."))];
  p_constraints := [
    "0 <= s.length <= 5 * 10^4";
    "s consists of English letters, digits, symbols and spaces."];
  p_acceptedCount := 890;
  p_submissionCount := 1560;
  p_solutionTemplate := mk_templates
    "def lengthOfLongestSubstring(s):
    # Your code here
    pass"
    "/**
 * @param {string} s
 * @return {number}
 */
function lengthOfLongestSubstring(s) {
    // Your code here
}"
    "class Solution {
public:
    int lengthOfLongestSubstring(string s) {
        // Your code here
    }
};" |}.

(** Line 22: [export const problems] *)
Definition problems : list problem :=
  [problem_1; problem_2; problem_3; problem_4; problem_5; problem_6; problem_7; problem_8].
