(* ===== verification/JsSort.v ===== *)
(** * [Array.prototype.sort] with a comparator

    The client sorts with [array.sort((a, b) => ...)].  The engine's
    algorithm is not fixed by ECMAScript, but since ES2019 the sort must
    be stable, and for a consistent comparator (a total preorder on the
    elements) its result must be sorted.  Only the sign of the
    comparator's number is used, so a comparator is a function into
    [comparison].  [sort_by] is a stable insertion sort; [sort_by_unique]
    shows that every stable sorted permutation is [sort_by]'s result, so
    whatever stable algorithm the engine runs, the page shows [sort_by]'s
    order. *)

From S2P Require Import Prelude.
From stdpp Require Import sorting.

Section Sort.
  Context {A : Type} (cmp : A -> A -> comparison).

  (** Insert [x] before the first element it is not greater than. *)
Fixpoint insert_by (x : A) (l : list A) : list A :=
    match l with
    | [] => [x]
    | y :: ys => match cmp x y with Gt => y :: insert_by x ys | _ => x :: l end
    end.

Fixpoint sort_by (l : list A) : list A :=
    match l with [] => [] | x :: l => insert_by x (sort_by l) end.

Definition cmp_le (x y : A) : Prop := cmp x y <> Gt.

  (** [x] and [y] are tied. *)
Definition cmp_tie (x y : A) : bool := match cmp x y with Eq => true | _ => false end.

Lemma insert_by_perm x l : insert_by x l ≡ₚ x :: l.
  Proof.
    induction l as [|y l IH]; simpl; [done|].
    destruct (cmp x y); [done|done|]. rewrite IH. constructor.
  Qed.

Lemma sort_by_perm l : sort_by l ≡ₚ l.
  Proof. induction l as [|x l IH]; simpl; [done|]. rewrite insert_by_perm. by constructor. Qed.

  (** The comparator is a total preorder on the elements satisfying [P]
      (for the page: those whose numbers are not NaN). *)
  Context (P : A -> Prop).
  Context (cmp_antisym : forall x y, P x -> P y -> cmp y x = CompOpp (cmp x y)).
  Context (cmp_trans : forall x y z, P x -> P y -> P z -> cmp_le x y -> cmp_le y z -> cmp_le x z).

Lemma cmp_refl x : P x -> cmp x x = Eq.
  Proof. intros Hx. pose proof (cmp_antisym x x Hx Hx) as H. by destruct (cmp x x). Qed.

Lemma cmp_gt_le x y : P x -> P y -> cmp x y = Gt -> cmp_le y x.
  Proof. intros Hx Hy H. unfold cmp_le. rewrite cmp_antisym, H by done. done. Qed.

Lemma cmp_tie_gt z x y : P z -> P x -> P y -> cmp z x = Eq -> cmp x y = Gt -> cmp z y = Gt.
  Proof.
    intros Hz Hx Hy Hzx Hxy. destruct (cmp z y) eqn:E; [| |done]; exfalso;
      (apply (cmp_trans x z y); [done|done|done|unfold cmp_le; by rewrite cmp_antisym, Hzx
                                 |unfold cmp_le; by rewrite E|exact Hxy]).
  Qed.

Lemma insert_by_sorted x l :
    P x -> Forall P l -> StronglySorted cmp_le l -> StronglySorted cmp_le (insert_by x l).
  Proof.
    intros Hx HP. induction 1 as [|y l Hl IH Hy]; simpl; [repeat constructor|].
    apply Forall_cons in HP as [Py HP].
    assert (Hxz : cmp_le x y -> Forall (cmp_le x) (y :: l)).
    { intros Hxy. constructor; [done|]. apply Forall_forall. intros z Hz.
      apply (cmp_trans x y z); [done|done|by eapply Forall_forall|done|by eapply Forall_forall]. }
    destruct (cmp x y) eqn:E.
    - constructor; [by constructor|]. apply Hxz. unfold cmp_le. by rewrite E.
    - constructor; [by constructor|]. apply Hxz. unfold cmp_le. by rewrite E.
    - constructor; [by apply IH|]. eapply Permutation_Forall; [symmetry; apply insert_by_perm|].
      constructor; [by apply cmp_gt_le|done].
  Qed.

Lemma sort_by_sorted l : Forall P l -> StronglySorted cmp_le (sort_by l).
  Proof.
    induction l as [|x l IH]; simpl; [constructor|]. intros [Hx Hl]%Forall_cons.
    apply insert_by_sorted; [done| |by apply IH].
    eapply Permutation_Forall; [symmetry; apply sort_by_perm|done].
  Qed.

Lemma filter_tie_insert z x l :
    P z -> P x -> Forall P l ->
    List.filter (cmp_tie z) (insert_by x l) = List.filter (cmp_tie z) (x :: l).
  Proof.
    intros Hz Hx. induction l as [|y l IH]; simpl; [done|]. intros [Hy Hl]%Forall_cons.
    destruct (cmp x y) eqn:E; [done|done|]. simpl. rewrite IH by done. simpl.
    unfold cmp_tie. destruct (cmp z x) eqn:Ezx; [by rewrite (cmp_tie_gt z x y)| |];
      by destruct (cmp z y).
  Qed.

  (** Stability: tied elements keep their order. *)
Lemma sort_by_stable z l :
    P z -> Forall P l -> List.filter (cmp_tie z) (sort_by l) = List.filter (cmp_tie z) l.
  Proof.
    intros Hz. induction l as [|x l IH]; simpl; [done|]. intros [Hx Hl]%Forall_cons.
    rewrite filter_tie_insert; [|done|done|].
    - simpl. by rewrite IH.
    - eapply Permutation_Forall; [symmetry; apply sort_by_perm|done].
  Qed.

Lemma sorted_head_le h t y : StronglySorted cmp_le (h :: t) -> P h -> y ∈ h :: t -> cmp_le h y.
  Proof.
    intros Hs Hh Hy. apply StronglySorted_inv in Hs as [_ Hf].
    apply elem_of_cons in Hy as [->|Hy]; [unfold cmp_le; by rewrite cmp_refl|].
    rewrite Forall_forall in Hf. by apply Hf.
  Qed.

  (** Stable sorted permutations of each other are equal. *)
Definition stable_as (r l : list A) : Prop :=
    forall z, P z -> List.filter (cmp_tie z) r = List.filter (cmp_tie z) l.

Lemma sorted_stable_unique r1 r2 :
    Forall P r1 -> r1 ≡ₚ r2 -> StronglySorted cmp_le r1 -> StronglySorted cmp_le r2 ->
    stable_as r1 r2 -> r1 = r2.
  Proof.
    revert r2. induction r1 as [|h1 t1 IH]; intros r2 HP Hp Hs1 Hs2 Hf.
    { by apply Permutation_nil in Hp. }
    destruct r2 as [|h2 t2]; [symmetry in Hp; by apply Permutation_nil_cons in Hp|].
    apply Forall_cons in HP as [Hh1 Ht1].
    assert (Hh2 : P h2).
    { assert (HP2 : Forall P (h2 :: t2)) by (eapply Permutation_Forall; [exact Hp|by constructor]).
      by apply Forall_cons in HP2 as []. }
    assert (Hle12 : cmp_le h1 h2) by (apply (sorted_head_le h1 t1); [done|done|rewrite Hp; left]).
    assert (Hle21 : cmp_le h2 h1) by (apply (sorted_head_le h2 t2); [done|done|rewrite <- Hp; left]).
    assert (Htie : cmp h1 h2 = Eq).
    { unfold cmp_le in *. rewrite cmp_antisym in Hle21 by done. by destruct (cmp h1 h2). }
    assert (h1 = h2) as <-.
    { specialize (Hf h1 Hh1). simpl in Hf. unfold cmp_tie in Hf.
      rewrite cmp_refl, Htie in Hf by done. by injection Hf. }
    f_equal. apply IH; [done|by apply Permutation_cons_inv in Hp
                       |by apply StronglySorted_inv in Hs1 as []|by apply StronglySorted_inv in Hs2 as []|].
    intros z Hz. specialize (Hf z Hz). simpl in Hf. destruct (cmp_tie z h1); [by injection Hf|done].
  Qed.

  (** [sort_by] is a stable sorted permutation, and the only one: any
      stable sort with this comparator gives its order. *)
Lemma sort_by_spec l :
    Forall P l ->
    sort_by l ≡ₚ l /\ StronglySorted cmp_le (sort_by l) /\ stable_as (sort_by l) l /\
    (forall r, r ≡ₚ l -> StronglySorted cmp_le r -> stable_as r l -> r = sort_by l).
  Proof.
    intros HP. split; [apply sort_by_perm|]. split; [by apply sort_by_sorted|].
    split; [intros z Hz; by apply sort_by_stable|].
    intros r Hp Hs Hf. apply sorted_stable_unique; [by rewrite Hp|by rewrite sort_by_perm|done|by apply sort_by_sorted|].
    intros z Hz. rewrite Hf, sort_by_stable; done.
  Qed.
End Sort.

(** A descending comparator, [-1 * cmp(a, b)], is a total preorder
    where [cmp] is. *)
Section Opp.
  Context {A : Type} (cmp : A -> A -> comparison) (P : A -> Prop).
  Context (cmp_antisym : forall x y, P x -> P y -> cmp y x = CompOpp (cmp x y)).
  Context (cmp_trans : forall x y z, P x -> P y -> P z -> cmp_le cmp x y -> cmp_le cmp y z -> cmp_le cmp x z).

Lemma opp_antisym x y : P x -> P y -> CompOpp (cmp y x) = CompOpp (CompOpp (cmp x y)).
  Proof. intros Hx Hy. by rewrite cmp_antisym. Qed.

Lemma opp_le x y : P x -> P y -> cmp_le (fun a b => CompOpp (cmp a b)) x y <-> cmp_le cmp y x.
  Proof.
    intros Hx Hy. unfold cmp_le. rewrite (cmp_antisym x y) by done.
    by destruct (cmp x y).
  Qed.

Lemma opp_trans x y z : P x -> P y -> P z ->
    cmp_le (fun a b => CompOpp (cmp a b)) x y -> cmp_le (fun a b => CompOpp (cmp a b)) y z ->
    cmp_le (fun a b => CompOpp (cmp a b)) x z.
  Proof.
    intros Hx Hy Hz. rewrite !opp_le by done. intros Hxy Hyz. by apply (cmp_trans z y x).
  Qed.
End Opp.

(** ** The default order of [sort()] on strings

    Without a comparator, [sort()] compares strings by UTF-16 code
    units; on ASCII text that is [String.compare], a total preorder. *)

Lemma string_compare_antisym x y : True -> True -> String.compare y x = CompOpp (String.compare x y).
Proof. intros _ _. apply String.compare_antisym. Qed.

Lemma string_compare_trans x y z : True -> True -> True ->
  cmp_le String.compare x y -> cmp_le String.compare y z -> cmp_le String.compare x z.
Proof.
  intros _ _ _. unfold cmp_le. revert y z. induction x as [|a x IH]; intros [|b y] [|c z]; simpl; try done.
  unfold Ascii.compare.
  destruct (N.compare_spec (N_of_ascii a) (N_of_ascii b)) as [Hab|Hab|Hab];
  destruct (N.compare_spec (N_of_ascii b) (N_of_ascii c)) as [Hbc|Hbc|Hbc];
  destruct (N.compare_spec (N_of_ascii a) (N_of_ascii c)) as [Hac|Hac|Hac];
  try lia; try done; eauto.
Qed.

(** ** Which element comes first

    [[x; y] `sublist_of` l]: [x] occurs in [l] before an occurrence of [y]. *)

Lemma filter_sublist_l {A} (f : A -> bool) l : List.filter f l `sublist_of` l.
Proof. induction l as [|x l IH]; simpl; [done|]. destruct (f x); by constructor. Qed.

Lemma sublist_filter_r {A} (f : A -> bool) l1 l2 :
  l1 `sublist_of` l2 -> Forall (fun z => f z = true) l1 -> l1 `sublist_of` List.filter f l2.
Proof.
  induction 1 as [|x l1 l2 _ IH|x l1 l2 _ IH]; intros Hf; simpl; [done| |].
  - apply Forall_cons in Hf as [-> Hf]. constructor. by apply IH.
  - destruct (f x); [constructor|]; by apply IH.
Qed.

Lemma sorted_pair {A} (R : A -> A -> Prop) l x y : StronglySorted R l -> [x; y] `sublist_of` l -> R x y.
Proof.
  intros Hs (k1 & k2 & -> & Hy)%sublist_cons_l.
  induction k1 as [|h k1 IH]; simpl in Hs; [|apply IH; by apply StronglySorted_inv in Hs as []].
  apply StronglySorted_inv in Hs as [_ Hf]. rewrite Forall_forall in Hf.
  apply Hf, (elem_of_sublist [y]); [set_solver|done].
Qed.
