(* ===== verification/ProblemsPage.v ===== *)
(** * The problem list (src/src/pages/ProblemsPage.tsx)

    The page's state is the six [useState] hooks; the handlers
    ([setSearchQuery], [setDifficulty], [toggleTag], [handleSort], the
    filters button) are functions on it.  [filteredProblems] is the
    [useMemo]: a filter by search text, difficulty and tags, then
    [Array.prototype.sort] with the comparator of the selected column,
    modelled by [JsSort.sort_by].  [localeCompare] is the one library
    comparison the page calls; it is a section variable, assumed a total
    preorder where a theorem needs it.  The table rows are computed from
    the problems as the JSX renders them. *)

From S2P Require Import Prelude Codec JsNumber ProblemsData JsSort.
From stdpp Require Import sorting.

(** [type Difficulty = 'all' | 'easy' | 'medium' | 'hard'] *)
Inductive difficulty_filter : Type := All | Level (d : difficulty).
(** [type SortField] *)
Inductive sort_field : Type := SortId | SortTitle | SortAcceptanceRate | SortDifficulty.
(** [type SortOrder] *)
Inductive sort_order : Type := Asc | Desc.

#[global] Instance difficulty_filter_eq_dec : EqDecision difficulty_filter.
Proof. solve_decision. Defined.
#[global] Instance sort_field_eq_dec : EqDecision sort_field.
Proof. solve_decision. Defined.
#[global] Instance sort_order_eq_dec : EqDecision sort_order.
Proof. solve_decision. Defined.

(** Lines 11-16: the component's state. *)
Record page : Type := mk_page {
  searchQuery : string;
  difficulty_sel : difficulty_filter;
  sortField : sort_field;
  sortOrder : sort_order;
  selectedTags : list string;
  showFilters : bool }.

Definition initial_page : page := mk_page "" All SortId Asc [] false.

(** ** The handlers *)

Definition setSearchQuery (q : string) (pg : page) : page :=
  mk_page q (difficulty_sel pg) (sortField pg) (sortOrder pg) (selectedTags pg) (showFilters pg).

Definition setDifficulty (d : difficulty_filter) (pg : page) : page :=
  mk_page (searchQuery pg) d (sortField pg) (sortOrder pg) (selectedTags pg) (showFilters pg).

Definition setSelectedTags (ts : list string) (pg : page) : page :=
  mk_page (searchQuery pg) (difficulty_sel pg) (sortField pg) (sortOrder pg) ts (showFilters pg).

(** Line 129: [onClick={() => setShowFilters(!showFilters)}] *)
Definition toggleFilters (pg : page) : page :=
  mk_page (searchQuery pg) (difficulty_sel pg) (sortField pg) (sortOrder pg) (selectedTags pg)
    (negb (showFilters pg)).

(** Lines 27-33 *)
Definition toggleTag (tag : string) (pg : page) : page :=
  if bool_decide (tag ∈ selectedTags pg)
  then setSelectedTags (List.filter (fun t => negb (String.eqb t tag)) (selectedTags pg)) pg
  else setSelectedTags (selectedTags pg ++ [tag]) pg.

(** Lines 35-42 *)
Definition handleSort (field : sort_field) (pg : page) : page :=
  if decide (sortField pg = field)
  then mk_page (searchQuery pg) (difficulty_sel pg) (sortField pg)
         (if decide (sortOrder pg = Asc) then Desc else Asc) (selectedTags pg) (showFilters pg)
  else mk_page (searchQuery pg) (difficulty_sel pg) field Asc (selectedTags pg) (showFilters pg).

(** ** The tag list (lines 19-25)

    A [Set] keeps the first occurrence of each tag in insertion order;
    [Array.from(...).sort()] then orders them by code units. *)
Definition set_add (acc : list string) (t : string) : list string :=
  if bool_decide (t ∈ acc) then acc else acc ++ [t].

Definition allTags_of (ps : list problem) : list string :=
  sort_by String.compare (foldl set_add [] (concat (p_tags <$> ps))).

Definition allTags : list string := allTags_of problems.

(** ** The filter (lines 45-63) *)

Definition difficulty_name (d : difficulty) : string :=
  match d with Easy => "easy" | Medium => "medium" | Hard => "hard" end.

Definition matches (pg : page) (p : problem) : bool :=
  (* if (searchQuery && !title.toLowerCase().includes(searchQuery.toLowerCase())) return false *)
  (String.eqb (searchQuery pg) "" || includes (toLowerCase (p_title p)) (toLowerCase (searchQuery pg))) &&
  (* if (difficulty !== 'all' && problem.difficulty !== difficulty) return false *)
  match difficulty_sel pg with All => true | Level d => bool_decide (p_difficulty p = d) end &&
  (* if (selectedTags.length > 0 && !selectedTags.some(tag => problem.tags.includes(tag))) return false *)
  (bool_decide (selectedTags pg = []) || existsb (fun t => bool_decide (t ∈ p_tags p)) (selectedTags pg)).

(** ** The comparator (lines 64-83) *)

(** A JavaScript number as the comparator sees it: a quotient [num / den]
    with [den > 0], an infinity, or NaN. *)
Inductive jsnum : Type := Fin (num den : Z) | PosInf | NegInf | NaN.

(** [accepted / submissions]; the factor [* 100] of the source scales
    both rates alike and does not change a comparison. *)
Definition rate (accepted submissions : Z) : jsnum :=
  if (0 <? submissions)%Z then Fin accepted submissions
  else if (submissions <? 0)%Z then Fin (- accepted) (- submissions)
  else if (0 <? accepted)%Z then PosInf
  else if (accepted <? 0)%Z then NegInf
  else NaN.

(** The sign of [x - y], as [sort] reads it: NaN counts as [+0].  For
    the fixture's counts (below 2^26) the doubles [a / s * 100] compare as
    the exact quotients do. *)
Definition sub_sign (x y : jsnum) : comparison :=
  match x, y with
  | Fin a b, Fin c d => Z.compare (a * d) (c * b)
  | NaN, _ | _, NaN | PosInf, PosInf | NegInf, NegInf => Eq
  | PosInf, _ | _, NegInf => Gt
  | NegInf, _ | _, PosInf => Lt
  end.

Definition digit_value (c : ascii) : option Z :=
  let n := Z.of_N (N_of_ascii c) in
  if (48 <=? n)%Z && (n <=? 57)%Z then Some (n - 48)%Z
  else if (97 <=? n)%Z && (n <=? 102)%Z then Some (n - 87)%Z
  else if (65 <=? n)%Z && (n <=? 70)%Z then Some (n - 55)%Z
  else None.

(** The longest prefix of digits below [radix]; [None] when it is empty. *)
Fixpoint digits_prefix (radix : Z) (s : string) (acc : option Z) : option Z :=
  match s with
  | String c r =>
      match digit_value c with
      | Some v => if (v <? radix)%Z then digits_prefix radix r (Some (default 0 acc * radix + v)%Z) else acc
      | None => acc
      end
  | EmptyString => acc
  end.

(** [parseInt(s)] without a radix: leading white space, a sign, ["0x"]
    for hexadecimal, then the longest run of digits; NaN is [None]. *)
Definition parseInt (s : string) : option Z :=
  let s := trim_start s in
  let '(sign, s) := match s with
                    | String "-" r => (-1, r)
                    | String "+" r => (1, r)
                    | _ => (1, s)
                    end%Z in
  let '(radix, s) := match s with
                     | String "0" (String "x" r) | String "0" (String "X" r) => (16, r)
                     | _ => (10, s)
                     end%Z in
  (fun n => sign * n)%Z <$> digits_prefix radix s None.

Definition parsed (n : option Z) : jsnum := match n with Some z => Fin z 1 | None => NaN end.

(** [const difficultyOrder = { easy: 1, medium: 2, hard: 3 }] *)
Definition difficultyOrder (d : difficulty) : Z := match d with Easy => 1 | Medium => 2 | Hard => 3 end.

Section Comparator.
  (** [a.localeCompare(b)], by its sign. *)
  Variable localeCompare : string -> string -> comparison.

Definition compare_problems (field : sort_field) (order : sort_order) (a b : problem) : comparison :=
    let c := match field with
             | SortTitle => localeCompare (p_title a) (p_title b)
             | SortAcceptanceRate =>
                 sub_sign (rate (p_acceptedCount a) (p_submissionCount a))
                          (rate (p_acceptedCount b) (p_submissionCount b))
             | SortDifficulty => Z.compare (difficultyOrder (p_difficulty a)) (difficultyOrder (p_difficulty b))
             | SortId => sub_sign (parsed (parseInt (p_id a))) (parsed (parseInt (p_id b)))
             end in
    (* multiplier = sortOrder === 'asc' ? 1 : -1 *)
    match order with Asc => c | Desc => CompOpp c end.

  (** Lines 44-84: [filteredProblems] *)
Definition filteredProblems (pg : page) : list problem :=
    sort_by (compare_problems (sortField pg) (sortOrder pg)) (List.filter (matches pg) problems).
End Comparator.

(** ** The table (lines 87-102 and 241-315) *)

(** Lines 87-98 *)
Definition getDifficultyColor (difficulty : string) : string :=
  if String.eqb difficulty "easy" then "badge-easy"
  else if String.eqb difficulty "medium" then "badge-medium"
  else if String.eqb difficulty "hard" then "badge-hard"
  else "".

(** Lines 99-101: [submissions > 0 ? ((accepted / submissions) * 100).toFixed(1) : '0.0'],
    the division, product and [toFixed] on doubles ([JsNumber]). *)
Definition getAcceptanceRate (accepted submissions : Z) : string :=
  if (0 <? submissions)%Z then percent_fixed accepted submissions else "0.0".

Definition upper_char (c : ascii) : ascii :=
  let n := N_of_ascii c in
  if (97 <=? n)%N && (n <=? 122)%N then ascii_of_N (n - 32) else c.

(** [s.charAt(0).toUpperCase() + s.slice(1)] *)
Definition capitalize (s : string) : string :=
  match s with String c r => String (upper_char c) r | EmptyString => EmptyString end.

(** One row of the table, as lines 244-302 render a problem. *)
Record row : Type := mk_row {
  row_id : string;                (** the [#] cell *)
  row_link : string;              (** [to={`/problems/${problem.id}`}] of both links *)
  row_title : string;
  row_tags : list string;         (** [problem.tags.slice(0, 3)] *)
  row_more : option Z;            (** [+{problem.tags.length - 3}] when there are more *)
  row_acceptance : string;        (** [{getAcceptanceRate(...)}%] *)
  row_badge : string;             (** [className={getDifficultyColor(problem.difficulty)}] *)
  row_label : string }.           (** the capitalised difficulty *)

Definition row_of (p : problem) : row :=
  let n := Z.of_nat (List.length (p_tags p)) in
  mk_row (p_id p) ("/problems/" ++ p_id p)%string (p_title p) (take 3 (p_tags p))
    (if (3 <? n)%Z then Some (n - 3)%Z else None)
    (getAcceptanceRate (p_acceptedCount p) (p_submissionCount p) ++ "%")%string
    (getDifficultyColor (difficulty_name (p_difficulty p)))
    (capitalize (difficulty_name (p_difficulty p))).

(** Lines 241-315: the rows, or the single "No problems found" row. *)
Inductive table_body : Type := Rows (rows : list row) | NoProblemsFound.

Definition render_body (ps : list problem) : table_body :=
  match ps with [] => NoProblemsFound | _ => Rows (row_of <$> ps) end.

(** Lines 146-159: the difficulty buttons, value and label. *)
Definition difficulty_buttons : list (difficulty_filter * string) :=
  [(All, "All"); (Level Easy, "Easy"); (Level Medium, "Medium"); (Level Hard, "Hard")].

(** Lines 193-238: the sortable column headers. *)
Definition sort_columns : list (sort_field * string) :=
  [(SortId, "#"); (SortTitle, "Title"); (SortAcceptanceRate, "Acceptance"); (SortDifficulty, "Difficulty")].

(** The page as rendered: the header's count, the search box, the Filters
    button's class, the filter panel when open (each button with whether
    it is selected), each column with its sort icon, the body and the
    stats footer. *)
Record problems_view : Type := mk_problems_view {
  ppv_subtitle : string; ppv_search : string; ppv_filters_class : string;
  ppv_panel : option (list (string * bool) * list (string * bool));
  ppv_columns : list (string * option sort_order); ppv_body : table_body; ppv_stats : list (string * string) }.

(** Lines 316-358: the stats footer; Solved and Attempted are constant. *)
Definition problems_stats : list (string * string) :=
  [("Total Problems", z_to_string (Z.of_nat (List.length problems))); ("Solved", "0"); ("Attempted", "0")].

Section Render.
  Variable localeCompare : string -> string -> comparison.

  (** Lines 103-363 *)
Definition render_problems_page (pg : page) : problems_view :=
    let count := z_to_string (Z.of_nat (List.length problems)) in
    mk_problems_view ("Solve " ++ count ++ " coding challenges and improve your skills") (searchQuery pg)
      (if showFilters pg then "btn-secondary bg-gray-700" else "btn-secondary ")
      (if showFilters pg then
         Some ((fun d => (d.2, bool_decide (difficulty_sel pg = d.1))) <$> difficulty_buttons,
               (fun t => (t, bool_decide (t ∈ selectedTags pg))) <$> allTags)
       else None)
      (((fun c => (c.2, if bool_decide (sortField pg = c.1) then Some (sortOrder pg) else None)) <$> sort_columns)
         ++ [("Action", None)])
      (render_body (filteredProblems localeCompare pg))
      problems_stats.
End Render.

(** ** The comparator is a total preorder

    ... on problems whose rate and id are numbers: a problem with no
    submissions or a non-numeric id makes the comparator answer NaN, and
    [sort]'s result is then implementation-defined. *)
Definition comparable (p : problem) : bool :=
  negb (Z.eqb (p_submissionCount p) 0) && bool_decide (is_Some (parseInt (p_id p))).

Lemma rate_fin a s : s <> 0%Z -> exists n d, rate a s = Fin n d /\ (0 < d)%Z.
Proof.
  intros Hs. unfold rate. destruct (Z.ltb_spec 0 s); [by eauto|].
  destruct (Z.ltb_spec s 0); [exists (- a)%Z, (- s)%Z; split; [done|lia]|lia].
Qed.

Lemma parsed_fin s : is_Some (parseInt s) -> exists n, parsed (parseInt s) = Fin n 1.
Proof. intros [n ->]. by exists n. Qed.

Lemma fin_antisym a b c d : sub_sign (Fin c d) (Fin a b) = CompOpp (sub_sign (Fin a b) (Fin c d)).
Proof. apply Z.compare_antisym. Qed.

Lemma fin_trans a b c d e f : (0 < b)%Z -> (0 < d)%Z -> (0 < f)%Z ->
  cmp_le sub_sign (Fin a b) (Fin c d) -> cmp_le sub_sign (Fin c d) (Fin e f) -> cmp_le sub_sign (Fin a b) (Fin e f).
Proof. unfold cmp_le; simpl. rewrite !Z.compare_le_iff. intros. nia. Qed.

Lemma z_compare_trans x y z : cmp_le Z.compare x y -> cmp_le Z.compare y z -> cmp_le Z.compare x z.
Proof. unfold cmp_le. rewrite !Z.compare_le_iff. lia. Qed.

(** The keys the numeric columns compare. *)
Lemma comparable_keys p : comparable p = true ->
  (exists n d, rate (p_acceptedCount p) (p_submissionCount p) = Fin n d /\ (0 < d)%Z) /\
  (exists n, parsed (parseInt (p_id p)) = Fin n 1).
Proof.
  unfold comparable. intros [Hs Hi]%andb_true_iff. split.
  - apply rate_fin. intros E. by rewrite E in Hs.
  - apply parsed_fin. by apply bool_decide_eq_true in Hi.
Qed.

Section Laws.
  Variable localeCompare : string -> string -> comparison.
  Hypothesis lc_antisym : forall x y, localeCompare y x = CompOpp (localeCompare x y).
  Hypothesis lc_trans : forall x y z, cmp_le localeCompare x y -> cmp_le localeCompare y z -> cmp_le localeCompare x z.

Definition comparable_p (p : problem) : Prop := comparable p = true.

Lemma asc_antisym field x y : comparable_p x -> comparable_p y ->
    compare_problems localeCompare field Asc y x = CompOpp (compare_problems localeCompare field Asc x y).
  Proof.
    intros [(a & b & Ha & _) [i Hi]]%comparable_keys [(c & d & Hc & _) [j Hj]]%comparable_keys.
    destruct field; simpl; rewrite ?Ha, ?Hc, ?Hi, ?Hj; auto using fin_antisym, Z.compare_antisym.
  Qed.

Lemma asc_trans field x y z : comparable_p x -> comparable_p y -> comparable_p z ->
    cmp_le (compare_problems localeCompare field Asc) x y -> cmp_le (compare_problems localeCompare field Asc) y z ->
    cmp_le (compare_problems localeCompare field Asc) x z.
  Proof.
    intros [(a & b & Ha & Hb) [i Hi]]%comparable_keys [(c & d & Hc & Hd) [j Hj]]%comparable_keys
           [(e & f & He & Hf) [k Hk]]%comparable_keys.
    unfold cmp_le. destruct field; simpl; rewrite ?Ha, ?Hc, ?He, ?Hi, ?Hj, ?Hk.
    - apply fin_trans; lia.
    - apply lc_trans.
    - by apply fin_trans.
    - apply z_compare_trans.
  Qed.

Lemma compare_antisym field order x y : comparable_p x -> comparable_p y ->
    compare_problems localeCompare field order y x = CompOpp (compare_problems localeCompare field order x y).
  Proof.
    intros Hx Hy. destruct order; [by apply asc_antisym|].
    apply (opp_antisym (compare_problems localeCompare field Asc) comparable_p); [|done|done].
    intros; by apply asc_antisym.
  Qed.

Lemma compare_trans field order x y z : comparable_p x -> comparable_p y -> comparable_p z ->
    cmp_le (compare_problems localeCompare field order) x y -> cmp_le (compare_problems localeCompare field order) y z ->
    cmp_le (compare_problems localeCompare field order) x z.
  Proof.
    destruct order; [apply asc_trans|].
    apply (opp_trans (compare_problems localeCompare field Asc) comparable_p);
      [intros; by apply asc_antisym|intros a b c Ha Hb Hc H1 H2; exact (asc_trans field a b c Ha Hb Hc H1 H2)].
  Qed.
End Laws.

Lemma problems_comparable : Forall comparable_p problems.
Proof. repeat constructor. Qed.

(** ** Helpers *)

Lemma Forall_list_filter {A} (P : A -> Prop) (f : A -> bool) l : Forall P l -> Forall P (List.filter f l).
Proof.
  rewrite !Forall_forall. intros H x Hx. apply list_elem_of_In, filter_In in Hx as [Hx _].
  apply H, list_elem_of_In, Hx.
Qed.

Lemma NoDup_list_filter {A} (f : A -> bool) l : NoDup l -> NoDup (List.filter f l).
Proof.
  induction 1 as [|x l Hx _ IH]; simpl; [constructor|]. destruct (f x); [|done].
  constructor; [|done]. intros Hin. apply Hx, list_elem_of_In.
  by apply list_elem_of_In, filter_In in Hin as [].
Qed.

Lemma problems_nodup : NoDup problems.
Proof. apply (NoDup_fmap_1 p_id), (bool_decide_eq_true_1 (NoDup (p_id <$> problems))). vm_compute. reflexivity. Qed.

(** The three tests of the filter, one by one. *)
Lemma matches_spec pg p :
  matches pg p = true <->
  (searchQuery pg = "" \/ includes (toLowerCase (p_title p)) (toLowerCase (searchQuery pg)) = true) /\
  (forall d, difficulty_sel pg = Level d -> p_difficulty p = d) /\
  (selectedTags pg = [] \/ exists t, t ∈ selectedTags pg /\ t ∈ p_tags p).
Proof.
  unfold matches. rewrite !andb_true_iff, !orb_true_iff, String.eqb_eq, bool_decide_eq_true, existsb_exists.
  assert (Hd : match difficulty_sel pg with All => true | Level d => bool_decide (p_difficulty p = d) end = true <->
               forall d, difficulty_sel pg = Level d -> p_difficulty p = d)
    by (destruct (difficulty_sel pg); split; intros H; [done|done| |by rewrite bool_decide_eq_true, (H _ eq_refl)];
        intros d' [= <-]; by apply bool_decide_eq_true in H).
  rewrite Hd. setoid_rewrite bool_decide_eq_true. setoid_rewrite <- list_elem_of_In. tauto.
Qed.

Section Table.
  Variable localeCompare : string -> string -> comparison.
  Hypothesis lc_antisym : forall x y, localeCompare y x = CompOpp (localeCompare x y).
  Hypothesis lc_trans : forall x y z, cmp_le localeCompare x y -> cmp_le localeCompare y z -> cmp_le localeCompare x z.

  (** [filteredProblems] is a stable sort of the filtered fixture. *)
Lemma filteredProblems_sorted pg :
    let cmp := compare_problems localeCompare (sortField pg) (sortOrder pg) in
    filteredProblems localeCompare pg ≡ₚ List.filter (matches pg) problems /\
    StronglySorted (cmp_le cmp) (filteredProblems localeCompare pg) /\
    stable_as cmp comparable_p (filteredProblems localeCompare pg) (List.filter (matches pg) problems).
  Proof.
    intros cmp. destruct (sort_by_spec cmp comparable_p) with (l := List.filter (matches pg) problems)
      as (Hp & Hs & Hst & _); [| |apply Forall_list_filter, problems_comparable|done].
    - intros x y Hx Hy. by apply compare_antisym.
    - intros x y z Hx Hy Hz. by apply compare_trans.
  Qed.

  (** Two rows tied by the comparator are in the fixture's order. *)
Lemma row_ties_in_order pg x y :
    compare_problems localeCompare (sortField pg) (sortOrder pg) x y = Eq ->
    [x; y] `sublist_of` filteredProblems localeCompare pg -> [x; y] `sublist_of` problems.
  Proof.
    intros Heq Hxy. destruct (filteredProblems_sorted pg) as (Hp & _ & Hst).
    assert (Hx : comparable_p x).
    { assert (Hin : x ∈ List.filter (matches pg) problems)
        by (rewrite <- Hp; apply (elem_of_sublist [x; y]); [set_solver|done]).
      apply list_elem_of_In, filter_In in Hin as [Hin _].
      eapply Forall_forall; [apply problems_comparable|by apply list_elem_of_In]. }
    etrans; [|apply (filter_sublist_l (matches pg))].
    etrans; [|apply (filter_sublist_l (cmp_tie (compare_problems localeCompare (sortField pg) (sortOrder pg)) x))].
    rewrite <- (Hst x Hx). apply sublist_filter_r; [done|].
    unfold cmp_tie. repeat constructor; [|by rewrite Heq].
    rewrite (cmp_refl _ comparable_p); [done| |done]. intros a b Ha Hb. by apply compare_antisym.
  Qed.
End Table.

Lemma set_add_spec acc t : NoDup acc -> NoDup (set_add acc t) /\ (forall u, u ∈ set_add acc t <-> u ∈ acc \/ u = t).
Proof.
  intros Hnd. unfold set_add. case_bool_decide as Ht.
  - split; [done|]. intros u. naive_solver.
  - split; [by apply NoDup_app; repeat split; [done| |apply NoDup_singleton]; set_solver|].
    intros u. rewrite elem_of_app, list_elem_of_singleton. done.
Qed.

Lemma foldl_set_add acc l :
  NoDup acc -> NoDup (foldl set_add acc l) /\ (forall u, u ∈ foldl set_add acc l <-> u ∈ acc \/ u ∈ l).
Proof.
  revert acc. induction l as [|t l IH]; intros acc Hnd; simpl; [split; [done|set_solver]|].
  destruct (set_add_spec acc t Hnd) as [Hnd' Hin].
  destruct (IH _ Hnd') as [Hnd'' Hin'']. split; [done|]. intros u. rewrite Hin'', Hin, elem_of_cons. tauto.
Qed.

Lemma sorted_nodup_strict (l : list string) :
  NoDup l -> StronglySorted (cmp_le String.compare) l -> StronglySorted (fun a b => String.compare a b = Lt) l.
Proof.
  induction 2 as [|x l Hs IH Hf]; constructor.
  - apply IH. by apply NoDup_cons in H as [].
  - apply NoDup_cons in H as [Hx _]. rewrite Forall_forall in Hf |- *. intros y Hy.
    specialize (Hf y Hy). unfold cmp_le in Hf. destruct (String.compare x y) eqn:E; [|done|done].
    apply String.compare_eq_iff in E as ->. done.
Qed.

(** ** A session on the page: the user's clicks and keystrokes in order *)

Inductive page_event : Type :=
| TypeSearch (q : string)              (** the search input's [onChange] *)
| ClickDifficulty (d : difficulty_filter)
| ClickTag (t : string)
| ClickHeader (f : sort_field)
| ClickFilters.

Definition apply_event (pg : page) (e : page_event) : page :=
  match e with
  | TypeSearch q => setSearchQuery q pg
  | ClickDifficulty d => setDifficulty d pg
  | ClickTag t => toggleTag t pg
  | ClickHeader f => handleSort f pg
  | ClickFilters => toggleFilters pg
  end.

Definition run_events (evs : list page_event) (pg : page) : page := foldl apply_event pg evs.

Lemma toggleTag_spec t pg :
  NoDup (selectedTags pg) ->
  NoDup (selectedTags (toggleTag t pg)) /\
  (forall u, u ∈ selectedTags (toggleTag t pg) <-> (u ∈ selectedTags pg /\ u <> t) \/ (u = t /\ t ∉ selectedTags pg)).
Proof.
  intros Hnd. unfold toggleTag. case_bool_decide as Ht; simpl.
  - split; [by apply NoDup_list_filter|]. intros u.
    rewrite list_elem_of_In, filter_In, <- list_elem_of_In, negb_true_iff, String.eqb_neq. naive_solver.
  - split; [apply NoDup_app; repeat split; [done| |apply NoDup_singleton]; set_solver|].
    intros u. rewrite elem_of_app, list_elem_of_singleton. naive_solver.
Qed.

Lemma apply_event_nodup pg e : NoDup (selectedTags pg) -> NoDup (selectedTags (apply_event pg e)).
Proof. intros Hnd. destruct e; simpl; try done; [apply toggleTag_spec, Hnd|]. unfold handleSort. by case_decide. Qed.

(** ** Properties of the page *)

  (** C34: For a [localeCompare] that is a total preorder, whatever the
      page state, the table shows each problem of the fixture at most
      once, exactly those whose title contains the search text (ignoring
      case), of the selected difficulty and carrying one of the selected
      tags (each filter void when unset); and of any two rows, the first
      is not after the second in the selected column (title, acceptance
      rate, difficulty easy < medium < hard, or numeric id) for ascending
      order, not before it for descending order, and two rows tied in that
      column keep the fixture's order. *)
Theorem filteredProblems_table localeCompare
    (lc_antisym : forall x y, localeCompare y x = CompOpp (localeCompare x y))
    (lc_trans : forall x y z, cmp_le localeCompare x y -> cmp_le localeCompare y z -> cmp_le localeCompare x z)
    pg :
  let rows := filteredProblems localeCompare pg in
  let key (x y : problem) : comparison :=
    match sortField pg with
    | SortTitle => localeCompare (p_title x) (p_title y)
    | SortAcceptanceRate => sub_sign (rate (p_acceptedCount x) (p_submissionCount x))
                                     (rate (p_acceptedCount y) (p_submissionCount y))
    | SortDifficulty => Z.compare (difficultyOrder (p_difficulty x)) (difficultyOrder (p_difficulty y))
    | SortId => sub_sign (parsed (parseInt (p_id x))) (parsed (parseInt (p_id y)))
    end in
  NoDup rows /\
  (forall p, p ∈ rows <-> p ∈ problems /\
     (searchQuery pg = "" \/ includes (toLowerCase (p_title p)) (toLowerCase (searchQuery pg)) = true) /\
     (forall d, difficulty_sel pg = Level d -> p_difficulty p = d) /\
     (selectedTags pg = [] \/ exists t, t ∈ selectedTags pg /\ t ∈ p_tags p)) /\
  (forall x y, [x; y] `sublist_of` rows ->
     match sortOrder pg with Asc => key x y <> Gt | Desc => key x y <> Lt end /\
     (key x y = Eq -> [x; y] `sublist_of` problems)).
Proof.
  intros rows key.
  destruct (filteredProblems_sorted localeCompare lc_antisym lc_trans pg) as (Hperm & Hsort & Hstab).
  fold rows in Hperm, Hsort, Hstab.
  assert (Hkey : forall x y, compare_problems localeCompare (sortField pg) (sortOrder pg) x y =
                   match sortOrder pg with Asc => key x y | Desc => CompOpp (key x y) end)
    by (intros x y; unfold key, compare_problems; by destruct (sortField pg), (sortOrder pg)).
  split; [rewrite Hperm; apply NoDup_list_filter, problems_nodup|].
  split; [intros p; rewrite Hperm, list_elem_of_In, filter_In, <- list_elem_of_In, matches_spec; tauto|].
  intros x y Hxy. pose proof (sorted_pair _ _ _ _ Hsort Hxy) as Hle. unfold cmp_le in Hle. rewrite Hkey in Hle.
  split; [by destruct (sortOrder pg), (key x y)|]. intros Heq.
  apply (row_ties_in_order localeCompare lc_antisym lc_trans pg x y); [|done].
  rewrite Hkey, Heq. by destruct (sortOrder pg).
Qed.

  (** The tag buttons list every tag of the problems exactly once, in
      strictly increasing code-unit order, and nothing else. *)
Theorem allTags_spec ps :
  StronglySorted (fun a b => String.compare a b = Lt) (allTags_of ps) /\
  (forall t, t ∈ allTags_of ps <-> exists p, p ∈ ps /\ t ∈ p_tags p).
Proof.
  destruct (foldl_set_add [] (concat (p_tags <$> ps)) (NoDup_nil_2)) as [Hnd Hin].
  unfold allTags_of. split.
  - apply sorted_nodup_strict; [by rewrite sort_by_perm|].
    apply (sort_by_sorted String.compare (fun _ => True)).
    + intros x y _ _. apply String.compare_antisym.
    + intros x y z. apply string_compare_trans.
    + by apply Forall_true.
  - intros t. rewrite sort_by_perm, Hin. split.
    + intros [Hn|Hc]; [by apply not_elem_of_nil in Hn|].
      apply list_elem_of_In, in_concat in Hc as (ts & Hts & Ht).
      apply list_elem_of_In, list_elem_of_fmap in Hts as (p & -> & Hp).
      exists p. split; [done|]. by apply list_elem_of_In.
    + intros (p & Hp & Ht). right. apply list_elem_of_In, in_concat. exists (p_tags p).
      split; [|by apply list_elem_of_In]. apply list_elem_of_In, list_elem_of_fmap. by exists p.
Qed.

  (** C35: Over any session of clicks and keystrokes from the initial
      page, the selected tags never contain a tag twice; and a click on a
      tag selects it when it was not selected and deselects it otherwise,
      leaving the other tags selected as they were. *)
Theorem selectedTags_session evs t :
  let pg := run_events evs initial_page in
  NoDup (selectedTags pg) /\
  (forall u, u ∈ selectedTags (toggleTag t pg) <-> (u ∈ selectedTags pg /\ u <> t) \/ (u = t /\ t ∉ selectedTags pg)).
Proof.
  assert (Hnd : NoDup (selectedTags (run_events evs initial_page))).
  { assert (H0 : NoDup (selectedTags initial_page)) by constructor.
    unfold run_events. revert H0. generalize initial_page.
    induction evs as [|e evs IH]; intros pg Hpg; simpl; [done|]. apply IH, apply_event_nodup, Hpg. }
  split; [done|]. by apply toggleTag_spec.
Qed.

  (** A column header clicked twice restores the sort; a header other
      than the current one sorts by its column ascending. *)
Theorem handleSort_spec f pg :
  (sortField pg = f -> handleSort f (handleSort f pg) = pg) /\
  (sortField pg <> f -> sortField (handleSort f pg) = f /\ sortOrder (handleSort f pg) = Asc).
Proof.
  destruct pg as [q d fld o ts sh]. unfold handleSort; simpl. split; intros Hf.
  - destruct o; repeat (case_decide; simpl in *); congruence.
  - case_decide; [done|]. done.
Qed.

  (** C36: The acceptance column shows [accepted / submissions * 100] to one
      decimal, computed on doubles: for [0 <= accepted <= submissions <
      2^53] it shows the tenths [n], between 0 and 1000, within
      [1/2 + 2^-40] of [1000 * accepted / submissions].  So it is the
      nearest tenth except within [2^-40] of a tie, where the double
      rounding may go either way. *)
Theorem getAcceptanceRate_spec a s :
  (0 <= a <= s)%Z -> (0 < s < 2 ^ 53)%Z ->
  exists n, getAcceptanceRate a s = tenths_digits n /\ (0 <= n <= 1000)%Z /\
            (2 ^ 40 * Z.abs (n * s - 1000 * a) <= (2 ^ 39 + 1) * s)%Z.
Proof.
  intros Ha Hs. unfold getAcceptanceRate. rewrite (proj2 (Z.ltb_lt 0 s)) by lia.
  by apply percent_fixed_bound.
Qed.

(** ** Witnesses *)

Lemma filteredProblems_table_witness :
  let pg := handleSort SortTitle (handleSort SortTitle initial_page) in
  sortOrder pg = Desc /\ [problem_1; problem_6] `sublist_of` filteredProblems String.compare pg /\
  String.compare (p_title problem_1) (p_title problem_6) <> Lt.
Proof.
  intros pg. assert (Hs : [problem_1; problem_6] `sublist_of` filteredProblems String.compare pg)
    by (vm_compute; repeat constructor).
  split; [reflexivity|]. split; [exact Hs|].
  destruct (filteredProblems_table String.compare (fun x y => String.compare_antisym y x)
              (fun x y z => string_compare_trans x y z I I I) pg) as (_ & _ & Hord).
  exact (proj1 (Hord _ _ Hs)).
Defined.

Lemma handleSort_spec_witness :
  sortField initial_page = SortId /\ handleSort SortId (handleSort SortId initial_page) = initial_page /\
  sortField (handleSort SortTitle initial_page) = SortTitle /\ sortOrder (handleSort SortTitle initial_page) = Asc.
Proof.
  split; [reflexivity|]. split; [apply (proj1 (handleSort_spec SortId initial_page)); reflexivity|].
  apply (proj2 (handleSort_spec SortTitle initial_page)). discriminate.
Defined.

Lemma getAcceptanceRate_spec_witness :
  getAcceptanceRate 3 2000 = "0.1" /\
  exists n, getAcceptanceRate 3 2000 = tenths_digits n /\ (0 <= n <= 1000)%Z /\
            (2 ^ 40 * Z.abs (n * 2000 - 1000 * 3) <= (2 ^ 39 + 1) * 2000)%Z.
Proof.
  split; [vm_compute; reflexivity|]. apply getAcceptanceRate_spec; lia.
Defined.
