(* ===== verification/Leaderboard.v ===== *)
(** * The leaderboard (src/src/utils/leaderboardData.ts, src/src/pages/LeaderboardPage.tsx)

    The fixture of fifteen entries field for field, the page's search
    (one [useState]), the podium of the first three array elements, and
    the table rows as the JSX renders them: the rank badge, the profile
    link, the grouped score, the streak bar's width and label.
    [toLocaleString] depends on the browser's locale; it is written out
    for en-US, the locale the figures are laid out for. *)

From S2P Require Import Prelude Codec.
From stdpp Require Import sorting.

(** Lines 1-10: [interface LeaderboardEntry] *)
Record LeaderboardEntry : Type := {
  rank : Z;
  username : string;
  avatar : string;
  score : Z;
  problemsSolved : Z;
  streakDays : Z;
  country : string;
  countryCode : string }.

(** Lines 13-22 *)
Definition entry_1 : LeaderboardEntry := {|
  rank := 1; username := "codingmaster"; avatar := "https://i.pravatar.cc/150?img=1"; score := 9845;
  problemsSolved := 423; streakDays := 87; country := "United States"; countryCode := "us" |}.

(** Lines 23-32 *)
Definition entry_2 : LeaderboardEntry := {|
  rank := 2; username := "algoexpert"; avatar := "https://i.pravatar.cc/150?img=2"; score := 9721;
  problemsSolved := 412; streakDays := 65; country := "India"; countryCode := "in" |}.

(** Lines 33-42 *)
Definition entry_3 : LeaderboardEntry := {|
  rank := 3; username := "bytewizard"; avatar := "https://i.pravatar.cc/150?img=3"; score := 9612;
  problemsSolved := 405; streakDays := 120; country := "China"; countryCode := "cn" |}.

(** Lines 43-52 *)
Definition entry_4 : LeaderboardEntry := {|
  rank := 4; username := "codeguru"; avatar := "https://i.pravatar.cc/150?img=4"; score := 9584;
  problemsSolved := 401; streakDays := 93; country := "Russia"; countryCode := "ru" |}.

(** Lines 53-62 *)
Definition entry_5 : LeaderboardEntry := {|
  rank := 5; username := "devninja"; avatar := "https://i.pravatar.cc/150?img=5"; score := 9423;
  problemsSolved := 387; streakDays := 71; country := "Germany"; countryCode := "de" |}.

(** Lines 63-72 *)
Definition entry_6 : LeaderboardEntry := {|
  rank := 6; username := "hackerpro"; avatar := "https://i.pravatar.cc/150?img=6"; score := 9345;
  problemsSolved := 378; streakDays := 59; country := "United Kingdom"; countryCode := "gb" |}.

(** Lines 73-82 *)
Definition entry_7 : LeaderboardEntry := {|
  rank := 7; username := "codesmith"; avatar := "https://i.pravatar.cc/150?img=7"; score := 9267;
  problemsSolved := 371; streakDays := 82; country := "Canada"; countryCode := "ca" |}.

(** Lines 83-92 *)
Definition entry_8 : LeaderboardEntry := {|
  rank := 8; username := "techgeek"; avatar := "https://i.pravatar.cc/150?img=8"; score := 9201;
  problemsSolved := 367; streakDays := 45; country := "France"; countryCode := "fr" |}.

(** Lines 93-102 *)
Definition entry_9 : LeaderboardEntry := {|
  rank := 9; username := "codeartist"; avatar := "https://i.pravatar.cc/150?img=9"; score := 9156;
  problemsSolved := 362; streakDays := 68; country := "Japan"; countryCode := "jp" |}.

(** Lines 103-112 *)
Definition entry_10 : LeaderboardEntry := {|
  rank := 10; username := "devmachine"; avatar := "https://i.pravatar.cc/150?img=10"; score := 9078;
  problemsSolved := 358; streakDays := 77; country := "Brazil"; countryCode := "br" |}.

(** Lines 113-122 *)
Definition entry_11 : LeaderboardEntry := {|
  rank := 11; username := "algorithmace"; avatar := "https://i.pravatar.cc/150?img=11"; score := 8967;
  problemsSolved := 352; streakDays := 63; country := "Australia"; countryCode := "au" |}.

(** Lines 123-132 *)
Definition entry_12 : LeaderboardEntry := {|
  rank := 12; username := "codehacker"; avatar := "https://i.pravatar.cc/150?img=12"; score := 8892;
  problemsSolved := 348; streakDays := 51; country := "South Korea"; countryCode := "kr" |}.

(** Lines 133-142 *)
Definition entry_13 : LeaderboardEntry := {|
  rank := 13; username := "progwizard"; avatar := "https://i.pravatar.cc/150?img=13"; score := 8814;
  problemsSolved := 344; streakDays := 43; country := "Spain"; countryCode := "es" |}.

(** Lines 143-152 *)
Definition entry_14 : LeaderboardEntry := {|
  rank := 14; username := "bytecoder"; avatar := "https://i.pravatar.cc/150?img=14"; score := 8756;
  problemsSolved := 339; streakDays := 39; country := "Italy"; countryCode := "it" |}.

(** Lines 153-162 *)
Definition entry_15 : LeaderboardEntry := {|
  rank := 15; username := "devhero"; avatar := "https://i.pravatar.cc/150?img=15"; score := 8691;
  problemsSolved := 335; streakDays := 58; country := "Netherlands"; countryCode := "nl" |}.

(** Line 12: [export const leaderboardData] *)
Definition leaderboardData : list LeaderboardEntry :=
  [entry_1; entry_2; entry_3; entry_4; entry_5; entry_6; entry_7; entry_8; entry_9; entry_10;
   entry_11; entry_12; entry_13; entry_14; entry_15].

(** ** The page *)

(** Lines 9-12 *)
Definition matches_entry (searchQuery : string) (entry : LeaderboardEntry) : bool :=
  includes (toLowerCase (username entry)) (toLowerCase searchQuery) ||
  includes (toLowerCase (country entry)) (toLowerCase searchQuery).

Definition filteredLeaderboard (searchQuery : string) : list LeaderboardEntry :=
  List.filter (matches_entry searchQuery) leaderboardData.

(** Lines 35-98: second, first and third place are the array's elements
    1, 0 and 2, whatever the search; an absent element is [undefined]. *)
Definition podium : list (option LeaderboardEntry) :=
  [leaderboardData !! 1%nat; leaderboardData !! 0%nat; leaderboardData !! 2%nat].

(** [n.toLocaleString()] in en-US: the decimal digits in groups of three. *)
Fixpoint group3 (digits : list ascii) : list ascii :=
  match digits with
  | a :: b :: c :: (_ :: _) as rest => a :: b :: c :: ","%char :: group3 rest
  | _ => digits
  end.

Definition toLocaleString (n : Z) : string :=
  let s := z_to_string (Z.abs n) in
  let grouped := string_of_list_ascii (rev (group3 (rev (list_ascii_of_string s)))) in
  if (n <? 0)%Z then ("-" ++ grouped)%string else grouped.

(** Lines 136-152: the rank cell. *)
Inductive rank_badge : Type := Gold | Silver | Bronze | Plain (r : Z).

Definition rank_cell (r : Z) : rank_badge :=
  if (r =? 1)%Z then Gold else if (r =? 2)%Z then Silver else if (r =? 3)%Z then Bronze else Plain r.

(** Line 195: [Math.min(100, (entry.streakDays / 120) * 100)] as a quotient. *)
Definition streak_width (days : Z) : Z * Z :=
  if (days * 100 <? 100 * 120)%Z then (days * 100, 120)%Z else (100, 1)%Z.

Record lb_row : Type := mk_lb_row {
  lr_key : Z;                 (** [key={entry.rank}] *)
  lr_highlight : bool;        (** [entry.rank <= 3] *)
  lr_badge : rank_badge;
  lr_avatar : string;
  lr_link : string;           (** [to={`/profile/${entry.username}`}] *)
  lr_username : string;
  lr_score : string;
  lr_solved : string;
  lr_country : string;
  lr_streak_width : Z * Z;
  lr_streak_text : string }.

(** Lines 129-203: one row. *)
Definition row_of_entry (entry : LeaderboardEntry) : lb_row :=
  mk_lb_row (rank entry) (rank entry <=? 3)%Z (rank_cell (rank entry)) (avatar entry)
    ("/profile/" ++ username entry)%string (username entry)
    (toLocaleString (score entry)) (toLocaleString (problemsSolved entry)) (country entry)
    (streak_width (streakDays entry)) (z_to_string (streakDays entry) ++ " days")%string.

(** Lines 126-212: the rows, or "No users found matching your search." *)
Inductive lb_body : Type := LbRows (rows : list lb_row) | NoUsersFound.

Definition render_leaderboard (searchQuery : string) : lb_body :=
  match filteredLeaderboard searchQuery with
  | [] => NoUsersFound
  | es => LbRows (row_of_entry <$> es)
  end.

(** Lines 99-125: the table's columns. *)
Definition lb_columns : list string := ["Rank"; "User"; "Score"; "Problems Solved"; "Country"; "Streak"].

(** The page as rendered for the search box's content. *)
Record leaderboard_view : Type := mk_leaderboard_view {
  lv_placeholder : string; lv_search : string; lv_podium : list (option LeaderboardEntry);
  lv_columns : list string; lv_body : lb_body }.

(** Lines 6-220: the page's one state hook is the search box (line 7,
    set by its [onChange] at line 30); the page is a function of it. *)
Definition render_leaderboard_page (searchQuery : string) : leaderboard_view :=
  mk_leaderboard_view "Search by username or country..." searchQuery podium lb_columns (render_leaderboard searchQuery).

(** ** Properties *)

Lemma filter_sublist {A} (f : A -> bool) (l : list A) : List.filter f l `sublist_of` l.
Proof.
  induction l as [|x l IH]; simpl; [done|]. destruct (f x); [by apply sublist_skip|by apply sublist_cons].
Qed.

Lemma matches_entry_lower q e : matches_entry (toLowerCase q) e = matches_entry q e.
Proof. unfold matches_entry. by rewrite toLowerCase_idem. Qed.

  (** The fixture is a ranking: the entries carry the ranks 1 to 15
      in array order, with strictly decreasing scores, so the podium's
      three places (array elements 1, 0 and 2) are ranks 2, 1 and 3, the
      three best scores. *)
Theorem leaderboard_ranked :
  List.map rank leaderboardData = List.map (fun i => Z.of_nat i + 1)%Z (seq 0 15) /\
  StronglySorted (fun a b => (score b < score a)%Z) leaderboardData /\
  List.map (option_map rank) podium = [Some 2%Z; Some 1%Z; Some 3%Z].
Proof.
  split; [reflexivity|]. split; [|reflexivity].
  unfold leaderboardData. repeat constructor; simpl; lia.
Qed.

  (** The search keeps, in ranking order, exactly the entries whose
      username or country contains the query, ignoring letter case; an
      empty query keeps them all. *)
Theorem filteredLeaderboard_spec q :
  filteredLeaderboard q `sublist_of` leaderboardData /\
  (forall e, e ∈ filteredLeaderboard q <->
     e ∈ leaderboardData /\
     (includes (toLowerCase (username e)) (toLowerCase q) = true \/
      includes (toLowerCase (country e)) (toLowerCase q) = true)) /\
  filteredLeaderboard (toLowerCase q) = filteredLeaderboard q /\
  filteredLeaderboard "" = leaderboardData.
Proof.
  split; [apply filter_sublist|]. split; [|split].
  - intros e. unfold filteredLeaderboard. rewrite list_elem_of_In, filter_In, <- list_elem_of_In.
    unfold matches_entry. by rewrite orb_true_iff.
  - unfold filteredLeaderboard. apply List.filter_ext. intros e. apply matches_entry_lower.
  - unfold filteredLeaderboard. generalize leaderboardData. intros l.
    induction l as [|e l IH]; simpl; [done|].
    unfold matches_entry at 1. simpl. by rewrite includes_empty, IH.
Qed.

  (** The streak bar is between 0% and 100% wide for a non-negative
      streak, proportional to the streak below 120 days and full from 120
      days on. *)
Theorem streak_width_bounds days :
  (0 <= days)%Z ->
  let '(num, den) := streak_width days in
  (0 < den)%Z /\ (0 <= num <= 100 * den)%Z /\
  ((days < 120)%Z -> num * 120 = days * 100 * den)%Z /\ ((120 <= days)%Z -> num = 100 * den)%Z.
Proof.
  intros Hd. unfold streak_width. destruct (Z.ltb_spec (days * 100) (100 * 120)); lia.
Qed.

Lemma filteredLeaderboard_spec_witness :
  filteredLeaderboard "IN" `sublist_of` leaderboardData /\ entry_2 ∈ filteredLeaderboard "IN".
Proof.
  destruct (filteredLeaderboard_spec "IN") as (Hs & Hin & _). split; [exact Hs|].
  apply Hin. split; [by repeat constructor|]. right. reflexivity.
Defined.

Lemma streak_width_bounds_witness : streak_width 87 = (8700, 120)%Z /\ (0 <= 8700 <= 100 * 120)%Z.
Proof.
  pose proof (streak_width_bounds 87 ltac:(lia)) as H. simpl in H.
  split; [reflexivity|]. destruct H as (_ & Hb & _). exact Hb.
Defined.
