(* ===== verification/AuthPages.v ===== *)
(** * The login and register pages (src/src/pages/LoginPage.tsx, src/src/pages/RegisterPage.tsx)

    Each page keeps its fields, the password visibility toggles, the
    message shown and a loading flag; [handleSubmit] is [ClientAuth]'s
    [login_submit] / [register_submit].  The form's submit event only
    fires when the browser's constraint validation passes: every
    [required] field is filled, the [type="email"] field holds a valid
    e-mail address (the HTML standard's grammar, [html_email_valid]) and
    the register page's [required] terms checkbox, which React does not
    control, is ticked. *)

From S2P Require Import Prelude ClientAuth.

(** ** The browser's e-mail check *)

Definition is_alnum (c : ascii) : bool :=
  let n := nat_of_ascii c in
  (Nat.leb 48 n && Nat.leb n 57) || (Nat.leb 65 n && Nat.leb n 90) || (Nat.leb 97 n && Nat.leb n 122).

(** [[a-zA-Z0-9.!#$%&'*+/=?^_`{|}~-]] *)
Definition local_char (c : ascii) : bool :=
  is_alnum c || existsb (Ascii.eqb c) (list_ascii_of_string ".!#$%&'*+/=?^_`{|}~-").

(** [[a-zA-Z0-9](?:[a-zA-Z0-9-]{0,61}[a-zA-Z0-9])?] *)
Definition label_ok (l : string) : bool :=
  let cs := list_ascii_of_string l in
  match cs with
  | [] => false
  | c :: _ => is_alnum c && is_alnum (List.last cs c) && forallb (fun d => is_alnum d || Ascii.eqb d "-") cs &&
              (List.length cs <=? 63)%nat
  end.

(** The HTML standard's valid e-mail address: a non-empty local part, one
    [@], and dot-separated labels. *)
Definition html_email_valid (s : string) : bool :=
  match split_on "@" s with
  | [local; domain] =>
      negb (String.eqb local "") && forallb local_char (list_ascii_of_string local) &&
      forallb label_ok (split_on "." domain)
  | _ => false
  end.

(** ** The login page (LoginPage.tsx lines 6-150) *)

Record login_page : Type := mk_login_page {
  lp_email : string; lp_password : string; lp_showPassword : bool;
  lp_remember : bool;                     (** the uncontrolled "Remember me" box, lines 105-110 *)
  lp_error : string; lp_isLoading : bool }.

(** Lines 7-11 *)
Definition initial_login_page : login_page := mk_login_page "" "" false false "" false.

(** Lines 73, 89, 95 and the checkbox. *)
Definition lp_setEmail (v : string) (p : login_page) : login_page :=
  mk_login_page v (lp_password p) (lp_showPassword p) (lp_remember p) (lp_error p) (lp_isLoading p).
Definition lp_setPassword (v : string) (p : login_page) : login_page :=
  mk_login_page (lp_email p) v (lp_showPassword p) (lp_remember p) (lp_error p) (lp_isLoading p).
Definition lp_toggleShowPassword (p : login_page) : login_page :=
  mk_login_page (lp_email p) (lp_password p) (negb (lp_showPassword p)) (lp_remember p) (lp_error p) (lp_isLoading p).
Definition lp_toggleRemember (p : login_page) : login_page :=
  mk_login_page (lp_email p) (lp_password p) (lp_showPassword p) (negb (lp_remember p)) (lp_error p) (lp_isLoading p).

(** Lines 67-91: both inputs are [required], the first is [type="email"]. *)
Definition login_form_valid (p : login_page) : bool :=
  html_email_valid (lp_email p) && negb (String.eqb (lp_password p) "").

Section Pages.
  Variable jwtDecode : string -> option User.

  (** Line 61 with lines 15-33: a blocked submit changes nothing; otherwise
      the message of [login_submit] is shown and the [finally] clears the
      loading flag. *)
Definition login_page_submit (p : login_page) (s : auth_state) : login_page * auth_state :=
    if negb (login_form_valid p) then (p, s)
    else let '(msg, s') := login_submit jwtDecode (lp_email p) (lp_password p) s in
         (mk_login_page (lp_email p) (lp_password p) (lp_showPassword p) (lp_remember p) msg false, s').
End Pages.

(** Lines 35-150: the error banner, the password field's type, the
    button and the two links. *)
Record login_view : Type := mk_login_view {
  lv_error : option string; lv_password_type : string; lv_button : string; lv_disabled : bool;
  lv_links : list string }.

Definition render_login (p : login_page) : login_view :=
  mk_login_view (if String.eqb (lp_error p) "" then None else Some (lp_error p))
    (if lp_showPassword p then "text" else "password")
    (if lp_isLoading p then "Signing in..." else "Sign in") (lp_isLoading p)
    ["/auth/forgot-password"; "/auth/register"].

(** ** The register page (RegisterPage.tsx lines 6-211) *)

Record register_page : Type := mk_register_page {
  rp_username : string; rp_email : string; rp_password : string; rp_confirm : string;
  rp_showPassword : bool; rp_showConfirm : bool;
  rp_terms : bool;                        (** the uncontrolled terms box, lines 165-171 *)
  rp_error : string; rp_isLoading : bool }.

(** Lines 7-14 *)
Definition initial_register_page : register_page := mk_register_page "" "" "" "" false false false "" false.

(** Lines 86, 102, 118, 142, 125, 148 and the terms box. *)
Definition rp_set (u e pw c : string) (p : register_page) : register_page :=
  mk_register_page u e pw c (rp_showPassword p) (rp_showConfirm p) (rp_terms p) (rp_error p) (rp_isLoading p).
Definition rp_toggles (sp sc terms : bool) (p : register_page) : register_page :=
  mk_register_page (rp_username p) (rp_email p) (rp_password p) (rp_confirm p) sp sc terms (rp_error p)
    (rp_isLoading p).

(** Lines 80-171: four [required] inputs, one [type="email"], and the
    [required] terms box. *)
Definition register_form_valid (p : register_page) : bool :=
  negb (String.eqb (rp_username p) "") && html_email_valid (rp_email p) &&
  negb (String.eqb (rp_password p) "") && negb (String.eqb (rp_confirm p) "") && rp_terms p.

Section RegisterPage.
  Variable jwtDecode : string -> option User.

  (** Lines 18-46 behind the browser's validation. *)
Definition register_page_submit (p : register_page) (s : auth_state) : register_page * auth_state :=
    if negb (register_form_valid p) then (p, s)
    else let '(msg, s') := register_submit jwtDecode (rp_username p) (rp_email p) (rp_password p) (rp_confirm p) s in
         (mk_register_page (rp_username p) (rp_email p) (rp_password p) (rp_confirm p) (rp_showPassword p)
            (rp_showConfirm p) (rp_terms p) msg false, s').
End RegisterPage.

Record register_view : Type := mk_register_view {
  rv_error : option string; rv_password_types : string * string; rv_button : string; rv_disabled : bool;
  rv_links : list string }.

(** Lines 48-211 *)
Definition render_register (p : register_page) : register_view :=
  mk_register_view (if String.eqb (rp_error p) "" then None else Some (rp_error p))
    (if rp_showPassword p then "text" else "password", if rp_showConfirm p then "text" else "password")
    (if rp_isLoading p then "Creating account..." else "Create account") (rp_isLoading p)
    ["/terms"; "/privacy"; "/auth/login"].

(** ** The fill-in check behind the browser's *)

(** The browser's validation makes the pages' "Please fill in all
    fields" branch unreachable: a submission either is blocked or reaches
    the provider, and the message shown is the provider's. *)
Lemma login_page_fill_message_unreachable jwtDecode p s :
  lp_error (login_page_submit jwtDecode p s).1 <> lp_error p ->
  lp_error (login_page_submit jwtDecode p s).1 <> "Please fill in all fields".
Proof.
  unfold login_page_submit, login_form_valid. destruct (html_email_valid (lp_email p)) eqn:He; simpl; [|done].
  destruct (String.eqb (lp_password p) "") eqn:Hp; simpl; [done|]. intros _.
  assert (Hne : String.eqb (lp_email p) "" = false).
  { destruct (String.eqb_spec (lp_email p) "") as [E|]; [|done]. by rewrite E in He. }
  unfold login_submit. rewrite Hne, Hp. simpl.
  destruct (provider_login jwtDecode _ _ _) as [s' [|m]] eqn:E; simpl; [done|].
  unfold provider_login, provider_call in E. simpl in E. destruct (jwtDecode mock_token); simplify_eq; discriminate.
Qed.
