(* ===== verification/ProblemDetail.v ===== *)
(** * The problem page and its mock judge (src/src/pages/ProblemDetailPage.tsx)

    The page looks the problem up by the route's [id], keeps nine
    [useState] hooks and a pending [setTimeout] (the judge's answer,
    2 s after a submission), and renders the header, the statement and
    the last result.  [Math.random()] is an input: a quotient [num / den]
    in [[0, 1)], so [Math.floor(Math.random() * n)] is [num * n / den].
    The judge never looks at the code: [judge_refines] shows it is the
    abstract judge [judge_spec], any status and figures in range, and
    that every such answer can occur. *)

From S2P Require Import Prelude Codec JsNumber ProblemsData ProblemsPage.
From stdpp Require Import relations.

(** Line 25: [type Language] *)
Inductive language : Type := Python | JavaScript | Cpp.
(** Line 26: [type SubmissionStatus] without [null] *)
Inductive submission_status : Type := Accepted | WrongAnswer | TimeLimitExceeded | RuntimeError.

#[global] Instance language_eq_dec : EqDecision language.
Proof. solve_decision. Defined.
#[global] Instance submission_status_eq_dec : EqDecision submission_status.
Proof. solve_decision. Defined.

(** Lines 28-33: [interface SubmissionResult]; a status read out of the
    array's range would be [undefined], hence the [option]. *)
Record SubmissionResult : Type := mk_result {
  sr_status : option submission_status;
  runtime : string;
  memory : string;
  message : option string }.

Inductive detail_tab : Type := DescriptionTab | SubmissionsTab.

(** Lines 40-48, and the timer [handleSubmit] leaves pending with the
    language it captured. *)
Record detail : Type := mk_detail {
  selectedLanguage : language;
  code : string;
  activeTab : detail_tab;
  isSubmitting : bool;
  submissionResult : option SubmissionResult;
  isFullscreen : bool;
  fontSize : Z;
  showAIAssistant : bool;
  showCollaboration : bool;
  pending_judge : option language }.

(** Line 38: [problems.find(p => p.id === id)] *)
Definition find_problem (id : string) : option problem := List.find (fun p => String.eqb (p_id p) id) problems.

(** [problem.solutionTemplate[language]] *)
Definition template (p : problem) (l : language) : string :=
  match l with
  | Python => python (p_solutionTemplate p)
  | JavaScript => javascript (p_solutionTemplate p)
  | Cpp => cpp (p_solutionTemplate p)
  end.

(** The state after the first render and the effect of lines 50-55. *)
Definition mount (p : problem) : detail :=
  mk_detail Python (template p Python) DescriptionTab false None false 14 false false None.

(** ** The handlers *)

Definition set_code (c : string) (s : detail) : detail :=
  mk_detail (selectedLanguage s) c (activeTab s) (isSubmitting s) (submissionResult s) (isFullscreen s)
    (fontSize s) (showAIAssistant s) (showCollaboration s) (pending_judge s).

(** Lines 73-77; the effect of lines 50-55 then sets the same code again. *)
Definition handleLanguageChange (p : problem) (l : language) (s : detail) : detail :=
  mk_detail l (template p l) (activeTab s) (isSubmitting s) (submissionResult s) (isFullscreen s)
    (fontSize s) (showAIAssistant s) (showCollaboration s) (pending_judge s).

(** Lines 79-83 *)
Definition handleCodeChange (value : option string) (s : detail) : detail :=
  match value with Some v => set_code v s | None => s end.

(** Line 404: the Reset button. *)
Definition resetCode (p : problem) (s : detail) : detail := set_code (template p (selectedLanguage s)) s.

(** Line 394: the range input ([min="12"], [max="20"]). *)
Definition setFontSize (n : Z) (s : detail) : detail :=
  mk_detail (selectedLanguage s) (code s) (activeTab s) (isSubmitting s) (submissionResult s) (isFullscreen s)
    n (showAIAssistant s) (showCollaboration s) (pending_judge s).

(** Lines 85-88: [handleSubmit] before its timer. *)
Definition handleSubmit (s : detail) : detail :=
  mk_detail (selectedLanguage s) (code s) (activeTab s) true None (isFullscreen s)
    (fontSize s) (showAIAssistant s) (showCollaboration s) (Some (selectedLanguage s)).

(** Line 190: the fullscreen button. *)
Definition toggleFullscreen (s : detail) : detail :=
  mk_detail (selectedLanguage s) (code s) (activeTab s) (isSubmitting s) (submissionResult s)
    (negb (isFullscreen s)) (fontSize s) (showAIAssistant s) (showCollaboration s) (pending_judge s).

(** Lines 196 and 472: the AI Assistant button and the panel's own toggle. *)
Definition toggleAIAssistant (s : detail) : detail :=
  mk_detail (selectedLanguage s) (code s) (activeTab s) (isSubmitting s) (submissionResult s)
    (isFullscreen s) (fontSize s) (negb (showAIAssistant s)) (showCollaboration s) (pending_judge s).

(** Lines 203 and 463: the Collaborate button and the panel's own toggle. *)
Definition toggleCollaboration (s : detail) : detail :=
  mk_detail (selectedLanguage s) (code s) (activeTab s) (isSubmitting s) (submissionResult s)
    (isFullscreen s) (fontSize s) (showAIAssistant s) (negb (showCollaboration s)) (pending_judge s).

(** Lines 227 and 238: the two tabs. *)
Definition setActiveTab (t : detail_tab) (s : detail) : detail :=
  mk_detail (selectedLanguage s) (code s) t (isSubmitting s) (submissionResult s)
    (isFullscreen s) (fontSize s) (showAIAssistant s) (showCollaboration s) (pending_judge s).

(** ** The judge (lines 90-111) *)

(** A value of [Math.random()]: [num / den] with [0 <= num < den]. *)
Record js_random : Type := mk_random { r_num : Z; r_den : Z }.

Definition random_ok (r : js_random) : Prop := (0 <= r_num r < r_den r)%Z.

(** [Math.floor(Math.random() * n)] *)
Definition floor_times (r : js_random) (n : Z) : Z := (r_num r * n / r_den r)%Z.

Definition statuses : list submission_status := [Accepted; WrongAnswer; TimeLimitExceeded; RuntimeError].

Definition runtime_error_message (l : language) : string :=
  "Runtime Error: " ++
  match l with
  | Python => "IndexError: list index out of range"
  | JavaScript => "TypeError: Cannot read property of undefined"
  | Cpp => "Segmentation fault"
  end.

(** [{ ... }[randomStatus] || 'An error occurred during execution.'] *)
Definition failure_message (l : language) (st : option submission_status) : string :=
  match st with
  | Some WrongAnswer => "Your output does not match the expected output for test case #2."
  | Some TimeLimitExceeded => "Your solution exceeded the time limit. Consider optimizing your algorithm."
  | Some RuntimeError => runtime_error_message l
  | _ => "An error occurred during execution."
  end.

Definition judge (l : language) (r1 r2 r3 : js_random) : SubmissionResult :=
  let randomStatus := statuses !! Z.to_nat (floor_times r1 (Z.of_nat (List.length statuses))) in
  mk_result randomStatus
    (z_to_string (floor_times r2 100) ++ " ms")
    (z_to_string (floor_times r3 10 + 1) ++ " MB")
    (if bool_decide (randomStatus = Some Accepted) then None else Some (failure_message l randomStatus)).

(** The timer fires: lines 108-109. *)
Definition judge_fires (r1 r2 r3 : js_random) (s : detail) : detail :=
  match pending_judge s with
  | Some l => mk_detail (selectedLanguage s) (code s) (activeTab s) false (Some (judge l r1 r2 r3))
                (isFullscreen s) (fontSize s) (showAIAssistant s) (showCollaboration s) None
  | None => s
  end.

(** ** What the user and the timer can do *)

Inductive detail_step (p : problem) : detail -> detail -> Prop :=
| ds_language l s : detail_step p s (handleLanguageChange p l s)
| ds_edit v s : detail_step p s (handleCodeChange v s)
| ds_reset s : detail_step p s (resetCode p s)
| ds_font n s : (12 <= n <= 20)%Z -> detail_step p s (setFontSize n s)
| ds_fullscreen s : detail_step p s (toggleFullscreen s)
| ds_ai s : detail_step p s (toggleAIAssistant s)
| ds_collab s : detail_step p s (toggleCollaboration s)
| ds_tab t s : detail_step p s (setActiveTab t s)
(** line 412: the button is [disabled] while a submission runs *)
| ds_submit s : isSubmitting s = false -> detail_step p s (handleSubmit s)
| ds_timer r1 r2 r3 s : random_ok r1 -> random_ok r2 -> random_ok r3 -> is_Some (pending_judge s) ->
    detail_step p s (judge_fires r1 r2 r3 s).

(** ** The header and the result panel *)

(** Line 179: [((accepted / submissions) * 100).toFixed(1)], with no
    guard against zero submissions. *)
Definition detail_acceptance (accepted submissions : Z) : string :=
  (percent_fixed accepted submissions ++ "% acceptance")%string.

(** Line 174 *)
Definition detail_badge (d : difficulty) : string :=
  match d with Easy => "badge-easy" | Medium => "badge-medium" | Hard => "badge-hard" end.

(** Lines 125-138 *)
Definition getStatusText (st : option submission_status) : string :=
  match st with
  | Some Accepted => "Accepted"
  | Some WrongAnswer => "Wrong Answer"
  | Some TimeLimitExceeded => "Time Limit Exceeded"
  | Some RuntimeError => "Runtime Error"
  | None => "Unknown"
  end.

(** Lines 140-153 *)
Definition getStatusBadge (st : option submission_status) : string :=
  match st with
  | Some Accepted => "badge-accepted"
  | Some WrongAnswer => "badge-wrong"
  | Some TimeLimitExceeded => "badge-tle"
  | Some RuntimeError => "badge-runtime-error"
  | None => "badge-wrong"
  end.

(** Lines 168-185: the header's title, badge, acceptance and count. *)
Record header : Type := mk_header { h_title : string; h_badge : string; h_label : string;
                                    h_acceptance : string; h_submissions : string }.

Definition render_header (p : problem) : header :=
  mk_header (p_id p ++ ". " ++ p_title p) (detail_badge (p_difficulty p)) (capitalize (difficulty_name (p_difficulty p)))
    (detail_acceptance (p_acceptedCount p) (p_submissionCount p))
    (z_to_string (p_submissionCount p) ++ " submissions").

(** Line 253: one paragraph per line of the statement. *)
Definition paragraphs (p : problem) : list string := split_on "010"%char (p_description p).

(** Lines 261-317: the examples (the explanation when it is set), the
    constraints and the tags. *)
Record description_view : Type := mk_description_view {
  dv_paragraphs : list string;
  dv_examples : list (string * string * option string);
  dv_constraints : list string;
  dv_tags : list string }.

Definition render_description (p : problem) : description_view :=
  mk_description_view (paragraphs p)
    ((fun e => (ex_input e, ex_output e, ex_explanation e ≫= fun x => if String.eqb x "" then None else Some x))
       <$> p_examples p)
    (p_constraints p) (p_tags p).

(** Lines 114-123: [getStatusIcon] *)
Inductive status_icon : Type := IconCheck | IconClock | IconXCircle.

Definition getStatusIcon (st : option submission_status) : status_icon :=
  match st with Some Accepted => IconCheck | Some TimeLimitExceeded => IconClock | _ => IconXCircle end.

(** Lines 324-364: the result panel, or the placeholder before any result. *)
Inductive result_panel : Type :=
| NoSubmissionsYet
| ResultPanel (success : bool) (icon : status_icon) (text runtime memory : string) (msg : option string).

Definition render_result (r : option SubmissionResult) : result_panel :=
  match r with
  | None => NoSubmissionsYet
  | Some res =>
      ResultPanel (bool_decide (sr_status res = Some Accepted)) (getStatusIcon (sr_status res))
        (getStatusText (sr_status res)) (runtime res) (memory res)
        (message res ≫= fun m => if String.eqb m "" then None else Some m)
  end.

(** Lines 409-425: the submit button's label and [disabled]. *)
Definition submit_button (s : detail) : string * bool :=
  (if isSubmitting s then "Running..." else "Submit", isSubmitting s).

(** Lines 214-455: the two panels, the description or the submissions tab. *)
Inductive tab_view : Type := DescriptionView (d : description_view) | SubmissionsView (r : result_panel).

(** The [value] of a language option (lines 377-385). *)
Definition language_value (l : language) : string :=
  match l with Python => "python" | JavaScript => "javascript" | Cpp => "cpp" end.

(** Lines 377-385: the options of the language select, value and label. *)
Definition language_options : list (language * string) := [(Python, "Python"); (JavaScript, "JavaScript"); (Cpp, "C++")].

(** The editor column as rendered: the select's value, the font size
    slider and its label, and the Monaco [Editor]'s props. *)
Record editor_view : Type := mk_editor_view {
  ev_select : string; ev_slider : Z * Z * Z; ev_font_label : string;
  ev_language : string; ev_value : string; ev_theme : string;
  ev_fontSize : Z; ev_tabSize : Z; ev_wordWrap : string; ev_readOnly : bool }.

(** Lines 375-458 *)
Definition render_editor (s : detail) : editor_view :=
  mk_editor_view (language_value (selectedLanguage s)) (12%Z, 20%Z, fontSize s) (z_to_string (fontSize s) ++ "px")
    (if String.eqb (language_value (selectedLanguage s)) "cpp" then "cpp" else language_value (selectedLanguage s))
    (code s) "vs-dark" (fontSize s) 2%Z "on" false.

(** Lines 468-475: the AI panel's props: [isOpen], [currentCode], [problemId]. *)
Definition assistant_props (p : problem) (s : detail) : bool * string * string :=
  (showAIAssistant s, code s, p_id p).

Record detail_view : Type := mk_detail_view {
  dv_header : header; dv_tab : tab_view; dv_editor : editor_view; dv_submit : string * bool;
  dv_ai : bool * string * string; dv_collab_open : option string }.

Inductive detail_page : Type := ProblemNotFound | DetailView (v : detail_view).

(** Lines 35-478: the page for the route's [id] in state [s]; lines
    57-71 when no problem has that id.  The collaboration panel is
    mounted with room ["problem-123"] when it is shown (lines 460-466). *)
Definition render_detail (id : string) (s : detail) : detail_page :=
  match find_problem id with
  | None => ProblemNotFound
  | Some p =>
      DetailView (mk_detail_view (render_header p)
        (match activeTab s with
         | DescriptionTab => DescriptionView (render_description p)
         | SubmissionsTab => SubmissionsView (render_result (submissionResult s)) end)
        (render_editor s) (submit_button s) (assistant_props p s)
        (if showCollaboration s then Some "problem-123" else None))
  end.

(** ** The abstract judge *)

(** What the mock promises: any of the four verdicts, a runtime below
    100 ms and a memory of 1 to 10 MB, and the verdict's fixed message
    (none for [Accepted]); nothing depends on the submitted code. *)
Definition judge_spec (l : language) (res : SubmissionResult) : Prop :=
  exists st k m,
    sr_status res = Some st /\ (0 <= k < 100)%Z /\ (1 <= m <= 10)%Z /\
    runtime res = (z_to_string k ++ " ms")%string /\ memory res = (z_to_string m ++ " MB")%string /\
    message res = (if bool_decide (st = Accepted) then None else Some (failure_message l (Some st))).

Lemma floor_times_bound r n : random_ok r -> (0 < n)%Z -> (0 <= floor_times r n < n)%Z.
Proof.
  unfold random_ok, floor_times. intros [H0 H1] Hn. split; [apply Z.div_pos; nia|].
  apply Z.div_lt_upper_bound; nia.
Qed.

Lemma floor_times_exact k n : (0 < n)%Z -> floor_times (mk_random k n) n = k.
Proof. intros Hn. unfold floor_times. simpl. by rewrite Z.div_mul by lia. Qed.

Definition status_index (st : submission_status) : Z :=
  match st with Accepted => 0 | WrongAnswer => 1 | TimeLimitExceeded => 2 | RuntimeError => 3 end.

Lemma statuses_lookup k : (0 <= k < 4)%Z ->
  exists st, statuses !! Z.to_nat k = Some st /\ status_index st = k.
Proof.
  intros Hk. assert (k = 0 \/ k = 1 \/ k = 2 \/ k = 3)%Z as [-> | [-> | [-> | ->]]] by lia; eauto.
Qed.

Lemma statuses_index st : statuses !! Z.to_nat (status_index st) = Some st.
Proof. by destruct st. Qed.

(** C11: The mock judge implements the abstract judge: whatever
    [Math.random()] returns, the answer is one [judge_spec] allows (a
    defined verdict, runtime and memory in range, the verdict's message
    for the submission's language); and every answer [judge_spec] allows
    is produced by some values of [Math.random()]. *)
Theorem judge_refines l :
  (forall r1 r2 r3, random_ok r1 -> random_ok r2 -> random_ok r3 -> judge_spec l (judge l r1 r2 r3)) /\
  (forall res, judge_spec l res ->
     exists r1 r2 r3, random_ok r1 /\ random_ok r2 /\ random_ok r3 /\ judge l r1 r2 r3 = res).
Proof.
  split.
  - intros r1 r2 r3 H1 H2 H3.
    destruct (statuses_lookup (floor_times r1 4) (floor_times_bound r1 4 H1 ltac:(lia))) as (st & Hst & _).
    exists st, (floor_times r2 100), (floor_times r3 10 + 1)%Z. unfold judge.
    change (Z.of_nat (List.length statuses)) with 4%Z. rewrite Hst. simpl.
    pose proof (floor_times_bound r2 100 H2 ltac:(lia)). pose proof (floor_times_bound r3 10 H3 ltac:(lia)).
    repeat split; try lia. simpl. by case_bool_decide; case_bool_decide; simplify_eq.
  - intros [st rt mem msg] (st' & k & m & Hst & Hk & Hm & Hrt & Hmem & Hmsg); simpl in *; subst.
    exists (mk_random (status_index st') 4), (mk_random k 100), (mk_random (m - 1) 10).
    split; [unfold random_ok; simpl; destruct st'; simpl; lia|]. split; [unfold random_ok; simpl; lia|].
    split; [unfold random_ok; simpl; lia|].
    unfold judge. change (Z.of_nat (List.length statuses)) with 4%Z.
    rewrite !floor_times_exact by lia. rewrite statuses_index.
    replace (m - 1 + 1)%Z with m by lia. f_equal. by case_bool_decide; case_bool_decide; simplify_eq.
Qed.

(** ** A submission is always answered *)

Definition detail_inv (s : detail) : Prop :=
  (12 <= fontSize s <= 20)%Z /\ (isSubmitting s = true <-> is_Some (pending_judge s)) /\
  (isSubmitting s = true -> submissionResult s = None).

Lemma mount_inv p : detail_inv (mount p).
Proof. repeat split; simpl; try lia; done. Qed.

Lemma detail_step_inv p s s' : detail_step p s s' -> detail_inv s -> detail_inv s'.
Proof.
  intros Hst (Hf & Hp & Hr).
  destruct Hst as [l s|[v|] s|s|n s Hn|s|s|s|t s|s _|r1 r2 r3 s _ _ _ [l Hl]]; unfold detail_inv; simpl;
    try done.
  unfold judge_fires. rewrite Hl. simpl. split; [done|]. split; [|done]. split; [done|intros [? [=]]].
Qed.

Lemma reachable_inv p s : rtc (detail_step p) (mount p) s -> detail_inv s.
Proof.
  intros Hr. assert (H0 := mount_inv p). revert H0.
  induction Hr as [|x y z Hxy _ IH]; intros Hx; [done|]. apply IH. by eapply detail_step_inv.
Qed.

(** C12: On the problem page, whatever the user has done since it opened,
    the font size stays between 12 and 20, and while a submission runs
    its result is cleared and its timer is pending with the language of
    the submission; the timer can always fire, and when it does the page
    stops running and shows the judge's answer for that language. *)
Theorem submission_answered p s :
  rtc (detail_step p) (mount p) s ->
  (12 <= fontSize s <= 20)%Z /\
  (isSubmitting s = true ->
   exists l, pending_judge s = Some l /\ submissionResult s = None /\
   forall r1 r2 r3, random_ok r1 -> random_ok r2 -> random_ok r3 ->
     detail_step p s (judge_fires r1 r2 r3 s) /\ isSubmitting (judge_fires r1 r2 r3 s) = false /\
     submissionResult (judge_fires r1 r2 r3 s) = Some (judge l r1 r2 r3)).
Proof.
  intros Hr. destruct (reachable_inv p s Hr) as (Hf & Hp & Hres). split; [done|].
  intros Hs. destruct (proj1 Hp Hs) as [l Hl]. exists l. split; [done|]. split; [by apply Hres|].
  intros r1 r2 r3 H1 H2 H3. split; [constructor; [done|done|done|by eexists]|].
  unfold judge_fires. by rewrite Hl.
Qed.

(** C17: For a problem with submissions, the page header shows the same
    acceptance figure as the problem list; with none, the list shows
    ["0.0%"] but the header ["NaN% acceptance"]. *)
Theorem acceptance_list_detail a s :
  ((0 < s)%Z -> detail_acceptance a s = (getAcceptanceRate a s ++ "% acceptance")%string) /\
  (getAcceptanceRate 0 0 = "0.0" /\ detail_acceptance 0 0 = "NaN% acceptance").
Proof.
  split; [|split; vm_compute; reflexivity]. intros Hs. unfold detail_acceptance, getAcceptanceRate.
  by rewrite (proj2 (Z.ltb_lt 0 s) Hs).
Qed.

Lemma submission_answered_witness :
  let s := handleSubmit (mount problem_1) in
  rtc (detail_step problem_1) (mount problem_1) s /\ isSubmitting s = true /\
  submissionResult (judge_fires (mk_random 3 4) (mk_random 0 1) (mk_random 0 1) s) =
    Some (judge Python (mk_random 3 4) (mk_random 0 1) (mk_random 0 1)).
Proof.
  assert (Hr : rtc (detail_step problem_1) (mount problem_1) (handleSubmit (mount problem_1)))
    by (apply rtc_once; by constructor).
  split; [exact Hr|]. split; [reflexivity|].
  destruct (submission_answered _ _ Hr) as [_ H]. destruct (H eq_refl) as (l & Hl & _ & Hf).
  simpl in Hl. injection Hl as <-.
  destruct (Hf (mk_random 3 4) (mk_random 0 1) (mk_random 0 1)) as (_ & _ & Hres);
    [unfold random_ok; simpl; lia..|exact Hres].
Defined.

Lemma acceptance_list_detail_witness :
  detail_acceptance 1425 2314 = (getAcceptanceRate 1425 2314 ++ "% acceptance")%string.
Proof. apply (acceptance_list_detail 1425 2314). lia. Defined.
