(* ===== verification/Router.v ===== *)
(** * Routes and navigation (src/src/App.tsx, src/src/components/common/Navbar.tsx)

    [resolve] is React Router's matching of a path against the route
    table of [App]: the path is cut at ["/"], empty segments dropped,
    static segments compared without regard to case (the router's
    default), dynamic segments ([:id], [:username]) taken as they are,
    and anything else falls to [*].  The Navbar's links and its two menu
    flags are modelled with the links each state renders.  The links the
    pages render are checked against the table: rows of the problem list
    and of the leaderboard reach their pages, and four links of the
    client reach no route. *)

From S2P Require Import Prelude ProblemsData ProblemsPage Leaderboard ClientAuth ProblemDetail.

(** The element [Routes] renders for a path. *)
Inductive route_page : Type :=
| HomePage
| ProblemsListPage
| ProblemDetailPage (id : string)
| LeaderboardPage
| ProfilePage (username : string)
| AdminDashboard
| AuthLayoutOnly                  (** ["/auth"]: the layout with an empty outlet *)
| LoginPage
| RegisterPage
| NotFoundPage.

#[global] Instance route_page_eq_dec : EqDecision route_page.
Proof. solve_decision. Defined.

Definition segments (path : string) : list string :=
  List.filter (fun s => negb (String.eqb s "")) (split_on "/" path).

(** A static segment, compared case-insensitively. *)
Definition seg_is (s lit : string) : bool := String.eqb (toLowerCase s) lit.

(** Lines 32-46 *)
Definition resolve (path : string) : route_page :=
  match segments path with
  | [] => HomePage
  | [a] =>
      if seg_is a "problems" then ProblemsListPage
      else if seg_is a "leaderboard" then LeaderboardPage
      else if seg_is a "admin" then AdminDashboard
      else if seg_is a "auth" then AuthLayoutOnly
      else NotFoundPage
  | [a; b] =>
      if seg_is a "problems" then ProblemDetailPage b
      else if seg_is a "profile" then ProfilePage b
      else if seg_is a "auth" then
        (if seg_is b "login" then LoginPage else if seg_is b "register" then RegisterPage else NotFoundPage)
      else NotFoundPage
  | _ => NotFoundPage
  end.

(** ** The Navbar *)

Record nav_state : Type := mk_nav { isMenuOpen : bool; isProfileOpen : bool }.

(** Lines 13-24 *)
Definition toggleMenu (n : nav_state) : nav_state := mk_nav (negb (isMenuOpen n)) (isProfileOpen n).
Definition toggleProfile (n : nav_state) : nav_state := mk_nav (isMenuOpen n) (negb (isProfileOpen n)).
Definition closeMenus (n : nav_state) : nav_state := mk_nav false false.

Definition handleLogout (n : nav_state) (s : auth_state) : nav_state * auth_state := (closeMenus n, logout s).

(** A link: its target and its label. *)
Record nav_link : Type := mk_link { link_to : string; link_label : string }.

(** Lines 39-65: the desktop links; the Admin link only for [role === 'admin']. *)
Definition desktop_links (u : option User) : list nav_link :=
  [mk_link "/" "Dashboard"; mk_link "/problems" "Problems"; mk_link "/leaderboard" "Leaderboard"] ++
  match u with Some usr => if role usr is RoleAdmin then [mk_link "/admin" "Admin"] else [] | None => [] end.

(** Lines 71-126: the right side; the profile menu when it is open. *)
Definition account_links (s : auth_state) (n : nav_state) : list nav_link :=
  if isAuthenticated s then
    if isProfileOpen n then
      [mk_link ("/profile/" ++ default "undefined" (ClientAuth.username <$> user s)) "Profile";
       mk_link "/settings" "Settings"]
    else []
  else [mk_link "/auth/login" "Sign in"; mk_link "/auth/register" "Sign up"].

(** Lines 141-186: the mobile menu when it is open (no Admin link). *)
Definition mobile_links (s : auth_state) (n : nav_state) : list nav_link :=
  if isMenuOpen n then
    [mk_link "/" "Dashboard"; mk_link "/problems" "Problems"; mk_link "/leaderboard" "Leaderboard"] ++
    (if isAuthenticated s then [] else [mk_link "/auth/login" "Sign in"; mk_link "/auth/register" "Sign up"])
  else [].

Definition navbar_links (s : auth_state) (n : nav_state) : list nav_link :=
  desktop_links (user s) ++ account_links s n ++ mobile_links s n.

(** [NavLink]'s [isActive]: the location is the link's path or below
    it, segment by segment; with [end] (the Dashboard link) only the
    path itself. *)
Definition nav_active (to : string) (end_ : bool) (location : string) : bool :=
  let t := segments to in
  let l := segments location in
  if end_ then bool_decide (toLowerCase <$> t = toLowerCase <$> l)
  else bool_decide (toLowerCase <$> t = toLowerCase <$> take (List.length t) l).

(** ** Links against the route table *)

  (** C13: Every row of the problem list links to the problem page of that
      problem, and the page's lookup by the route's [id] finds exactly
      that problem; every row of the leaderboard links to the profile
      route of that user. *)
Theorem row_links_resolve :
  (forall p, p ∈ problems ->
     resolve (row_link (row_of p)) = ProblemDetailPage (p_id p) /\ find_problem (p_id p) = Some p) /\
  (forall e, e ∈ leaderboardData -> resolve (lr_link (row_of_entry e)) = ProfilePage (Leaderboard.username e)).
Proof.
  split.
  - intros p Hp. repeat (apply elem_of_cons in Hp as [->|Hp]; [split; vm_compute; reflexivity|]).
    by apply not_elem_of_nil in Hp.
  - intros e He. repeat (apply elem_of_cons in He as [->|He]; [vm_compute; reflexivity|]).
    by apply not_elem_of_nil in He.
Qed.

  (** The profile menu of every signed-in user offers a Settings link
      that no route matches, and the login and register pages link to
      ["/auth/forgot-password"], ["/privacy"] and ["/terms"], which no
      route matches either: all four show the 404 page. *)
Theorem dead_links s n :
  isAuthenticated s = true -> isProfileOpen n = true ->
  (exists l, l ∈ navbar_links s n /\ link_to l = "/settings" /\ resolve (link_to l) = NotFoundPage) /\
  resolve "/auth/forgot-password" = NotFoundPage /\ resolve "/privacy" = NotFoundPage /\
  resolve "/terms" = NotFoundPage.
Proof.
  intros Ha Hp. split; [|repeat split; reflexivity].
  exists (mk_link "/settings" "Settings"). split; [|split; reflexivity].
  unfold navbar_links, account_links. rewrite Ha, Hp. set_solver.
Qed.

  (** C15: The Admin link is shown exactly to a signed-in administrator, but
      the route table renders the admin dashboard at ["/admin"] for
      anybody, signed in or not. *)
Theorem admin_route_unguarded s :
  (mk_link "/admin" "Admin" ∈ desktop_links (user s) <-> exists u, user s = Some u /\ role u = RoleAdmin) /\
  resolve "/admin" = AdminDashboard.
Proof.
  split; [|reflexivity]. unfold desktop_links.
  destruct (user s) as [[i un em [|]]|]; simpl; split; try set_solver; intros (u & [= <-] & Hr); done.
Qed.

Lemma dead_links_witness :
  let s := mk_auth (Some mock_token) (Some johndoe) false "/problems" in
  (exists l, l ∈ navbar_links s (mk_nav false true) /\ link_to l = "/settings" /\ resolve (link_to l) = NotFoundPage).
Proof. apply (dead_links _ (mk_nav false true)); reflexivity. Defined.
