(* ===== verification/Profile.v ===== *)
(** * The profile page (src/src/pages/ProfilePage.tsx)

    The page reads the route's [:username] and then shows [mockUserData]
    whatever it is: the user card, the statistics, the three difficulty
    bars, the recent submissions with their status labels, and the
    first six problems as recommendations. *)

From S2P Require Import Prelude Codec ProblemsData ProblemsPage Leaderboard ProblemDetail Router.

(** Lines 6-13: [interface SubmissionData] *)
Record SubmissionData : Type := mk_sub {
  problemId : string; problemTitle : string; date : string;
  sub_status : string; sub_language : string; sub_runtime : string }.

Record stats : Type := mk_stats {
  problemsSolved : Z; totalSubmissions : Z; acceptanceRate : Z; streak : Z; ranking : Z; points : Z }.

Record solved_total : Type := mk_st { solved : Z; total : Z }.

Record user_data : Type := mk_user_data {
  ud_username : string; ud_name : string; ud_avatar : string; ud_joined : string;
  ud_location : string; ud_occupation : string; ud_bio : string;
  ud_stats : stats;
  ud_easy : solved_total; ud_medium : solved_total; ud_hard : solved_total;
  ud_github : string; ud_twitter : string; ud_linkedin : string;
  recentSubmissions : list SubmissionData }.

(** Lines 15-82 *)
Definition mockUserData : user_data := {|
  ud_username := "johnDoe";
  ud_name := "John Doe";
  ud_avatar := "https://i.pravatar.cc/150?img=68";
  ud_joined := "March 2023";
  ud_location := "San Francisco, CA";
  ud_occupation := "Software Engineer";
  ud_bio := "Passionate programmer and algorithm enthusiast. I love solving challenging problems and learning new technologies.";
  ud_stats := mk_stats 127 342 78 24 1547 4580;
  ud_easy := mk_st 75 120;
  ud_medium := mk_st 42 180;
  ud_hard := mk_st 10 80;
  ud_github := "https://github.com/johndoe";
  ud_twitter := "https://twitter.com/johndoe";
  ud_linkedin := "https://linkedin.com/in/johndoe";
  recentSubmissions := [
    mk_sub "1" "Two Sum" "2 hours ago" "accepted" "JavaScript" "76 ms";
    mk_sub "3" "Maximum Subarray" "1 day ago" "accepted" "Python" "124 ms";
    mk_sub "5" "Valid Parentheses" "2 days ago" "wrong_answer" "C++" "0 ms";
    mk_sub "2" "Palindrome Checker" "3 days ago" "accepted" "JavaScript" "92 ms";
    mk_sub "8" "Longest Substring Without Repeating Characters" "5 days ago" "time_limit_exceeded" "Python" "0 ms"] |}.

(** Lines 89-102 *)
Definition getStatusColor (status : string) : string :=
  if String.eqb status "accepted" then "text-success-600 dark:text-success-400"
  else if String.eqb status "wrong_answer" then "text-error-600 dark:text-error-400"
  else if String.eqb status "time_limit_exceeded" then "text-warning-600 dark:text-warning-400"
  else if String.eqb status "runtime_error" then "text-error-600 dark:text-error-400"
  else "text-secondary-600 dark:text-secondary-400".

(** Line 347: [status.split('_').map(w => w.charAt(0).toUpperCase() + w.slice(1)).join(' ')] *)
Definition status_label (status : string) : string :=
  String.concat " " (capitalize <$> split_on "_" status).

(** Lines 190, 205, 220: a bar's width, [solved / total * 100] percent, as a quotient. *)
Definition bar_width (st : solved_total) : Z * Z := (solved st * 100, total st)%Z.

(** One line of the recent submissions, lines 336-359. *)
Record submission_row : Type := mk_sub_row {
  sr_href : string; sr_title : string; sr_class : string; sr_label : string;
  sr_lang : string; sr_time : string; sr_date : string }.

Definition render_submission (s : SubmissionData) : submission_row :=
  mk_sub_row ("/problems/" ++ problemId s) (problemTitle s) (getStatusColor (sub_status s))
    (status_label (sub_status s)) (sub_language s) (sub_runtime s) (date s).

(** Line 399: [problem.difficulty === 'easy' ? 'badge-easy' : problem.difficulty === 'medium' ? 'badge-medium' : 'badge-hard'] *)
Definition card_badge_class (d : difficulty) : string :=
  if String.eqb (difficulty_name d) "easy" then "badge-easy"
  else if String.eqb (difficulty_name d) "medium" then "badge-medium" else "badge-hard".

(** Lines 386-405: the first six problems as recommendation cards. *)
Record card : Type := mk_card { card_href : string; card_title : string; card_number : string;
                                card_badge : string; card_label : string }.

Definition render_card (p : problem) : card :=
  mk_card ("/problems/" ++ p_id p) (p_title p) ("Problem #" ++ p_id p)
    ("badge " ++ card_badge_class (p_difficulty p))
    (capitalize (difficulty_name (p_difficulty p))).

(** [{cond && <element/>}] with a string condition: rendered when non-empty. *)
Definition when_set (v : string) : option string := if String.eqb v "" then None else Some v.

(** Lines 104-174: the user card, with its six statistics as label and text. *)
Record user_card : Type := mk_user_card {
  uc_avatar : string; uc_alt : string; uc_name : string; uc_handle : string; uc_joined : string;
  uc_location : option string; uc_occupation : option string; uc_bio : option string;
  uc_stats : list (string * string) }.

Definition render_user_card (ud : user_data) : user_card :=
  let st := ud_stats ud in
  mk_user_card (ud_avatar ud) (ud_username ud) (ud_name ud) ("@" ++ ud_username ud) ("Joined " ++ ud_joined ud)
    (when_set (ud_location ud)) (when_set (ud_occupation ud)) (when_set (ud_bio ud))
    [("Problems Solved", z_to_string (problemsSolved st));
     ("Submissions", z_to_string (totalSubmissions st));
     ("Acceptance Rate", z_to_string (acceptanceRate st) ++ "%");
     ("Daily Streak", z_to_string (streak st) ++ " days");
     ("Ranking", "#" ++ z_to_string (ranking st));
     ("Points", z_to_string (points st))].

(** Lines 176-223: a difficulty's label, its ["solved / total"] text and the bar's width. *)
Definition render_bar (label : string) (st : solved_total) : string * string * (Z * Z) :=
  (label, z_to_string (solved st) ++ " / " ++ z_to_string (total st), bar_width st).

(** Lines 227-262: the social links that are set, with their screen-reader labels. *)
Definition social_links (ud : user_data) : list (string * string) :=
  default [] ((fun h => [(h, "GitHub")]) <$> when_set (ud_github ud)) ++
  default [] ((fun h => [(h, "Twitter")]) <$> when_set (ud_twitter ud)) ++
  default [] ((fun h => [(h, "LinkedIn")]) <$> when_set (ud_linkedin ud)).

(** Lines 266-301: the three summary cards. *)
Definition summary_cards (st : stats) : list (string * string) :=
  [("Problems Solved", z_to_string (problemsSolved st)); ("Global Rank", "#" ++ z_to_string (ranking st));
   ("Current Streak", z_to_string (streak st) ++ " days")].

(** Lines 309-335: the Recent Submissions table's columns. *)
Definition submission_columns : list string := ["Problem"; "Status"; "Language"; "Runtime"; "Submitted"].

(** Lines 360-385: the Solved Problems filter buttons, with whether each
    is drawn as selected; none has an [onClick]. *)
Definition solved_filters : list (string * bool) := [("All", true); ("Easy", false); ("Medium", false); ("Hard", false)].

(** Lines 406-412: the button under the cards, also without a handler. *)
Definition view_all_label : string := "View All Solved Problems".

(** What the page shows. *)
Record profile_view : Type := mk_profile_view {
  pv_card : user_card; pv_bars : list (string * string * (Z * Z)); pv_social : list (string * string);
  pv_summary : list (string * string); pv_columns : list string; pv_submissions : list submission_row;
  pv_filters : list (string * bool); pv_cards : list card; pv_more : string }.

Definition pv_handle (v : profile_view) : string := uc_handle (pv_card v).

(** Lines 85-87 and 104-421: [username] is read and not used. *)
Definition render_profile (username : string) : profile_view :=
  let userData := mockUserData in
  mk_profile_view (render_user_card userData)
    [render_bar "Easy" (ud_easy userData); render_bar "Medium" (ud_medium userData);
     render_bar "Hard" (ud_hard userData)]
    (social_links userData) (summary_cards (ud_stats userData)) submission_columns
    (render_submission <$> recentSubmissions userData) solved_filters (render_card <$> take 6 problems)
    view_all_label.

(** ** Properties *)

(** A link of the page reaches the problem page of a problem of the
    fixture that carries the title the link shows. *)
Definition links_problem (href title : string) : Prop :=
  exists i p, resolve href = ProblemDetailPage i /\ find_problem i = Some p /\ p_title p = title.

Ltac links_problem_tac :=
  do 2 eexists; split; [cbv; reflexivity | split; [cbv; reflexivity | reflexivity]].

  (** The profile page ignores the route's [:username]: every username
      gives the same page, that of [@johnDoe], so each leaderboard row's
      link, which the router sends to the profile of that row's user,
      shows somebody else. *)
Theorem profile_ignores_username :
  (forall u1 u2, render_profile u1 = render_profile u2 /\ pv_handle (render_profile u1) = "@johnDoe") /\
  (forall e, e ∈ leaderboardData ->
     resolve (lr_link (row_of_entry e)) = ProfilePage (Leaderboard.username e) /\
     pv_handle (render_profile (Leaderboard.username e)) <> "@" ++ Leaderboard.username e).
Proof.
  split; [done|]. intros e He.
  repeat (apply elem_of_cons in He as [-> | He]; [split; [vm_compute; reflexivity | discriminate] |]).
  by apply not_elem_of_nil in He.
Qed.

  (** Every recent submission and every recommendation card of the
      profile links to the problem page of a problem of the fixture whose
      title is the one the link shows; the cards are the first six
      problems with their difficulty capitalised as the label. *)
Theorem profile_links_resolve u :
  Forall (fun r => links_problem (sr_href r) (sr_title r)) (pv_submissions (render_profile u)) /\
  Forall (fun c => links_problem (card_href c) (card_title c)) (pv_cards (render_profile u)) /\
  card_label <$> pv_cards (render_profile u) = ["Easy"; "Easy"; "Medium"; "Easy"; "Easy"; "Hard"].
Proof. split; [|split]; [repeat constructor; links_problem_tac .. | vm_compute; reflexivity]. Qed.
