(* ===== verification/Contest.v ===== *)
(** * The contest dashboard (src/src/components/features/ContestDashboard.tsx)

    The dashboard's only state is the selected tab; its contests and
    live leaderboard are fixtures built once, when the component first
    renders, from [Date.now()] at that moment ([t0] below, in
    milliseconds).  What it shows also depends on the time of each
    render ([now]): the countdowns of [formatTimeRemaining].  JavaScript
    dates are integer milliseconds, so [Math.floor(diff / n)] is [Z.div]
    (floor division) and [diff % n] is [Z.rem] (the sign of the
    dividend).  The statuses never change: a contest stays [live] after
    its end. *)

From S2P Require Import Prelude Codec ProblemsPage.

(** Lines 4-15: [interface Contest] *)
Inductive contest_type : Type := Individual | Team.
Inductive contest_status : Type := Upcoming | Live | Ended.
Inductive contest_difficulty : Type := Beginner | Intermediate | Advanced.

#[global] Instance contest_status_eq_dec : EqDecision contest_status.
Proof. solve_decision. Defined.

Record Contest : Type := mk_contest {
  c_id : string; c_title : string; c_type : contest_type; c_status : contest_status;
  startTime : Z;                 (** [Date], as milliseconds since the epoch *)
  duration : Z;                  (** minutes *)
  participants : Z; c_problems : Z; c_difficulty : contest_difficulty; prize : option string }.

(** Lines 17-24: [interface LeaderboardEntry] *)
Record ContestEntry : Type := mk_centry {
  ce_rank : Z; ce_username : string; ce_score : Z; ce_solved : Z; ce_penalty : Z; lastSubmission : Z }.

Definition minute_ms : Z := 60 * 1000.
Definition hour_ms : Z := 60 * 60 * 1000.

(** Lines 28-63: the three contests, for [Date.now() = t0]. *)
Definition contests (t0 : Z) : list Contest :=
  [mk_contest "1" "Weekly Challenge #47" Individual Live (t0 - 30 * 60 * 1000) 120 1247 4 Intermediate None;
   mk_contest "2" "Team Battle: Algorithms" Team Upcoming (t0 + 2 * 60 * 60 * 1000) 180 89 6 Advanced
     (Some "$500 Prize Pool");
   mk_contest "3" "Beginner Bootcamp" Individual Upcoming (t0 + 24 * 60 * 60 * 1000) 90 456 3 Beginner None].

(** Lines 65-71 *)
Definition contest_leaderboard (t0 : Z) : list ContestEntry :=
  [mk_centry 1 "codingmaster" 3847 4 23 t0; mk_centry 2 "algoexpert" 3621 4 45 t0;
   mk_centry 3 "devninja" 3456 3 12 t0; mk_centry 4 "bytewizard" 3234 3 34 t0;
   mk_centry 5 "codegeek" 2987 3 67 t0].

(** Lines 73-82: the component's [getStatusColor]. *)
Definition getContestStatusColor (st : contest_status) : string :=
  match st with
  | Live => "text-success-400 bg-success-900/30 border-success-800/50"
  | Upcoming => "text-warning-400 bg-warning-900/30 border-warning-800/50"
  | Ended => "text-gray-400 bg-gray-900/30 border-gray-800/50"
  end.

(** Lines 84-93 *)
Definition getContestDifficultyColor (d : contest_difficulty) : string :=
  match d with Beginner => "badge-easy" | Intermediate => "badge-medium" | Advanced => "badge-hard" end.

(** Lines 100-101 and 108-109: [Math.floor(diff / 3600000)] and
    [Math.floor((diff % 3600000) / 60000)]. *)
Definition hours_minutes (diff : Z) : Z * Z :=
  (diff / hour_ms, Z.rem diff hour_ms / minute_ms)%Z.

(** Lines 95-114, at time [now]. *)
Definition formatTimeRemaining (now startTime duration : Z) (status : contest_status) : string :=
  match status with
  | Upcoming =>
      let '(hours, minutes) := hours_minutes (startTime - now) in
      "Starts in " ++ z_to_string hours ++ "h " ++ z_to_string minutes ++ "m"
  | Live =>
      let endTime := (startTime + duration * 60 * 1000)%Z in
      let '(hours, minutes) := hours_minutes (endTime - now) in
      z_to_string hours ++ "h " ++ z_to_string minutes ++ "m remaining"
  | Ended => "Ended"
  end.

(** ** The tab and the list *)

Inductive contest_tab : Type := TabUpcoming | TabLive | TabPast.

#[global] Instance contest_tab_eq_dec : EqDecision contest_tab.
Proof. solve_decision. Defined.

(** Line 27: the initial tab. *)
Definition initial_tab : contest_tab := TabLive.

(** Line 161: [setActiveTab(tab)]. *)
Definition setContestTab (t : contest_tab) (_ : contest_tab) : contest_tab := t.

(** Lines 178-182 *)
Definition tab_filter (activeTab : contest_tab) (c : Contest) : bool :=
  match activeTab with
  | TabLive => bool_decide (c_status c = Live)
  | TabUpcoming => bool_decide (c_status c = Upcoming)
  | TabPast => bool_decide (c_status c = Ended)
  end.

(** [String.prototype.toUpperCase] on ASCII. *)
Fixpoint toUpperCase (s : string) : string :=
  match s with EmptyString => EmptyString | String c r => String (upper_char c) (toUpperCase r) end.

(** [status.toUpperCase()] and [contest.difficulty]. *)
Definition status_name (st : contest_status) : string :=
  match st with Upcoming => "upcoming" | Live => "live" | Ended => "ended" end.

Definition difficulty_label (d : contest_difficulty) : string :=
  match d with Beginner => "beginner" | Intermediate => "intermediate" | Advanced => "advanced" end.

Definition type_label (t : contest_type) : string :=
  match t with Individual => "individual" | Team => "team" end.

(** One contest card, lines 184-227. *)
Record contest_card : Type := mk_contest_card {
  cc_title : string; cc_date : string; cc_duration : string; cc_participants : string;
  cc_badge : string; cc_status : string; cc_difficulty_class : string; cc_difficulty : string;
  cc_problems : string; cc_type : string; cc_prize : option string; cc_time : string }.

Section Render.
  (** [Date.prototype.toLocaleDateString()] depends on the locale and the
      time zone; it is a parameter. *)
  Variable toLocaleDateString : Z -> string.

Definition render_contest (now : Z) (c : Contest) : contest_card :=
    mk_contest_card (c_title c) (toLocaleDateString (startTime c)) (z_to_string (duration c) ++ "m")
      (z_to_string (participants c)) ("badge " ++ getContestStatusColor (c_status c))
      (toUpperCase (status_name (c_status c))) (getContestDifficultyColor (c_difficulty c))
      (difficulty_label (c_difficulty c)) (z_to_string (c_problems c) ++ " problems")
      (type_label (c_type c)) (prize c) (formatTimeRemaining now (startTime c) (duration c) (c_status c)).

  (** Lines 116-148: the banner of the first live contest. *)
Definition live_banner (now : Z) (cs : list Contest) : option (string * string * string) :=
    (fun c => (c_title c, formatTimeRemaining now (startTime c) (duration c) (c_status c),
               z_to_string (participants c))) <$> List.find (fun c => bool_decide (c_status c = Live)) cs.

  (** Lines 249-254: the rank bubble's colours. *)
Definition rank_class (rank : Z) : string :=
    if (rank =? 1)%Z then "bg-warning-900/30 text-warning-400"
    else if (rank =? 2)%Z then "bg-gray-700 text-gray-300"
    else if (rank =? 3)%Z then "bg-amber-900/30 text-amber-600"
    else "bg-gray-800 text-gray-400".

  (** Lines 247-275: a leaderboard line and its star (ranks 1 to 3). *)
Definition render_centry (e : ContestEntry) : string * string * string * option string :=
    (rank_class (ce_rank e), ce_username e,
     z_to_string (ce_solved e) ++ " solved • " ++ z_to_string (ce_score e) ++ " pts",
     if (ce_rank e <=? 3)%Z then
       Some (if (ce_rank e =? 1)%Z then "text-warning-400" else if (ce_rank e =? 2)%Z then "text-gray-400"
             else "text-amber-600")
     else None).

  (** The dashboard mounted at [t0], on tab [tab], rendered at [now]. *)
Record dashboard_view : Type := mk_dashboard_view {
    db_banner : option (string * string * string);
    db_tabs : list (string * bool);
    db_cards : list contest_card;
    db_leaderboard : list (string * string * string * option string) }.

Definition render_dashboard (t0 now : Z) (tab : contest_tab) : dashboard_view :=
    mk_dashboard_view (live_banner now (contests t0))
      ((fun t => (match t with TabUpcoming => "Upcoming" | TabLive => "Live" | TabPast => "Past" end,
                  bool_decide (t = tab))) <$> [TabUpcoming; TabLive; TabPast])
      (render_contest now <$> List.filter (tab_filter tab) (contests t0))
      (render_centry <$> contest_leaderboard t0).
End Render.

(** ** The countdown *)

Lemma hours_minutes_nonneg d :
  (0 <= d)%Z ->
  (0 <= (hours_minutes d).2 < 60)%Z /\ ((hours_minutes d).1 * 60 + (hours_minutes d).2 = d / minute_ms)%Z.
Proof.
  intros Hd. unfold hours_minutes, hour_ms, minute_ms; cbn [fst snd].
  rewrite Z.rem_mod_nonneg by lia.
  pose proof (Z.mod_pos_bound d (60 * 60 * 1000) ltac:(lia)) as Hr.
  assert (Hq : (d / (60 * 1000) = d / (60 * 60 * 1000) * 60 + d mod (60 * 60 * 1000) / (60 * 1000))%Z).
  { rewrite (Z.div_mod d (60 * 60 * 1000)) at 1 by lia.
    replace (60 * 60 * 1000 * (d / (60 * 60 * 1000)))%Z with ((d / (60 * 60 * 1000) * 60) * (60 * 1000))%Z
      by lia.
    by rewrite Z.div_add_l by lia. }
  split; [split; [apply Z.div_pos | apply Z.div_lt_upper_bound]; lia | lia].
Qed.

Lemma hours_minutes_neg d :
  (d < 0)%Z -> ((hours_minutes d).1 < 0 /\ -60 <= (hours_minutes d).2 <= 0)%Z.
Proof.
  intros Hd. unfold hours_minutes, hour_ms, minute_ms; cbn [fst snd].
  assert (Hr : (- (60 * 60 * 1000) < Z.rem d (60 * 60 * 1000) <= 0)%Z).
  { pose proof (Z.rem_bound_pos (- d) (60 * 60 * 1000) ltac:(lia) ltac:(lia)) as H.
    rewrite Z.rem_opp_l in H by lia. lia. }
  split; [apply Z.div_lt_upper_bound; lia|].
  split; [apply Z.div_le_lower_bound; lia | apply Z.div_le_upper_bound; lia].
Qed.

  (** C20: The countdown of a live contest, rendered at any time [now],
      reads ["<h>h <m>m remaining"]: until the contest's end [h] hours
      and [m] minutes (0 to 59) are exactly the whole minutes left; after
      its end the numbers are negative (JavaScript's [%] keeps the sign
      of the dividend), so the page never shows that the contest ended.
      The same holds of an upcoming contest's ["Starts in"]. *)
Theorem countdown_spec now start dur :
  forall st, st <> Ended ->
  let diff := (match st with Upcoming => start - now | _ => start + dur * 60 * 1000 - now end)%Z in
  exists h m,
    formatTimeRemaining now start dur st =
      (if bool_decide (st = Upcoming) then "Starts in " else "") ++ z_to_string h ++ "h " ++ z_to_string m ++
      (if bool_decide (st = Upcoming) then "m" else "m remaining") /\
    ((0 <= diff)%Z -> (0 <= m < 60)%Z /\ (h * 60 + m = diff / minute_ms)%Z) /\
    ((diff < 0)%Z -> (h < 0)%Z /\ (-60 <= m <= 0)%Z).
Proof.
  intros st Hst diff. exists (hours_minutes diff).1, (hours_minutes diff).2.
  split; [|split; [apply hours_minutes_nonneg | apply hours_minutes_neg]].
  destruct st; [reflexivity|reflexivity|done].
Qed.

Lemma countdown_spec_witness :
  formatTimeRemaining (30 * 60 * 1000) 0 120 Live = "1h 30m remaining" /\
  let diff := (0 + 120 * 60 * 1000 - 30 * 60 * 1000)%Z in
  exists h m,
    formatTimeRemaining (30 * 60 * 1000) 0 120 Live =
      (if bool_decide (Live = Upcoming) then "Starts in " else "") ++ z_to_string h ++ "h " ++ z_to_string m ++
      (if bool_decide (Live = Upcoming) then "m" else "m remaining") /\
    ((0 <= diff)%Z -> (0 <= m < 60)%Z /\ (h * 60 + m = diff / minute_ms)%Z) /\
    ((diff < 0)%Z -> (h < 0)%Z /\ (-60 <= m <= 0)%Z).
Proof. split; [vm_compute; reflexivity|]. apply (countdown_spec (30 * 60 * 1000) 0 120 Live). discriminate. Defined.

(** C21: The statuses are fixed when the dashboard mounts: at any time
      after the live contest's end (90 minutes after mounting), the banner
      still shows it with a negative countdown such as ["-1h -2m
      remaining"], and the Past tab shows no contest. *)
Theorem stale_live_banner toLocaleDateString t0 now tab :
  (t0 + 90 * 60 * 1000 < now)%Z ->
  exists h m,
    db_banner (render_dashboard toLocaleDateString t0 now tab) =
      Some ("Weekly Challenge #47", z_to_string h ++ "h " ++ z_to_string m ++ "m remaining", "1247") /\
    (h < 0)%Z /\ (-60 <= m <= 0)%Z /\
    db_cards (render_dashboard toLocaleDateString t0 now TabPast) = [].
Proof.
  intros Hnow. set (d := (t0 - 30 * 60 * 1000 + 120 * 60 * 1000 - now)%Z).
  exists (hours_minutes d).1, (hours_minutes d).2.
  split; [reflexivity|]. split; [|split; [|reflexivity]]; apply hours_minutes_neg; lia.
Qed.

Lemma stale_live_banner_witness :
  db_banner (render_dashboard (fun _ => "1/1/2025") 0 (90 * 60 * 1000 + 90 * 1000) TabLive) =
    Some ("Weekly Challenge #47", "-1h -2m remaining", "1247") /\
  exists h m,
    db_banner (render_dashboard (fun _ => "1/1/2025") 0 (90 * 60 * 1000 + 90 * 1000) TabLive) =
      Some ("Weekly Challenge #47", z_to_string h ++ "h " ++ z_to_string m ++ "m remaining", "1247") /\
    (h < 0)%Z /\ (-60 <= m <= 0)%Z /\
    db_cards (render_dashboard (fun _ => "1/1/2025") 0 (90 * 60 * 1000 + 90 * 1000) TabPast) = [].
Proof. split; [vm_compute; reflexivity|]. apply stale_live_banner. lia. Defined.
