(* ===== verification/Assistant.v ===== *)
(** * The AI assistant panel (src/src/components/features/AIAssistant.tsx)

    The panel keeps four [useState] hooks (the messages, the input, the
    loading flag, the minimised flag) and, after a message is sent, a
    pending [setTimeout] whose closure captured the input and the code of
    that render.  The answer is canned: [generateAIResponse] picks one of
    five texts by keywords and [detectCategory] labels it, each with its
    own keyword list.  The panel's [isOpen] is the problem page's
    [showAIAssistant] (ProblemDetail.toggleAIAssistant); it is part of
    the state here because it decides which controls can be used.
    [Date.now()] is an input of the steps that read it. *)

From S2P Require Import Prelude Codec.
From stdpp Require Import relations.

(** Lines 4-10: [interface Message] *)
Inductive message_type : Type := UserMsg | AiMsg.
Inductive category : Type := Hint | Optimization | Explanation | Debug.

#[global] Instance message_type_eq_dec : EqDecision message_type.
Proof. solve_decision. Defined.
#[global] Instance category_eq_dec : EqDecision category.
Proof. solve_decision. Defined.

Record Message : Type := mk_message {
  msg_id : string; msg_type : message_type; content : string; timestamp : Z; msg_category : option category }.

(** Lines 79-95: the five canned answers. *)
Definition hint_text : string :=
  "Here's a hint: Try thinking about this problem step by step. Consider what data structure would be most efficient for the operations you need to perform. Would a hash map help you achieve O(1) lookups?".
Definition optimize_text : string :=
  "I notice your current approach has O(n²) time complexity. You could optimize this to O(n) by using a hash map to store previously seen values. This would eliminate the need for the nested loop.".
Definition debug_text : string :=
  "I can see a potential issue in your code. Check your loop boundaries - you might be accessing an array index that's out of bounds. Also, make sure you're handling edge cases like empty inputs.".
Definition explain_text : string :=
  "This problem can be solved using the two-pointer technique. The idea is to use two pointers starting from opposite ends of the array and move them towards each other based on certain conditions. This approach is efficient and elegant for many array problems.".
Definition fallback_text : string :=
  "I understand you're working on this problem. Could you be more specific about what you'd like help with? I can provide hints, help with debugging, explain algorithms, or suggest optimizations.".

(** Lines 76-96; the code argument is not read. *)
Definition generateAIResponse (userInput code : string) : string :=
  let input := toLowerCase userInput in
  if includes input "hint" || includes input "help" then hint_text
  else if includes input "optimize" || includes input "performance" then optimize_text
  else if includes input "debug" || includes input "error" then debug_text
  else if includes input "explain" || includes input "algorithm" then explain_text
  else fallback_text.

(** Lines 98-104 *)
Definition detectCategory (input : string) : category :=
  let inputLower := toLowerCase input in
  if includes inputLower "hint" then Hint
  else if includes inputLower "optimize" || includes inputLower "performance" then Optimization
  else if includes inputLower "debug" || includes inputLower "error" then Debug
  else Explanation.

(** Lines 119-124: the quick actions' labels and the input they set. *)
Definition quickActions : list (string * string) :=
  [("Give me a hint", "Can you give me a hint for this problem?");
   ("Optimize my code", "How can I optimize my current code?");
   ("Debug help", "Help me debug this code");
   ("Explain algorithm", "Explain the best algorithm for this problem")].

(** Lines 25-33: the greeting, stamped when the panel mounts. *)
Definition welcome (t0 : Z) : Message :=
  mk_message "1" AiMsg
    "Hi! I'm your AI coding assistant. I can help you with hints, code optimization, debugging, and explanations. What would you like to work on?"
    t0 (Some Explanation).

(** The panel's state; [pending] is the timer's closure: the input and
    the code it captured. *)
Record assistant : Type := mk_assistant {
  messages : list Message;
  inputValue : string;
  isLoading : bool;
  isMinimized : bool;
  isOpen : bool;
  pending : option (string * string) }.

Definition mount_assistant (t0 : Z) (open : bool) : assistant :=
  mk_assistant [welcome t0] "" false false open None.

(** Line 233 and the quick actions (line 218): [setInputValue]. *)
Definition setInputValue (v : string) (s : assistant) : assistant :=
  mk_assistant (messages s) v (isLoading s) (isMinimized s) (isOpen s) (pending s).

(** Line 146 *)
Definition toggleMinimized (s : assistant) : assistant :=
  mk_assistant (messages s) (inputValue s) (isLoading s) (negb (isMinimized s)) (isOpen s) (pending s).

(** Line 152 ([onToggle]) and the page's AI Assistant button. *)
Definition onToggle (s : assistant) : assistant :=
  mk_assistant (messages s) (inputValue s) (isLoading s) (isMinimized s) (negb (isOpen s)) (pending s).

(** Lines 47-60: at time [now], with the page's [currentCode]. *)
Definition handleSendMessage (now : Z) (currentCode : string) (s : assistant) : assistant :=
  if String.eqb (trim (inputValue s)) "" then s
  else mk_assistant (messages s ++ [mk_message (z_to_string now) UserMsg (inputValue s) now None]) ""
         true (isMinimized s) (isOpen s) (Some (inputValue s, currentCode)).

(** Lines 62-73: the timer fires at time [now]. *)
Definition reply (now : Z) (input code : string) : Message :=
  mk_message (z_to_string (now + 1)) AiMsg (generateAIResponse input code) now (Some (detectCategory input)).

Definition timer_fires (now : Z) (s : assistant) : assistant :=
  match pending s with
  | Some (input, code) =>
      mk_assistant (messages s ++ [reply now input code]) (inputValue s) false (isMinimized s) (isOpen s) None
  | None => s
  end.

(** What can happen, with the conditions under which the control is
    rendered and enabled: the input (line 237) and the send button (line
    241) are disabled while loading; the quick actions are not. *)
Definition controls_shown (s : assistant) : bool := isOpen s && negb (isMinimized s).

Inductive assistant_step : assistant -> assistant -> Prop :=
| as_type v s : controls_shown s = true -> isLoading s = false -> assistant_step s (setInputValue v s)
| as_quick l v s : controls_shown s = true -> (l, v) ∈ quickActions -> assistant_step s (setInputValue v s)
| as_minimize s : isOpen s = true -> assistant_step s (toggleMinimized s)
| as_toggle s : assistant_step s (onToggle s)
| as_send now code s : controls_shown s = true -> isLoading s = false ->
    assistant_step s (handleSendMessage now code s)
| as_timer now s : is_Some (pending s) -> assistant_step s (timer_fires now s).

(** ** Rendering *)

(** Lines 106-117 *)
Inductive category_icon : Type := IconLightbulb | IconZap | IconCode | IconBot.

Definition getCategoryIcon (c : option category) : category_icon :=
  match c with Some Hint => IconLightbulb | Some Optimization => IconZap | Some Debug => IconCode | _ => IconBot end.

Definition category_name (c : category) : string :=
  match c with Hint => "hint" | Optimization => "optimization" | Explanation => "explanation" | Debug => "debug" end.

(** Lines 164-193: a bubble; an answer carries its icon and label. *)
Definition render_message (m : Message) : bool * option (category_icon * string) * string :=
  (bool_decide (msg_type m = UserMsg),
   if bool_decide (msg_type m = AiMsg) then Some (getCategoryIcon (msg_category m), default "assistant" (category_name <$> msg_category m))
   else None,
   content m).

(** Lines 126-252: nothing when closed; the header only when minimised. *)
Record assistant_view : Type := mk_assistant_view {
  av_bubbles : list (bool * option (category_icon * string) * string);
  av_thinking : bool; av_quick : list string; av_input : string; av_input_disabled : bool;
  av_send_disabled : bool }.

Definition render_assistant (s : assistant) : option (option assistant_view) :=
  if isOpen s then
    Some (if isMinimized s then None
          else Some (mk_assistant_view (render_message <$> messages s) (isLoading s) (fst <$> quickActions)
                       (inputValue s) (isLoading s) (String.eqb (trim (inputValue s)) "" || isLoading s)))
  else None.

(** ** The answer and its label *)

(** The answers that fit a category's label: ["explanation"] labels both
    the explanation and the fallback. *)
Definition category_answers (c : category) : list string :=
  match c with
  | Hint => [hint_text]
  | Optimization => [optimize_text]
  | Debug => [debug_text]
  | Explanation => [explain_text; fallback_text]
  end.

Lemma elem_of_string_list (x : string) (l : list string) : x ∈ l <-> existsb (String.eqb x) l = true.
Proof.
  induction l as [|y l IH]; simpl; [split; [by intros ?%not_elem_of_nil | done]|].
  rewrite elem_of_cons, orb_true_iff, String.eqb_eq. naive_solver.
Qed.

  (** C22: An answer carries the label of its kind exactly when the
      question does not say "help" without saying "hint": [generateAIResponse]
      treats "help" as a request for a hint, [detectCategory] does not, so
      the quick action "Debug help" is answered with the hint, labelled
      [debug]. *)
Theorem answer_matches_category input code :
  generateAIResponse input code ∈ category_answers (detectCategory input) <->
  (includes (toLowerCase input) "help" = true -> includes (toLowerCase input) "hint" = true).
Proof.
  rewrite elem_of_string_list. unfold generateAIResponse, detectCategory. cbv zeta.
  destruct (includes (toLowerCase input) "hint"), (includes (toLowerCase input) "help"),
    (includes (toLowerCase input) "optimize"), (includes (toLowerCase input) "performance"),
    (includes (toLowerCase input) "debug"), (includes (toLowerCase input) "error"),
    (includes (toLowerCase input) "explain"), (includes (toLowerCase input) "algorithm");
    vm_compute; intuition congruence.
Qed.

(** ** Every question is answered, in order *)

(** The conversation after the greeting: each question followed by the
    answer to its own text (for the code and time of its timer). *)
Inductive answered : list Message -> Prop :=
| ans_nil : answered []
| ans_pair u t code rest :
    msg_type u = UserMsg -> answered rest -> answered (u :: reply t (content u) code :: rest).

Lemma answered_snoc done u t code :
  answered done -> msg_type u = UserMsg -> answered (done ++ [u; reply t (content u) code]).
Proof.
  induction 1 as [|u' t' c' rest Hu' _ IH]; intros Hu; simpl; [by repeat constructor|].
  constructor; [done|]. by apply IH.
Qed.

Definition assistant_inv (t0 : Z) (s : assistant) : Prop :=
  exists rest, messages s = welcome t0 :: rest /\
  match pending s with
  | None => isLoading s = false /\ answered rest
  | Some (inp, code) =>
      isLoading s = true /\ exists done u, rest = done ++ [u] /\ answered done /\ msg_type u = UserMsg /\
                           content u = inp
  end.

Lemma assistant_step_inv t0 s s' : assistant_step s s' -> assistant_inv t0 s -> assistant_inv t0 s'.
Proof.
  intros Hst (rest & Hm & Hp).
  destruct Hst as [v s _ _|l v s _ _|s _|s|now code s _ Hl|now s [[inp code] Hs]];
    try exact (ex_intro _ rest (conj Hm Hp)).
  - unfold handleSendMessage. destruct (String.eqb (trim (inputValue s)) ""); [by exists rest|].
    revert Hp; destruct (pending s) as [[? ?]|]; intros Hp; [destruct Hp as [Hl2 _]; congruence|]. destruct Hp as [_ Hr].
    exists (rest ++ [mk_message (z_to_string now) UserMsg (inputValue s) now None]); simpl.
    rewrite Hm. split; [done|]. split; [done|]. eexists _, _. by repeat split.
  - unfold timer_fires. rewrite Hs in Hp |- *. destruct Hp as (_ & done & u & -> & Hd & Hu & <-).
    exists (done ++ [u; reply now (content u) code]). simpl.
    split; [rewrite Hm; simpl; by rewrite <- app_assoc|]. split; [done|]. by apply answered_snoc.
Qed.

  (** C19: From the moment the panel mounts, whatever the user does
      (typing, quick actions, sending, minimising, closing and reopening
      the panel) and whenever the timers fire, the conversation is the
      greeting followed by questions each answered by the reply to its own
      text, except a last question whose reply is pending; the panel shows
      the loading state exactly then, and the timer can always fire,
      appending that reply and ending the loading state. *)
Theorem assistant_session t0 open s :
  rtc assistant_step (mount_assistant t0 open) s ->
  exists rest, messages s = welcome t0 :: rest /\
  (pending s = None -> isLoading s = false /\ answered rest) /\
  (forall inp code, pending s = Some (inp, code) ->
     isLoading s = true /\
     exists done u, rest = done ++ [u] /\ answered done /\ msg_type u = UserMsg /\ content u = inp /\
     forall now, assistant_step s (timer_fires now s) /\ isLoading (timer_fires now s) = false /\
                 messages (timer_fires now s) = welcome t0 :: done ++ [u; reply now inp code]).
Proof.
  intros Hr. assert (Hinv : assistant_inv t0 s).
  { assert (H0 : assistant_inv t0 (mount_assistant t0 open)) by (exists []; repeat constructor).
    revert H0. induction Hr as [|x y z Hxy _ IH]; intros Hx; [done|]. apply IH.
    by eapply assistant_step_inv. }
  destruct Hinv as (rest & Hm & Hp). exists rest. split; [done|]. split.
  - intros Hn. by rewrite Hn in Hp.
  - intros inp code Hs. rewrite Hs in Hp. destruct Hp as (Hl & done & u & Hrest & Hd & Hu & Hc).
    split; [done|]. exists done, u. repeat split; try done.
    + constructor. by rewrite Hs.
    + unfold timer_fires. by rewrite Hs.
    + unfold timer_fires. rewrite Hs. simpl. rewrite Hm, Hrest; simpl; by rewrite <- app_assoc.
Qed.

Lemma answer_matches_category_witness :
  let q := "Help me debug this code" in
  ("Debug help", q) ∈ quickActions /\ generateAIResponse q "" = hint_text /\ detectCategory q = Debug /\
  ~ (generateAIResponse q "" ∈ category_answers (detectCategory q)).
Proof.
  split; [apply list_elem_of_In; simpl; tauto|]. split; [reflexivity|]. split; [reflexivity|].
  rewrite (answer_matches_category "Help me debug this code" ""). vm_compute. intros H. discriminate (H eq_refl).
Defined.

Lemma assistant_session_witness :
  let q := "Help me debug this code" in
  let s := handleSendMessage 10 "" (setInputValue q (mount_assistant 0 true)) in
  rtc assistant_step (mount_assistant 0 true) s /\ isLoading s = true /\ isLoading (timer_fires 1510 s) = false /\
  messages (timer_fires 1510 s) = [welcome 0; mk_message "10" UserMsg q 10 None; reply 1510 q ""] /\
  content (reply 1510 q "") = hint_text /\ msg_category (reply 1510 q "") = Some Debug.
Proof.
  assert (Hr : rtc assistant_step (mount_assistant 0 true)
                 (handleSendMessage 10 "" (setInputValue "Help me debug this code" (mount_assistant 0 true)))).
  { eapply rtc_l; [apply (as_quick "Debug help"); [reflexivity | apply list_elem_of_In; simpl; tauto]|].
    eapply rtc_l; [apply as_send; reflexivity|]. apply rtc_refl. }
  destruct (assistant_session 0 true _ Hr) as (rest & _ & _ & Hp).
  destruct (Hp "Help me debug this code" "" eq_refl) as (Hl & dn & u & _ & _ & _ & _ & Hf).
  destruct (Hf 1510%Z) as (_ & Hl' & _).
  split; [exact Hr|]. split; [exact Hl|]. split; [exact Hl'|]. split; [|split]; vm_compute; reflexivity.
Defined.
