(* ===== verification/Collab.v ===== *)
(** * The collaboration panel (src/src/components/features/CollaborationPanel.tsx)

    The panel keeps six [useState] hooks: the participants (never
    changed), the video, audio and chat toggles, the chat and the message
    being typed.  The problem page mounts it only while its
    [showCollaboration] flag is set (ProblemDetailPage.tsx lines 460-466),
    so closing the panel unmounts it and reopening it starts from the
    initial state again; the page and its panel are modelled together to
    show it.  [Date.now()] is an input of the steps that read it. *)

From S2P Require Import Prelude Codec ProblemsData ProblemDetail Router.

(** Lines 4-11: [interface Participant] *)
Inductive participant_role : Type := Host | Participant.

#[global] Instance participant_role_eq_dec : EqDecision participant_role.
Proof. solve_decision. Defined.

Record cursor : Type := mk_cursor { line : Z; column : Z }.

Record participant : Type := mk_participant {
  pt_id : string; pt_username : string; pt_avatar : string; pt_role : participant_role;
  isOnline : bool; pt_cursor : option cursor }.

(** Lines 24-48 *)
Definition initial_participants : list participant :=
  [mk_participant "1" "john_doe" "https://i.pravatar.cc/150?img=1" Host true (Some (mk_cursor 15 8));
   mk_participant "2" "alice_dev" "https://i.pravatar.cc/150?img=2" Participant true (Some (mk_cursor 23 12));
   mk_participant "3" "bob_coder" "https://i.pravatar.cc/150?img=3" Participant false None].

Record chat_message : Type := mk_chat { cm_id : string; cm_username : string; cm_message : string; cm_timestamp : Z }.

(** Lines 52-55, stamped when the panel mounts. *)
Definition initial_chat (t0 : Z) : list chat_message :=
  [mk_chat "1" "alice_dev" "I think we should use a hash map here" t0;
   mk_chat "2" "john_doe" "Good idea! That would optimize the lookup time" t0].

Record collab : Type := mk_collab {
  participants : list participant;
  isVideoOn : bool;
  isAudioOn : bool;
  chatMessages : list chat_message;
  newMessage : string;
  showChat : bool }.

(** Lines 24-57: the state of a freshly mounted panel. *)
Definition mount_collab (t0 : Z) : collab := mk_collab initial_participants false false (initial_chat t0) "" false.

(** Line 160 *)
Definition toggleVideo (c : collab) : collab :=
  mk_collab (participants c) (negb (isVideoOn c)) (isAudioOn c) (chatMessages c) (newMessage c) (showChat c).

(** Line 171 *)
Definition toggleAudio (c : collab) : collab :=
  mk_collab (participants c) (isVideoOn c) (negb (isAudioOn c)) (chatMessages c) (newMessage c) (showChat c).

(** Line 182 *)
Definition toggleChat (c : collab) : collab :=
  mk_collab (participants c) (isVideoOn c) (isAudioOn c) (chatMessages c) (newMessage c) (negb (showChat c)).

(** Line 219 *)
Definition setNewMessage (v : string) (c : collab) : collab :=
  mk_collab (participants c) (isVideoOn c) (isAudioOn c) (chatMessages c) v (showChat c).

(** Lines 59-71, at time [now]. *)
Definition collabSendMessage (now : Z) (c : collab) : collab :=
  if String.eqb (trim (newMessage c)) "" then c
  else mk_collab (participants c) (isVideoOn c) (isAudioOn c)
         (chatMessages c ++ [mk_chat (z_to_string now) "current_user" (newMessage c) now]) "" (showChat c).

(** Lines 73-76: the text put on the clipboard, for the page's [origin]. *)
Definition copyRoomLink (origin roomId : string) : string := origin ++ "/collaborate/" ++ roomId.

(** ** Rendering *)

(** Lines 122-151: a participant's name, status dot, crown and cursor. *)
Definition render_participant (p : participant) : string * string * bool * option string :=
  (pt_username p, if isOnline p then "bg-success-500" else "bg-gray-500",
   bool_decide (pt_role p = Host),
   match pt_cursor p with
   | Some cur => if isOnline p then Some ("Line " ++ z_to_string (line cur) ++ ":" ++ z_to_string (column cur))
                 else None
   | None => None
   end).

Record collab_view : Type := mk_collab_view {
  cv_roomId : string; cv_count : string; cv_participants : list (string * string * bool * option string);
  cv_chat : option (list (string * string)); cv_send_disabled : bool }.

(** Lines 78-236: nothing when closed; the chat only when [showChat]. *)
Definition render_collab (isOpen : bool) (roomId : string) (c : collab) : option collab_view :=
  if isOpen then
    Some (mk_collab_view roomId ("Participants (" ++ z_to_string (Z.of_nat (List.length (participants c))) ++ ")")
            (render_participant <$> participants c)
            (if showChat c then Some ((fun m => (cm_username m, cm_message m)) <$> chatMessages c) else None)
            (String.eqb (trim (newMessage c)) ""))
  else None.

(** ** The problem page with its panel *)

(** The page's state and the panel's, which exists while it is mounted. *)
Record page_with_panel : Type := mk_pwp { pw_detail : detail; pw_panel : option collab }.

(** Lines 203 and 463 with lines 460-466: the flag flips; showing the
    panel mounts a fresh one at time [now], hiding it unmounts it. *)
Definition toggle_panel (now : Z) (w : page_with_panel) : page_with_panel :=
  let d := toggleCollaboration (pw_detail w) in
  mk_pwp d (if showCollaboration d then Some (mount_collab now) else None).

(** An event inside the mounted panel. *)
Definition in_panel (f : collab -> collab) (w : page_with_panel) : page_with_panel :=
  mk_pwp (pw_detail w) (f <$> pw_panel w).

(** Line 464: the room of every problem page. *)
Definition page_roomId : string := "problem-123".

(** ** Properties *)

  (** C23: A chat message sent in the collaboration panel is lost when the
      panel is closed: closing unmounts the panel and reopening mounts a
      fresh one with only the two initial messages.  The room link the
      Share button copies, [/collaborate/problem-123] on every problem
      page, reaches no route. *)
Theorem collab_chat_lost w c m t1 t2 t3 :
  showCollaboration (pw_detail w) = true -> pw_panel w = Some c -> trim m <> "" ->
  let w1 := in_panel (collabSendMessage t1) (in_panel (setNewMessage m) w) in
  (exists c1, pw_panel w1 = Some c1 /\ last (chatMessages c1) = Some (mk_chat (z_to_string t1) "current_user" m t1)) /\
  pw_panel (toggle_panel t2 w1) = None /\
  pw_panel (toggle_panel t3 (toggle_panel t2 w1)) = Some (mount_collab t3) /\
  (forall origin, copyRoomLink origin page_roomId = origin ++ "/collaborate/problem-123") /\
  resolve "/collaborate/problem-123" = NotFoundPage.
Proof.
  intros Hs Hp Hm w1. apply String.eqb_neq in Hm.
  split; [|split; [|split; [|split; [done|reflexivity]]]].
  - subst w1. unfold in_panel. rewrite Hp. simpl. eexists. split; [reflexivity|].
    unfold collabSendMessage. simpl. rewrite Hm. simpl. by rewrite last_snoc.
  - unfold toggle_panel. simpl. by rewrite Hs.
  - unfold toggle_panel. simpl. by rewrite Hs.
Qed.

Lemma collab_chat_lost_witness :
  let w := mk_pwp (toggleCollaboration (mount problem_1)) (Some (mount_collab 0)) in
  let w1 := in_panel (collabSendMessage 5) (in_panel (setNewMessage "hi") w) in
  (exists c1, pw_panel w1 = Some c1 /\ last (chatMessages c1) = Some (mk_chat (z_to_string 5) "current_user" "hi" 5)) /\
  pw_panel (toggle_panel 6 w1) = None /\
  pw_panel (toggle_panel 7 (toggle_panel 6 w1)) = Some (mount_collab 7) /\
  (forall origin, copyRoomLink origin page_roomId = origin ++ "/collaborate/problem-123") /\
  resolve "/collaborate/problem-123" = NotFoundPage.
Proof. apply (collab_chat_lost _ (mount_collab 0)); [reflexivity | reflexivity | discriminate]. Defined.
