(* ===== verification/Admin.v ===== *)
(** * The admin dashboard (src/src/components/features/AdminDashboard.tsx)

    Two [useState] hooks, the tab and the search box; everything else is
    fixture data declared in the component: three problems, two users
    and four totals.  The search box's value is never read, so the
    problem table ignores it.  The problems share ids with
    src/src/utils/problemsData.ts but not their titles and figures.
    Dates are milliseconds since the epoch ([new Date('2024-01-15')] is
    UTC midnight); [toLocaleDateString] is a parameter. *)

From S2P Require Import Prelude Codec ProblemsData ProblemsPage ProblemDetail.

(** Lines 17-25: the component's own [interface Problem]. *)
Inductive problem_status : Type := Draft | Published | Archived.

Record AdminProblem : Type := mk_admin_problem {
  ap_id : string; ap_title : string; ap_difficulty : difficulty; ap_status : problem_status;
  ap_submissions : Z;
  ap_acceptance_tenths : Z;       (** [acceptance], a number with one decimal, times ten *)
  createdAt : Z }.

(** Lines 27-35: [interface User]. *)
Inductive admin_role : Type := AdminRoleUser | AdminRoleAdmin.

Record AdminUser : Type := mk_admin_user {
  au_id : string; au_username : string; au_email : string; au_role : admin_role;
  joinDate : Z; au_problemsSolved : Z; lastActive : Z }.

(** Lines 41-69 *)
Definition mockProblems : list AdminProblem :=
  [mk_admin_problem "1" "Two Sum" Easy Published 1425 615 1705276800000;
   mk_admin_problem "2" "Binary Tree Traversal" Medium Published 892 452 1705708800000;
   mk_admin_problem "3" "Graph Algorithms" Hard Draft 0 0 1706140800000].

(** Lines 71-90, for a render at time [now]. *)
Definition mockUsers (now : Z) : list AdminUser :=
  [mk_admin_user "1" "john_doe" "john@example.com" AdminRoleUser 1704844800000 45 now;
   mk_admin_user "2" "alice_dev" "alice@example.com" AdminRoleUser 1705017600000 67 (now - 2 * 60 * 60 * 1000)].

(** Lines 92-97: the component's [stats]. *)
Record admin_stats : Type := mk_admin_stats { totalUsers : Z; totalProblems : Z; totalSubmissions : Z; activeUsers : Z }.

Definition dashboard_stats : admin_stats := mk_admin_stats 1247 156 45678 89.

(** [${n}] for a non-negative number with at most one decimal, given in tenths. *)
Definition tenths_to_string (t : Z) : string :=
  if (t mod 10 =? 0)%Z then z_to_string (t / 10) else z_to_string (t / 10) ++ "." ++ z_to_string (t mod 10).

Inductive admin_tab : Type := Overview | ProblemsTab | UsersTab | SubmissionsAdminTab.

#[global] Instance admin_tab_eq_dec : EqDecision admin_tab.
Proof. solve_decision. Defined.

Record admin : Type := mk_admin { admin_activeTab : admin_tab; searchQuery : string }.

(** Lines 38-39 *)
Definition mount_admin : admin := mk_admin Overview "".

(** Line 358 *)
Definition setAdminTab (t : admin_tab) (a : admin) : admin := mk_admin t (searchQuery a).

(** Line 192 *)
Definition setAdminSearch (q : string) (a : admin) : admin := mk_admin (admin_activeTab a) q.

Section Render.
  Variable toLocaleDateString : Z -> string.

  (** Lines 221-259: a row of the problem table. *)
Definition admin_problem_row (p : AdminProblem) : list string :=
    [ap_title p;
     "badge " ++ match ap_difficulty p with Easy => "badge-easy" | Medium => "badge-medium" | Hard => "badge-hard" end;
     difficulty_name (ap_difficulty p);
     "badge " ++ match ap_status p with Published => "badge-accepted" | Draft => "badge-tle" | Archived => "badge-wrong" end;
     match ap_status p with Published => "published" | Draft => "draft" | Archived => "archived" end;
     z_to_string (ap_submissions p);
     tenths_to_string (ap_acceptance_tenths p) ++ "%";
     toLocaleDateString (createdAt p)].

  (** Lines 298-327: a row of the user table. *)
Definition admin_user_row (u : AdminUser) : list string :=
    [au_username u; au_email u;
     "badge " ++ match au_role u with AdminRoleAdmin => "badge-accepted" | AdminRoleUser => "badge-tle" end;
     match au_role u with AdminRoleAdmin => "admin" | AdminRoleUser => "user" end;
     z_to_string (au_problemsSolved u); toLocaleDateString (joinDate u); toLocaleDateString (lastActive u)].

(** Lines 152-176: the Recent Activity entries, text and age. *)
Definition recent_activity : list (string * string) :=
  [("New user registered: alice_coder", "2 minutes ago");
   ("Problem " ++ dquote ++ "Dynamic Programming Basics" ++ dquote ++ " published", "15 minutes ago");
   ("Contest " ++ dquote ++ "Weekly Challenge #47" ++ dquote ++ " started", "1 hour ago")].

(** The heading, search placeholder, buttons and column titles of a table tab. *)
Record table_head : Type := mk_table_head {
  th_title : string; th_search : option string; th_buttons : list string; th_columns : list string }.

(** Lines 180-220 *)
Definition problems_head : table_head :=
  mk_table_head "Problem Management" (Some "Search problems...") ["Filter"; "Add Problem"]
    ["Title"; "Difficulty"; "Status"; "Submissions"; "Acceptance"; "Created"; "Actions"].

(** Lines 267-297 *)
Definition users_head : table_head :=
  mk_table_head "User Management" None ["Export"; "Import"]
    ["Username"; "Email"; "Role"; "Problems Solved"; "Join Date"; "Last Active"; "Actions"].

(** Lines 99-150: the four stat cards. *)
Definition overview_cards : list (string * string) :=
  [("Total Users", z_to_string (totalUsers dashboard_stats)); ("Total Problems", z_to_string (totalProblems dashboard_stats));
   ("Total Submissions", z_to_string (totalSubmissions dashboard_stats));
   ("Active Users", z_to_string (activeUsers dashboard_stats))].

Inductive admin_view : Type :=
| OverviewView (cards : list (string * string)) (activity : list (string * string))
| ProblemsView (search : string) (rows : list (list string))
| UsersView (rows : list (list string))
| ComingSoon.

  (** Lines 373-381: the content of the active tab, at time [now]. *)
Definition render_admin (now : Z) (a : admin) : admin_view :=
    match admin_activeTab a with
    | Overview => OverviewView overview_cards recent_activity
    | ProblemsTab => ProblemsView (searchQuery a) (admin_problem_row <$> mockProblems)
    | UsersTab => UsersView (admin_user_row <$> mockUsers now)
    | SubmissionsAdminTab => ComingSoon
    end.

  (** Lines 335-340 *)
Definition admin_tabs : list (admin_tab * string) :=
    [(Overview, "Overview"); (ProblemsTab, "Problems"); (UsersTab, "Users"); (SubmissionsAdminTab, "Submissions")].

  (** Lines 342-387: the page: each tab button's label and class, the
      table heading of a table tab, the content. *)
Definition render_admin_page (now : Z) (a : admin) : list (string * string) * option table_head * admin_view :=
    ((fun t => (t.2, if bool_decide (t.1 = admin_activeTab a) then "bg-primary-600 text-white"
                     else "text-gray-400 hover:text-gray-100 hover:bg-gray-800")) <$> admin_tabs,
     match admin_activeTab a with ProblemsTab => Some problems_head | UsersTab => Some users_head | _ => None end,
     render_admin now a).
End Render.

(** ** Properties *)

  (** C24: The admin dashboard is detached from the data it administers:
      whatever is typed in its search box, the problem table lists all
      three fixture rows; and its rows disagree with the problem data the
      rest of the client shows for the same ids (problem 1 has 1425
      submissions and 61.5% here, 2314 submissions and 61.6% on the list
      and its page; problem 2 is a different problem), while it counts 156
      problems where there are 8. *)
Theorem admin_data_detached toLocaleDateString now a q :
  admin_activeTab a = ProblemsTab ->
  render_admin toLocaleDateString now (setAdminSearch q a) =
    ProblemsView q (admin_problem_row toLocaleDateString <$> mockProblems) /\
  List.length (admin_problem_row toLocaleDateString <$> mockProblems) = 3%nat /\
  (exists p, find_problem "1" = Some p /\ p_title p = "Two Sum" /\
     getAcceptanceRate (p_acceptedCount p) (p_submissionCount p) = "61.6" /\
     h_submissions (render_header p) = "2314 submissions" /\
     take 7 (admin_problem_row toLocaleDateString (mk_admin_problem "1" "Two Sum" Easy Published 1425 615 1705276800000))
       = ["Two Sum"; "badge badge-easy"; "easy"; "badge badge-accepted"; "published"; "1425"; "61.5%"]) /\
  (exists p, find_problem "2" = Some p /\ p_title p <> "Binary Tree Traversal") /\
  totalProblems dashboard_stats = 156%Z /\ List.length problems = 8%nat.
Proof.
  intros Ha. split; [unfold render_admin, setAdminSearch; simpl; by rewrite Ha|].
  split; [reflexivity|]. split; [eexists; split; [reflexivity|]; repeat split; vm_compute; reflexivity|].
  split; [eexists; split; [reflexivity|]; discriminate|]. split; reflexivity.
Qed.

Lemma admin_data_detached_witness :
  render_admin (fun _ => "1/15/2024") 0 (setAdminSearch "Graph" (mk_admin ProblemsTab "")) =
    ProblemsView "Graph" (admin_problem_row (fun _ => "1/15/2024") <$> mockProblems) /\
  List.length (admin_problem_row (fun _ => "1/15/2024") <$> mockProblems) = 3%nat.
Proof.
  destruct (admin_data_detached (fun _ => "1/15/2024") 0 (mk_admin ProblemsTab "") "Graph" eq_refl) as (H1 & H2 & _).
  split; [exact H1 | exact H2].
Defined.
