(* ===== verification/StaticPages.v ===== *)
(** * The layouts and static pages (src/src/layouts, src/src/pages/HomePage.tsx,
      src/src/pages/NotFoundPage.tsx, src/src/components/common/Footer.tsx,
      src/src/components/common/ThemeToggle.tsx)

    These components keep no state.  What they render is their text and
    their links: router [Link]s, which navigate inside the application,
    and plain anchors [<a href="#">], which go nowhere.  The home page
    mounts the contest dashboard, so it shows [Contest]'s banner; the
    footers print [new Date().getFullYear()], an input here.  ThemeToggle
    reads [useTheme()] from src/src/contexts/ThemeContext, which is not in
    the sources: the theme is a parameter. *)

From S2P Require Import Prelude Codec Contest Router.

(** A link as rendered: a router [Link], a plain anchor, or an anchor
    with [target="_blank"] and [rel="noopener noreferrer"], which opens a
    new tab and leaves the page where it is. *)
Inductive link_kind : Type := RouterLink | Anchor | ExternalAnchor.

Record page_link : Type := mk_page_link { pl_kind : link_kind; pl_to : string; pl_label : string }.

(** Footer.tsx lines 11-113 *)
Definition footer_links : list page_link :=
  [mk_page_link RouterLink "/" "Code Hustle";
   mk_page_link RouterLink "/problems" "Problem Set"; mk_page_link RouterLink "/leaderboard" "Leaderboard";
   mk_page_link Anchor "#" "API Docs"; mk_page_link Anchor "#" "Status";
   mk_page_link Anchor "#" "Documentation"; mk_page_link Anchor "#" "Tutorials";
   mk_page_link Anchor "#" "Community"; mk_page_link Anchor "#" "Support";
   mk_page_link Anchor "#" "GitHub"; mk_page_link Anchor "#" "Twitter"; mk_page_link Anchor "#" "LinkedIn";
   mk_page_link Anchor "#" "Privacy"; mk_page_link Anchor "#" "Terms"; mk_page_link Anchor "#" "Cookies"].

(** Footer.tsx line 102 and AuthLayout.tsx line 22 *)
Definition copyright (year : Z) (tail : string) : string :=
  "© " ++ z_to_string year ++ " Code Hustle. " ++ tail.

(** HomePage.tsx lines 29-36 and 205-213 *)
Definition home_links : list page_link :=
  [mk_page_link RouterLink "/problems" "Start Coding"; mk_page_link RouterLink "/auth/register" "Join Community";
   mk_page_link RouterLink "/auth/register" "Get Started Free"; mk_page_link RouterLink "/problems" "Explore Problems"].

(** HomePage.tsx lines 173-189: the four figures. *)
Definition home_stats : list (string * string) :=
  [("500+", "Problems"); ("10K+", "Developers"); ("1M+", "Submissions"); ("24/7", "Uptime")].

(** HomePage.tsx lines 58-168: the six feature cards, title and text. *)
Definition home_features : list (string * string) :=
  [("Advanced Code Editor",
    "Monaco Editor with syntax highlighting, IntelliSense, and multi-language support. Code like a pro with our VS Code-powered environment.");
   ("Lightning Fast Execution",
    "Secure Docker containers with optimized runtime environments. Get instant feedback with sub-second execution times.");
   ("Global Leaderboards",
    "Compete with developers worldwide. Track your progress, earn achievements, and climb the ranks in real-time competitions.");
   ("Community Driven",
    "Join a thriving community of competitive programmers. Share solutions, discuss algorithms, and learn from the best.");
   ("Progress Analytics",
    "Detailed performance metrics and analytics. Track your improvement with comprehensive statistics and insights.");
   ("Comprehensive Testing",
    "Rigorous test cases with edge case coverage. Detailed feedback helps you understand and fix issues quickly.")].

(** HomePage.tsx lines 6-220: the links, the contest dashboard it mounts
    (at [t0], rendered at [now], on tab [tab]), the features and the
    figures. *)
Record home_view : Type := mk_home_view {
  hv_links : list page_link; hv_contests : dashboard_view; hv_features : list (string * string);
  hv_stats : list (string * string) }.

Definition render_home (toLocaleDateString : Z -> string) (t0 now : Z) (tab : contest_tab) : home_view :=
  mk_home_view home_links (render_dashboard toLocaleDateString t0 now tab) home_features home_stats.

(** NotFoundPage.tsx lines 5-33: the link home, and the button that
    calls [window.history.back()]. *)
Definition notfound_links : list page_link := [mk_page_link RouterLink "/" "Back to Home"].

(** AuthLayout.tsx lines 10-13 *)
Definition auth_layout_links : list page_link := [mk_page_link RouterLink "/" "Code Hustle"].

(** ThemeToggle.tsx lines 9-19, for the context's theme. *)
Inductive theme : Type := Dark | Light.

Definition theme_toggle_label (t : theme) : string :=
  match t with Dark => "Switch to light mode" | Light => "Switch to dark mode" end.

(** A Navbar link as a router link. *)
Definition of_nav (l : nav_link) : page_link := mk_page_link RouterLink (link_to l) (link_label l).

(** MainLayout.tsx lines 6-16: the Navbar, the page, the Footer. *)
Definition main_layout (nav page : list page_link) : list page_link := nav ++ page ++ footer_links.

(** AuthLayout.tsx lines 6-26: the logo link, the page; no Navbar. *)
Definition auth_layout (page : list page_link) : list page_link := auth_layout_links ++ page.
