(* ===== verification/ClientApp.v ===== *)
(** * The client as one program (src/src/App.tsx with its layouts and pages)

    [App] renders, inside the [AuthProvider], the element the route table
    gives the router's location, in its layout.  The composed state is
    the provider's (whose [location] is the router's), the Navbar's two
    flags, the two form pages' own states, the problem list's filters and
    sort and the leaderboard's search, which decide the rows and so the
    links those pages render; the problem page and its panels keep their
    state to themselves ([ProblemDetail], [Assistant], [Collab]) and render
    no link that depends on it.  A step is what a visitor can do: load a
    URL (a full page load keeps only [localStorage]), let the provider's
    mount effect run, follow a link the current page renders, use the
    Navbar, edit and submit the two forms, filter and sort the problem
    list, search the leaderboard.  Following a router link keeps the
    provider; an element that is replaced is unmounted, so its state
    starts afresh when it comes back; a plain anchor with a path is a full
    page load, one with ["#"] stays on the page. *)

From S2P Require Import Prelude ProblemsData JsSort ProblemsPage Leaderboard ClientAuth AuthPages ProblemDetail Router Profile StaticPages.
From stdpp Require Import relations.

(** ** Layouts and links *)

Inductive layout : Type := MainL | AuthL | NoLayout.

#[global] Instance layout_eq_dec : EqDecision layout.
Proof. solve_decision. Defined.

(** App.tsx lines 33-45: the layout route around each element. *)
Definition layout_of (p : route_page) : layout :=
  match p with
  | AuthLayoutOnly | LoginPage | RegisterPage => AuthL
  | NotFoundPage => NoLayout
  | _ => MainL
  end.

Record client : Type := mk_client {
  cl_auth : auth_state; cl_nav : nav_state; cl_login : login_page; cl_register : register_page;
  cl_problems : page;             (** the problem list's six hooks *)
  cl_board : string }.            (** the leaderboard's search box *)

Definition with_auth (s : auth_state) (c : client) : client :=
  mk_client s (cl_nav c) (cl_login c) (cl_register c) (cl_problems c) (cl_board c).
Definition with_nav (n : nav_state) (c : client) : client :=
  mk_client (cl_auth c) n (cl_login c) (cl_register c) (cl_problems c) (cl_board c).
Definition with_login (p : login_page) (c : client) : client :=
  mk_client (cl_auth c) (cl_nav c) p (cl_register c) (cl_problems c) (cl_board c).
Definition with_register (p : register_page) (c : client) : client :=
  mk_client (cl_auth c) (cl_nav c) (cl_login c) p (cl_problems c) (cl_board c).
Definition with_problems (pg : page) (c : client) : client :=
  mk_client (cl_auth c) (cl_nav c) (cl_login c) (cl_register c) pg (cl_board c).
Definition with_board (q : string) (c : client) : client :=
  mk_client (cl_auth c) (cl_nav c) (cl_login c) (cl_register c) (cl_problems c) q.

Definition current (c : client) : route_page := resolve (location (cl_auth c)).

Definition router_link (to : string) : page_link := mk_page_link RouterLink to to.

Section Links.
  Variable localeCompare : string -> string -> comparison.

(** The links the element of a route renders: the rows the problem list
    and the leaderboard show for their state (both links of a problem row
    go to the same path); the problem page's "Back to Problems" is a
    button calling [navigate('/problems')] (ProblemDetailPage.tsx lines 63
    and 161). *)
Definition page_links (c : client) (p : route_page) : list page_link :=
  match p with
  | HomePage => home_links
  | ProblemsListPage =>
      (fun pb => mk_page_link RouterLink (row_link (row_of pb)) (p_title pb)) <$> filteredProblems localeCompare (cl_problems c)
  | ProblemDetailPage _ => [mk_page_link RouterLink "/problems" "Back to Problems"]
  | LeaderboardPage =>
      (fun e => mk_page_link RouterLink (lr_link (row_of_entry e)) (Leaderboard.username e)) <$> filteredLeaderboard (cl_board c)
  | ProfilePage u =>
      ((fun sl => mk_page_link ExternalAnchor sl.1 sl.2) <$> pv_social (render_profile u)) ++
      ((fun r => mk_page_link Anchor (sr_href r) (sr_title r)) <$> pv_submissions (render_profile u)) ++
      ((fun k => mk_page_link Anchor (card_href k) (card_title k)) <$> pv_cards (render_profile u))
  | AdminDashboard | AuthLayoutOnly => []
  | LoginPage => router_link <$> lv_links (render_login (cl_login c))
  | RegisterPage => router_link <$> rv_links (render_register (cl_register c))
  | NotFoundPage => notfound_links
  end.

(** Navbar.tsx lines 33-186: each link with whether its [onClick] is
    [closeMenus] (the logo, the profile menu and the mobile menu). *)
Definition navbar_click_links (s : auth_state) (n : nav_state) : list (page_link * bool) :=
  [(mk_page_link RouterLink "/" "Code Hustle", true)] ++
  ((fun l => (of_nav l, false)) <$> desktop_links (user s)) ++
  ((fun l => (of_nav l, isAuthenticated s)) <$> account_links s n) ++
  ((fun l => (of_nav l, true)) <$> mobile_links s n).

(** Everything the current location renders, with the menu-closing flag. *)
Definition rendered_links (c : client) : list (page_link * bool) :=
  let p := current c in
  let own := (fun l => (l, false)) <$> page_links c p in
  match layout_of p with
  | MainL => navbar_click_links (cl_auth c) (cl_nav c) ++ own ++ ((fun l => (l, false)) <$> footer_links)
  | AuthL => ((fun l => (l, false)) <$> auth_layout_links) ++ own
  | NoLayout => own
  end.
End Links.

(** ** Navigation *)

(** A full page load at [path]: only [localStorage] survives. *)
Definition client_load (stored : option string) (path : string) : client :=
  mk_client (page_load stored path) (mk_nav false false) initial_login_page initial_register_page initial_page "".

Definition with_location (loc : string) (s : auth_state) : auth_state :=
  mk_auth (auth_token s) (user s) (isLoading s) loc.

(** The router moves to [auth']'s location: the Navbar survives when the
    main layout stays (with its menus closed by [closeMenus] when asked),
    a page whose element is replaced starts afresh. *)
Definition moved (c : client) (auth' : auth_state) (close : bool) : client :=
  let before := current c in
  let after := resolve (location auth') in
  mk_client auth'
    (if bool_decide (layout_of before = MainL /\ layout_of after = MainL) then
       (if close then closeMenus (cl_nav c) else cl_nav c)
     else mk_nav false false)
    (if bool_decide (before = after) then cl_login c else initial_login_page)
    (if bool_decide (before = after) then cl_register c else initial_register_page)
    (if bool_decide (before = after) then cl_problems c else initial_page)
    (if bool_decide (before = after) then cl_board c else "").

Definition follow (c : client) (l : page_link) (close : bool) : client :=
  match pl_kind l with
  | RouterLink => moved c (with_location (pl_to l) (cl_auth c)) close
  | Anchor => if String.eqb (pl_to l) "#" then c else client_load (auth_token (cl_auth c)) (pl_to l)
  | ExternalAnchor => c
  end.

Inductive login_edit : Type := EditEmail (v : string) | EditPassword (v : string) | ShowPassword | Remember.

Definition apply_login_edit (e : login_edit) (p : login_page) : login_page :=
  match e with
  | EditEmail v => lp_setEmail v p
  | EditPassword v => lp_setPassword v p
  | ShowPassword => lp_toggleShowPassword p
  | Remember => lp_toggleRemember p
  end.

Section Steps.
  Variable localeCompare : string -> string -> comparison.
  Variable jwtDecode : string -> option User.

  (** The login page's submit: its state, then the provider's navigation. *)
Definition client_login (c : client) : client :=
    let '(p', s') := login_page_submit jwtDecode (cl_login c) (cl_auth c) in
    moved (with_login p' c) s' false.

Definition client_register (c : client) : client :=
    let '(p', s') := register_page_submit jwtDecode (cl_register c) (cl_auth c) in
    moved (with_register p' c) s' false.

  (** Navbar.tsx lines 21-24 with the provider's navigation to ["/"]. *)
Definition client_logout (c : client) : client :=
    let '(n', s') := handleLogout (cl_nav c) (cl_auth c) in moved (with_nav n' c) s' false.

Inductive client_step : client -> client -> Prop :=
  | cl_mount c : client_step c (with_auth (checkAuth jwtDecode (cl_auth c)) c)
  | cl_visit path c : client_step c (client_load (auth_token (cl_auth c)) path)
  | cl_click l b c : (l, b) ∈ rendered_links localeCompare c -> client_step c (follow c l b)
  | cl_menu c : layout_of (current c) = MainL -> client_step c (with_nav (toggleMenu (cl_nav c)) c)
  | cl_profile_menu c : layout_of (current c) = MainL -> isAuthenticated (cl_auth c) = true ->
      client_step c (with_nav (toggleProfile (cl_nav c)) c)
  | cl_logout c : layout_of (current c) = MainL -> isAuthenticated (cl_auth c) = true ->
      isProfileOpen (cl_nav c) = true -> client_step c (client_logout c)
  | cl_login_edit e c : current c = LoginPage ->
      client_step c (with_login (apply_login_edit e (cl_login c)) c)
  | cl_login_submit c : current c = LoginPage -> client_step c (client_login c)
  | cl_register_edit u e p cf sp sc t c : current c = RegisterPage ->
      client_step c (with_register (rp_toggles sp sc t (rp_set u e p cf (cl_register c))) c)
  | cl_register_submit c : current c = RegisterPage -> client_step c (client_register c)
  | cl_problems_event e c : current c = ProblemsListPage -> client_step c (with_problems (apply_event (cl_problems c) e) c)
  | cl_board_search q c : current c = LeaderboardPage -> client_step c (with_board q c).
End Steps.

(** ** What a state may show *)

(** The messages the two form pages can show. *)
Definition login_messages : list string := [""; "Login failed. Please check your credentials."].

Definition register_messages : list string :=
  [""; "Passwords do not match"; "Password must be at least 8 characters long"; "Registration failed. Please try again."].

(** The router links no route matches. *)
Definition dead_targets : list string := ["/settings"; "/auth/forgot-password"; "/terms"; "/privacy"].

#[global] Instance link_kind_eq_dec : EqDecision link_kind.
Proof. solve_decision. Defined.

#[global] Instance page_link_eq_dec : EqDecision page_link.
Proof. solve_decision. Defined.

(** A rendered link is sound when a router link reaches a page other than
    the 404 page (or is one of the known dead targets, or the profile link
    of a username the route cannot carry), a plain anchor either stays on
    the page or loads the page of a problem of the fixture, and an anchor
    that opens a new tab goes to an [https://] address. *)
Definition link_ok (l : page_link) : Prop :=
  match pl_kind l with
  | RouterLink =>
      resolve (pl_to l) <> NotFoundPage \/ pl_to l ∈ dead_targets \/
      exists u : string, pl_to l = ("/profile/" ++ u)%string /\ (u = "" \/ has_char "/" u = true)
  | Anchor => pl_to l = "#" \/ exists p, p ∈ problems /\ resolve (pl_to l) = ProblemDetailPage (p_id p)
  | ExternalAnchor => String.prefix "https://" (pl_to l) = true
  end.

Definition link_ok_b (l : page_link) : bool :=
  match pl_kind l with
  | RouterLink => negb (bool_decide (resolve (pl_to l) = NotFoundPage)) || bool_decide (pl_to l ∈ dead_targets)
  | Anchor => String.eqb (pl_to l) "#" || existsb (fun p => bool_decide (resolve (pl_to l) = ProblemDetailPage (p_id p))) problems
  | ExternalAnchor => String.prefix "https://" (pl_to l)
  end.

(** ** Lemmas *)

Lemma link_ok_b_sound l : link_ok_b l = true -> link_ok l.
Proof.
  unfold link_ok_b, link_ok. destruct (pl_kind l); [rewrite orb_true_iff.. | done].
  - rewrite negb_true_iff, bool_decide_eq_false, bool_decide_eq_true. tauto.
  - rewrite String.eqb_eq, existsb_exists. intros [H|(p & Hp & Hr)]; [by left|right].
    exists p. split; [by apply list_elem_of_In|]. by apply bool_decide_eq_true in Hr.
Qed.

Lemma pairs_ok (L : list (page_link * bool)) :
  forallb (fun lb => link_ok_b lb.1) L = true -> Forall (fun lb => link_ok lb.1) L.
Proof.
  intros H. apply Forall_forall. intros x Hx. apply link_ok_b_sound.
  eapply forallb_forall in H; [exact H|]. by apply list_elem_of_In.
Qed.

Ltac links_tac := apply pairs_ok; vm_compute; reflexivity.

Lemma resolve_profile u : u <> "" -> has_char "/" u = false -> resolve ("/profile/" ++ u) = ProfilePage u.
Proof.
  intros Hu Hc. unfold resolve, segments.
  change ("/profile/" ++ u)%string with ("" ++ String "/" ("profile" ++ String "/" u))%string.
  rewrite !split_on_app, split_on_no_sep by done.
  destruct u as [|a u']; [done|]. vm_compute. reflexivity.
Qed.

Lemma profile_link_ok u label : link_ok (mk_page_link RouterLink ("/profile/" ++ u) label).
Proof.
  unfold link_ok; simpl. destruct (String.eqb_spec u "") as [->|Hu]; [right; right; eauto|].
  destruct (has_char "/" u) eqn:Hc; [right; right; eauto|].
  left. rewrite resolve_profile by done. discriminate.
Qed.

Lemma navbar_ok s n : Forall (fun lb => link_ok lb.1) (navbar_click_links s n).
Proof.
  unfold navbar_click_links. repeat (apply Forall_app; split).
  - links_tac.
  - destruct (user s) as [[? ? ? []]|]; links_tac.
  - unfold account_links. destruct (isAuthenticated s), (isProfileOpen n); try links_tac.
    constructor; [apply profile_link_ok|]. links_tac.
  - unfold mobile_links. destruct (isMenuOpen n), (isAuthenticated s); links_tac.
Qed.

Lemma rows_ok {A} (f : A -> page_link) (L L' : list A) :
  (forall x, x ∈ L' -> x ∈ L) -> forallb (fun x => link_ok_b (f x)) L = true ->
  Forall (fun lb => link_ok lb.1) ((fun l => (l, false)) <$> (f <$> L')).
Proof.
  intros Hsub Hb. apply Forall_forall. intros lb Hlb.
  apply list_elem_of_fmap in Hlb as (l & -> & Hl). apply list_elem_of_fmap in Hl as (x & -> & Hx).
  apply link_ok_b_sound. eapply forallb_forall in Hb; [exact Hb|]. by apply list_elem_of_In, Hsub.
Qed.

Lemma filter_elem {A} (f : A -> bool) (l : list A) x : x ∈ List.filter f l -> x ∈ l.
Proof. rewrite !list_elem_of_In, filter_In. tauto. Qed.

Section Audit.
  Variable localeCompare : string -> string -> comparison.

Lemma filteredProblems_elem pg pb : pb ∈ filteredProblems localeCompare pg -> pb ∈ problems.
  Proof. unfold filteredProblems. rewrite sort_by_perm. apply filter_elem. Qed.

Lemma page_links_ok c p : Forall (fun lb => link_ok lb.1) ((fun l => (l, false)) <$> page_links localeCompare c p).
  Proof.
    destruct p; [links_tac | | links_tac | | links_tac ..].
    - apply (rows_ok _ problems); [apply filteredProblems_elem | vm_compute; reflexivity].
    - apply (rows_ok _ leaderboardData); [apply filter_elem | vm_compute; reflexivity].
  Qed.

Lemma rendered_link_mem l b c :
    bool_decide ((l, b) ∈ rendered_links localeCompare c) = true -> (l, b) ∈ rendered_links localeCompare c.
  Proof. apply bool_decide_eq_true_1. Qed.

Lemma rendered_links_ok c : Forall (fun lb => link_ok lb.1) (rendered_links localeCompare c).
  Proof.
    unfold rendered_links. cbv zeta. destruct (layout_of (current c)).
    - apply Forall_app; split; [apply navbar_ok|]. apply Forall_app; split; [apply page_links_ok | links_tac].
    - apply Forall_app; split; [links_tac | apply page_links_ok].
    - apply page_links_ok.
  Qed.
End Audit.

Lemma html_email_nonempty s : html_email_valid s = true -> String.eqb s "" = false.
Proof. by destruct s. Qed.

Section Invariant.
  Variable jwtDecode : string -> option User.
  Hypothesis Hmock : is_Some (jwtDecode mock_token).

  (** The composed invariant: the provider's, and the messages the pages show. *)
Definition client_inv (c : client) : Prop :=
    user_from_token jwtDecode (cl_auth c) /\ lp_error (cl_login c) ∈ login_messages /\
    rp_error (cl_register c) ∈ register_messages.

Lemma provider_call_settled failure s :
    (provider_call jwtDecode failure s).2 = Resolved \/ (provider_call jwtDecode failure s).2 = Rejected failure.
  Proof. unfold provider_call. simpl. destruct (jwtDecode mock_token); auto. Qed.

Lemma login_page_submit_message p s :
    lp_error p ∈ login_messages -> lp_error (login_page_submit jwtDecode p s).1 ∈ login_messages.
  Proof.
    unfold login_page_submit. destruct (login_form_valid p) eqn:Hv; simpl; [|done]. intros _.
    apply andb_true_iff in Hv as [He Hp]. apply negb_true_iff in Hp.
    unfold login_submit. rewrite (html_email_nonempty _ He), Hp. simpl. unfold provider_login.
    pose proof (provider_call_settled "Login failed. Please check your credentials." s) as E.
    destruct (provider_call _ _ _) as [s' r]. simpl in E |- *. destruct E as [-> | ->]; set_solver.
  Qed.

Lemma register_form_check_message u e pw cf m :
    String.eqb u "" = false -> String.eqb e "" = false -> String.eqb pw "" = false -> String.eqb cf "" = false ->
    register_form_check u e pw cf = Some m -> m ∈ register_messages.
  Proof.
    unfold register_form_check. intros -> -> -> ->. simpl.
    destruct (negb _); [intros [= <-]; set_solver|]. destruct (_ <? _)%nat; [intros [= <-]; set_solver|done].
  Qed.

Lemma register_page_submit_message p s :
    rp_error p ∈ register_messages -> rp_error (register_page_submit jwtDecode p s).1 ∈ register_messages.
  Proof.
    unfold register_page_submit. destruct (register_form_valid p) eqn:Hv; simpl; [|done]. intros _.
    unfold register_form_valid in Hv. rewrite !andb_true_iff, !negb_true_iff in Hv.
    destruct Hv as [[[[Hu He] Hp] Hc] _]. unfold register_submit.
    destruct (register_form_check _ _ _ _) as [m|] eqn:Hf.
    - simpl. eapply register_form_check_message; [exact Hu | by apply html_email_nonempty | exact Hp | exact Hc | exact Hf].
    - unfold provider_register. pose proof (provider_call_settled "Registration failed. Please try again." s) as E.
      destruct (provider_call _ _ _) as [s' r]. simpl in E |- *. destruct E as [-> | ->]; set_solver.
  Qed.

Lemma login_page_submit_user p s :
    user_from_token jwtDecode s -> user_from_token jwtDecode (login_page_submit jwtDecode p s).2.
  Proof.
    unfold login_page_submit. destruct (negb _); [done|]. intros Hs.
    pose proof (auth_step_user jwtDecode s _ Hmock (step_login jwtDecode (lp_email p) (lp_password p) s) Hs) as H.
    destruct (login_submit _ _ _ _). exact H.
  Qed.

Lemma register_page_submit_user p s :
    user_from_token jwtDecode s -> user_from_token jwtDecode (register_page_submit jwtDecode p s).2.
  Proof.
    unfold register_page_submit. destruct (negb _); [done|]. intros Hs.
    pose proof (auth_step_user jwtDecode s _ Hmock
                  (step_register jwtDecode (rp_username p) (rp_email p) (rp_password p) (rp_confirm p) s) Hs) as H.
    destruct (register_submit _ _ _ _ _ _). exact H.
  Qed.

Lemma moved_inv c s' b :
    user_from_token jwtDecode s' -> lp_error (cl_login c) ∈ login_messages ->
    rp_error (cl_register c) ∈ register_messages -> client_inv (moved c s' b).
  Proof.
    intros Hs Hl Hr. unfold moved, client_inv. simpl.
    split; [done|]. split; case_bool_decide; first [done | set_solver].
  Qed.

Lemma client_load_inv stored path : client_inv (client_load stored path).
  Proof. split; [intros u [=]|split; set_solver]. Qed.

Lemma client_step_inv localeCompare c c' : client_inv c -> client_step localeCompare jwtDecode c c' -> client_inv c'.
  Proof.
    intros (Hu & Hl & Hr) Hstep. destruct Hstep as [c|path c|l b c _|c _|c _ _|c _ _ _|e c _|c _|u e p cf sp sc t c _|c _|e c _|q c _].
    - split; [|done]. by apply (auth_step_user jwtDecode (cl_auth c) _ Hmock (step_mount jwtDecode _)).
    - apply client_load_inv.
    - unfold follow. destruct (pl_kind l); [by apply moved_inv| |done].
      destruct (String.eqb _ _); [done|apply client_load_inv].
    - done.
    - done.
    - unfold client_logout, handleLogout. simpl. apply moved_inv; [intros ? [=]|done|done].
    - split; [done|split; [|done]]. by destruct e.
    - unfold client_login. pose proof (login_page_submit_message (cl_login c) (cl_auth c) Hl) as Hm.
      pose proof (login_page_submit_user (cl_login c) (cl_auth c) Hu) as Hs.
      destruct (login_page_submit _ _ _). by apply moved_inv.
    - done.
    - unfold client_register. pose proof (register_page_submit_message (cl_register c) (cl_auth c) Hr) as Hm.
      pose proof (register_page_submit_user (cl_register c) (cl_auth c) Hu) as Hs.
      destruct (register_page_submit _ _ _). by apply moved_inv.
    - done.
    - done.
  Qed.
End Invariant.

(** ** Properties *)

  (** C16: From a page load, whatever a visitor does (loading URLs, the
      provider's mount, following any rendered link, the menus, logging
      out, editing and submitting either form, in any order), the signed-in
      user is the decoding of the stored token (when the mock token
      decodes), and each form page shows only the provider's failure or one
      of the register page's own two checks: the browser's [required] and
      [type="email"] validation makes "Please fill in all fields"
      unreachable on both pages. *)
Theorem client_app_invariant localeCompare jwtDecode stored path c :
  is_Some (jwtDecode mock_token) ->
  rtc (client_step localeCompare jwtDecode) (client_load stored path) c ->
  client_inv jwtDecode c /\ lp_error (cl_login c) <> "Please fill in all fields" /\
  rp_error (cl_register c) <> "Please fill in all fields".
Proof.
  intros Hm Hr. assert (Hinv : client_inv jwtDecode c).
  { pose proof (client_load_inv jwtDecode Hm stored path) as H0. revert H0.
    induction Hr as [|x y z Hxy _ IH]; intros Hx; [done|]. apply IH. by eapply client_step_inv. }
  destruct Hinv as (Hu & Hl & Hrg). split; [done|].
  split; intros E; [rewrite E in Hl | rewrite E in Hrg]; set_solver.
Qed.

  (** C14: Every link the client renders, in any state (any location, any
      signed-in user, any menu state), is sound: a router link reaches a
      page other than the 404 page unless it is one of four dead targets
      (the profile menu's [/settings], the auth pages' [/auth/forgot-password],
      [/terms] and [/privacy]) or the profile link of a username that is
      empty or contains a slash; the footer's and the pages' plain anchors
      are ["#"] or load a problem of the fixture; the profile page's
      Connect links, which open a new tab, go to [https://] addresses (the
      GitHub one is rendered on a profile page).  Each dead target is
      rendered in some state, and the route table sends it to the 404
      page. *)
Theorem client_links_audit localeCompare :
  (forall c l b, (l, b) ∈ rendered_links localeCompare c -> link_ok l) /\
  (forall t, t ∈ dead_targets -> resolve t = NotFoundPage /\
     exists c b, (mk_page_link RouterLink t (if String.eqb t "/settings" then "Settings" else t), b)
                   ∈ rendered_links localeCompare c) /\
  (mk_page_link ExternalAnchor "https://github.com/johndoe" "GitHub", false)
    ∈ rendered_links localeCompare (client_load None "/profile/johndoe").
Proof.
  split; [|split; [|apply rendered_link_mem; vm_compute; reflexivity]].
  - intros c l b Hl. pose proof (rendered_links_ok localeCompare c) as H. rewrite Forall_forall in H. exact (H _ Hl).
  - intros t Ht. repeat (apply elem_of_cons in Ht as [->|Ht]; [split; [reflexivity|]|]); [..|by apply not_elem_of_nil in Ht].
    + exists (mk_client (mk_auth (Some mock_token) (Some johndoe) false "/") (mk_nav false true)
                initial_login_page initial_register_page initial_page ""), true.
      apply rendered_link_mem. vm_compute. reflexivity.
    + exists (client_load None "/auth/login"), false. apply rendered_link_mem. vm_compute. reflexivity.
    + exists (client_load None "/auth/register"), false. apply rendered_link_mem. vm_compute. reflexivity.
    + exists (client_load None "/auth/register"), false. apply rendered_link_mem. vm_compute. reflexivity.
Qed.

(** A visit to the login page with the two fields filled in. *)
Definition filled_login : client :=
  let c0 := client_load None "/auth/login" in
  let c1 := with_login (apply_login_edit (EditEmail "a@x.com") (cl_login c0)) c0 in
  with_login (apply_login_edit (EditPassword "secret") (cl_login c1)) c1.

Definition sign_in_run (jwtDecode : string -> option User) : client := client_login jwtDecode filled_login.

(** From any state a visitor reaches the login page with a form the
    browser lets through: a visit to [/auth/login] and two edits. *)
Lemma sign_in_reachable localeCompare jwtDecode c0 :
  exists c, rtc (client_step localeCompare jwtDecode) c0 c /\ current c = LoginPage /\
            login_form_valid (cl_login c) = true.
Proof.
  set (c1 := client_load (auth_token (cl_auth c0)) "/auth/login").
  set (c2 := with_login (apply_login_edit (EditEmail "a@x.com") (cl_login c1)) c1).
  exists (with_login (apply_login_edit (EditPassword "secret") (cl_login c2)) c2).
  split; [|split; reflexivity].
  eapply rtc_l; [apply (cl_visit _ _ "/auth/login")|]. eapply rtc_l; [apply cl_login_edit; reflexivity|].
  apply rtc_once. apply cl_login_edit. reflexivity.
Qed.

Lemma client_app_invariant_witness :
  client_inv (fun _ => Some johndoe) (sign_in_run (fun _ => Some johndoe)) /\
  lp_error (cl_login (sign_in_run (fun _ => Some johndoe))) <> "Please fill in all fields" /\
  rp_error (cl_register (sign_in_run (fun _ => Some johndoe))) <> "Please fill in all fields".
Proof.
  apply (client_app_invariant String.compare _ None "/auth/login"); [by eexists|].
  eapply rtc_l; [apply (cl_login_edit _ _ (EditEmail "a@x.com")); reflexivity|].
  eapply rtc_l; [apply (cl_login_edit _ _ (EditPassword "secret")); reflexivity|].
  eapply rtc_l; [apply cl_login_submit; reflexivity|]. apply rtc_refl.
Defined.

Lemma login_page_submit_valid jwtDecode u p s :
  jwtDecode mock_token = Some u -> login_form_valid p = true ->
  login_page_submit jwtDecode p s =
    (mk_login_page (lp_email p) (lp_password p) (lp_showPassword p) (lp_remember p) "" false,
     mk_auth (Some mock_token) (Some u) false "/problems").
Proof.
  intros Hj Hv. unfold login_page_submit. rewrite Hv. simpl.
  apply andb_true_iff in Hv as [He Hp]. apply negb_true_iff in Hp.
  unfold login_submit. rewrite (html_email_nonempty _ He), Hp. simpl.
  unfold provider_login, provider_call. simpl. by rewrite Hj.
Qed.

  (** C37: Signing in from the login page, with any email and password the
      browser lets through, takes the client to the problem list with the
      mock token's user signed in, whatever was typed; the login page and
      the menus start afresh, and no rendered link leads to sign in any
      more.  Opening the profile menu and logging out then lands on the
      home page with nobody signed in and no token. *)
Theorem client_sign_in_flow localeCompare jwtDecode u c :
  jwtDecode mock_token = Some u -> current c = LoginPage -> login_form_valid (cl_login c) = true ->
  let c' := client_login jwtDecode c in
  c' = mk_client (mk_auth (Some mock_token) (Some u) false "/problems") (mk_nav false false)
         initial_login_page initial_register_page initial_page "" /\
  current c' = ProblemsListPage /\
  Forall (fun lb => pl_to lb.1 <> "/auth/login") (rendered_links localeCompare c') /\
  let c'' := client_logout (with_nav (toggleProfile (cl_nav c')) c') in
  current c'' = HomePage /\ user (cl_auth c'') = None /\ auth_token (cl_auth c'') = None.
Proof.
  intros Hj Hc Hv c'.
  assert (E : c' = mk_client (mk_auth (Some mock_token) (Some u) false "/problems") (mk_nav false false)
                     initial_login_page initial_register_page initial_page "").
  { subst c'. unfold client_login. rewrite (login_page_submit_valid _ u _ _ Hj Hv).
    unfold moved, current, with_login in *. cbn [cl_auth location]. rewrite Hc. reflexivity. }
  rewrite E. split; [done|]. split; [done|]. split; [|done].
  apply Forall_forall. intros lb Hlb.
  assert (Hb : forallb (fun lb => negb (String.eqb (pl_to lb.1) "/auth/login"))
                 (rendered_links localeCompare (mk_client (mk_auth (Some mock_token) (Some u) false "/problems")
                    (mk_nav false false) initial_login_page initial_register_page initial_page "")) = true)
    by (destruct u as [? ? ? []]; vm_compute; reflexivity).
  eapply forallb_forall in Hb; [|by apply list_elem_of_In].
  apply negb_true_iff, String.eqb_neq in Hb. exact Hb.
Qed.

Lemma client_sign_in_flow_witness :
  let c' := client_login (fun _ => Some johndoe) filled_login in
  c' = mk_client (mk_auth (Some mock_token) (Some johndoe) false "/problems") (mk_nav false false)
         initial_login_page initial_register_page initial_page "" /\
  current c' = ProblemsListPage /\
  Forall (fun lb => pl_to lb.1 <> "/auth/login") (rendered_links String.compare c') /\
  let c'' := client_logout (with_nav (toggleProfile (cl_nav c')) c') in
  current c'' = HomePage /\ user (cl_auth c'') = None /\ auth_token (cl_auth c'') = None.
Proof. apply (client_sign_in_flow _ _ johndoe); reflexivity. Defined.
